(** * flexx.app.model: synchronisation of properties and events between the
    Python [Model] object and its JavaScript twin.

    The development embeds [src/flexx/app/model.py]: the metaclass
    [ModelMeta] that creates proxy properties and emitters, the Python side
    of [Model], and the [Model.JS] class that runs in the browser.  Code of
    the [flexx.event] package, of the serializer and of the session is not
    part of that file; the pieces the model needs are written down in the
    modules [HasEvents], [HasEventsJS] and [Session] and in the class
    [Serializer] below.  Left out are [get_model_classes] and [_get_js],
    which produces the JavaScript source of a class. *)

From Stdlib Require Import QArith.
From stdpp Require Import base strings list gmap pretty sorting.

Local Open Scope string_scope.
Local Open Scope list_scope.
Local Open Scope nat_scope.

(** ** Python and JavaScript values *)

(** A value that crosses the language barrier.  [VModel] is a reference to a
    live [Model] object, by object identity. *)
Inductive value : Type :=
  | VNone
  | VBool (b : bool)
  | VInt (z : Z)
  | VStr (s : string)
  | VModel (oid : nat).

(** An exception raised by the code, with its message. *)
Inductive result (A : Type) : Type :=
  | Ok (a : A)
  | Raise (exc : string) (msg : string).
Arguments Ok {A} a.
Arguments Raise {A} exc msg.

(** ** The serializer (flexx.app.serialize) *)

(** [serializer.saves] and [serializer.loads]; [saves_list] and [loads_list]
    are the two on a list of event types.  Nothing is assumed of them. *)
Class Serializer := {
  saves : value → string;
  saves_list : list string → string;
  loads : string → value;
  loads_list : string → list string
}.

(** ** Functions wrapped by properties and emitters *)

(** The function behind a [Property]: called without argument it gives the
    default, called with a value it validates and normalises it.  The
    function is total here: a value that it rejects by raising is not among
    the values considered. *)
Inductive prop_func : Type :=
  | stub_prop_func
  | user_prop_func (f : option value → value).

(** [def stub_prop_func(self, v=None): return v] *)
Definition call_prop_func (f : prop_func) (v : option value) : value :=
  match f with
  | stub_prop_func => default VNone v
  | user_prop_func g => g v
  end.

(** The function behind an [Emitter]. *)
Inductive emitter_func : Type :=
  | stub_emitter_func_py
  | stub_emitter_func_js
  | user_emitter_func (f : list value → value).

Definition call_emitter_func (f : emitter_func) (args : list value) : result value :=
  match f with
  | stub_emitter_func_py =>
      Raise "RuntimeError" "This emitter can only be called from JavaScript"
  | stub_emitter_func_js =>
      Raise "RuntimeError" "This emitter can only be called from Python"
  | user_emitter_func g => Ok (g args)
  end.

(** ** Classes as instances see them *)

(** What an instance reads from its class once the metaclass has run: the
    class name, [__properties__], [__proxy_properties__], the function of
    each property and, for each handler of [__handlers__], its
    [local_connection_strings]. *)
Record has_events_class : Type := {
  __name__ : string;
  __properties__ : list string;
  __proxy_properties__ : list string;
  property_func : string → prop_func;
  __handlers__ : list (string * list string)
}.

(** A [Model] subclass with its nested [JS] class. *)
Record model_class : Type := {
  Py : has_events_class;
  JS : has_events_class
}.

(** ** Commands sent from Python to JavaScript *)

(** The JavaScript statements that [Model] hands to [session._exec].  A
    command is kept in the shape of its format string; [render] gives the
    text. *)
Inductive command : Type :=
  | Instantiate (id clsname evtypes : string)
  | SetAttr (id name txt : string)
  | SetPropFromPy (id name txt : string)
  | SetEventTypesPy (id types : string)
  | EmitFromPy (id type txt : string)
  | CallJs (id call : string).

Section Render.
(** [reprs = json.dumps] and Python's [repr], both on strings. *)
Variable reprs : string → string.
Variable repr : string → string.

Definition render (c : command) : string :=
  match c with
  | Instantiate id clsname evtypes =>
      "flexx.instances." +:+ id +:+ " = new " +:+ clsname +:+ "("
        +:+ reprs id +:+ ", " +:+ evtypes +:+ ");"
  | SetAttr id name txt =>
      "flexx.instances." +:+ id +:+ "." +:+ name
        +:+ " = flexx.serializer.loads(" +:+ reprs txt +:+ ");"
  | SetPropFromPy id name txt =>
      "flexx.instances." +:+ id +:+ "._set_prop_from_py("
        +:+ reprs name +:+ ", " +:+ reprs txt +:+ ");"
  | SetEventTypesPy id types =>
      "flexx.instances." +:+ id +:+ "._set_event_types_py(" +:+ types +:+ ");"
  | EmitFromPy id type txt =>
      "flexx.instances." +:+ id +:+ "._emit_from_py("
        +:+ type +:+ ", " +:+ repr txt +:+ ");"
  | CallJs id call =>
      "flexx.instances." +:+ id +:+ "." +:+ call +:+ ";"
  end.
End Render.

(** ** The session (flexx.app.session) *)

Module Session.
(** Modelled from the spec: the session object is missing from the source
    file.  [_exec] hands a command to the other side, fire and forget;
    [register_model_class] makes sure the class has been delivered and is
    idempotent per class. *)
Record t : Type := {
  executed : list command;
  model_classes : list string
}.

Definition _exec (cmd : command) (s : t) : t :=
  {| executed := executed s ++ [cmd]; model_classes := model_classes s |}.

Definition register_model_class (C : model_class) (s : t) : t :=
  if bool_decide (__name__ (Py C) ∈ model_classes s) then s
  else {| executed := executed s;
          model_classes := model_classes s ++ [__name__ (Py C)] |}.
End Session.

(** ** Timers *)

(** A callback handed to [call_later]: the bound method
    [__emit_pending_from_js] of the object with the given id. *)
Inductive callback : Type :=
  | emit_pending_from_js_of (id : string).

Record timer : Type := {
  delay : Q;
  action : callback
}.

(** [call_later(delay, callback)] puts the callback on the event loop. *)
Definition call_later (d : Q) (cb : callback) (timers : list timer) : list timer :=
  timers ++ [{| delay := d; action := cb |}].

(** ** The Python object *)

(** What can be assigned to an attribute of an object: a value, a session,
    a list of event types or a list of events. *)
Inductive py_object : Type :=
  | a_value (v : value)
  | a_session (s : Session.t)
  | a_list_of_types (types : list string)
  | a_list_of_events (events : list (string * value)).

(** The state of one [Model] instance: its instance attributes.  [_id],
    [_session], [_event_types_js] and [__pending_events_from_js] are the
    attributes that [__init__] sets, each with the type that the methods
    expect of it; [__dict__] holds the attributes that no method of the
    class reads.  The session is kept with the object that uses it: what is
    stated below is about the commands of one object, never about two
    objects on one session. *)
Record model : Type := {
  _id : string;
  __class__ : model_class;
  _session : Session.t;
  (** the [_<name>_value] attribute of each property, under [<name>] *)
  property_values : gmap string value;
  (** the other attributes of the instance *)
  __dict__ : gmap string py_object;
  _event_types_js : list string;
  __pending_events_from_js : list (string * value);
  (** the events handed to the handlers of this object, oldest first *)
  emitted : list (string * value)
}.

Definition with_id (i : string) (self : model) : model :=
  {| _id := i; __class__ := __class__ self;
     _session := _session self;
     property_values := property_values self; __dict__ := __dict__ self;
     _event_types_js := _event_types_js self;
     __pending_events_from_js := __pending_events_from_js self;
     emitted := emitted self |}.

Definition with_session (f : Session.t → Session.t) (self : model) : model :=
  {| _id := _id self; __class__ := __class__ self;
     _session := f (_session self);
     property_values := property_values self; __dict__ := __dict__ self;
     _event_types_js := _event_types_js self;
     __pending_events_from_js := __pending_events_from_js self;
     emitted := emitted self |}.

Definition with_property_values (f : gmap string value → gmap string value)
    (self : model) : model :=
  {| _id := _id self; __class__ := __class__ self;
     _session := _session self;
     property_values := f (property_values self); __dict__ := __dict__ self;
     _event_types_js := _event_types_js self;
     __pending_events_from_js := __pending_events_from_js self;
     emitted := emitted self |}.

Definition with_dict (f : gmap string py_object → gmap string py_object)
    (self : model) : model :=
  {| _id := _id self; __class__ := __class__ self;
     _session := _session self;
     property_values := property_values self; __dict__ := f (__dict__ self);
     _event_types_js := _event_types_js self;
     __pending_events_from_js := __pending_events_from_js self;
     emitted := emitted self |}.

Definition with_event_types_js (types : list string) (self : model) : model :=
  {| _id := _id self; __class__ := __class__ self;
     _session := _session self;
     property_values := property_values self; __dict__ := __dict__ self;
     _event_types_js := types;
     __pending_events_from_js := __pending_events_from_js self;
     emitted := emitted self |}.

Definition with_pending (pending : list (string * value)) (self : model) : model :=
  {| _id := _id self; __class__ := __class__ self;
     _session := _session self;
     property_values := property_values self; __dict__ := __dict__ self;
     _event_types_js := _event_types_js self;
     __pending_events_from_js := pending;
     emitted := emitted self |}.

Definition with_emitted (f : list (string * value) → list (string * value))
    (self : model) : model :=
  {| _id := _id self; __class__ := __class__ self;
     _session := _session self;
     property_values := property_values self; __dict__ := __dict__ self;
     _event_types_js := _event_types_js self;
     __pending_events_from_js := __pending_events_from_js self;
     emitted := f (emitted self) |}.

(** [getattr(self, name)] for a property: the stored value.  Every call in
    this file follows a store to the same name. *)
Definition getattr (self : model) (name : string) : value :=
  default VNone (property_values self !! name).

(** [HasEvents], which is missing from the source file, keeps the value of
    the property [name] in the attribute [_<name>_value] of the instance. *)
Definition private_name (name : string) : string := "_" +:+ name +:+ "_value".

(** [self.<name> = o] for a name that the class does not bind: the
    attribute of the instance is set.  For the attributes that the methods
    read, the record holds an object of the type that they expect; with an
    object of another type the instance leaves what the record can hold,
    and the result is [None].  The name [__pending_events_from_js] is
    mangled, as it is private to the class [Model]. *)
Definition set_instance_attribute (name : string) (o : py_object) (self : model)
    : option model :=
  if decide (name = "_id") then
    match o with
    | a_value (VStr i) => Some (with_id i self)
    | _ => None
    end
  else if decide (name = "_session") then
    match o with
    | a_session s => Some (with_session (λ _, s) self)
    | _ => None
    end
  else if decide (name = "_event_types_js") then
    match o with
    | a_list_of_types types => Some (with_event_types_js types self)
    | a_list_of_events [] => Some (with_event_types_js [] self)
    | _ => None
    end
  else if decide (name = "_Model__pending_events_from_js") then
    match o with
    | a_list_of_events events => Some (with_pending events self)
    | a_list_of_types [] => Some (with_pending [] self)
    | _ => None
    end
  else
    match list_find (λ n, private_name n = name)
            (__properties__ (Py (__class__ self))) with
    | Some (_, n) =>
        match o with
        | a_value v => Some (with_property_values (insert n v) self)
        | _ => None
        end
    | None => Some (with_dict (insert name o) self)
    end.

(** ** The base class (flexx.event.HasEvents) *)

Module HasEvents.
(** Modelled from the spec: [HasEvents._set_prop] is missing from the
    source file.  It validates and normalises the value with the function
    of the property and stores the result. *)
Definition _set_prop (name : string) (v : value) (self : model) : model :=
  let f := property_func (Py (__class__ self)) name in
  with_property_values (insert name (call_prop_func f (Some v))) self.

(** Modelled from the spec: [HasEvents._init_prop] is missing from the
    source file.  It stores the default that the function of the property
    gives when called without a value. *)
Definition _init_prop (name : string) (self : model) : model :=
  let f := property_func (Py (__class__ self)) name in
  with_property_values (insert name (call_prop_func f None)) self.

(** Modelled from the spec: [HasEvents.emit] is missing from the source
    file.  It hands the event to the handlers registered on this side, in
    registration order, and returns the event. *)
Definition emit (type : string) (ev : value) (self : model) : model * value :=
  (with_emitted (λ es, es ++ [(type, ev)]) self, ev).

(** Modelled from the spec: [HasEvents.__setattr__] is missing from the
    source file; it is the attribute assignment of Python.  Assigning a
    value to a property goes to [_set_prop] of the object (the method of
    the subclass).  A name in [read_only] is declared with [@property] and
    has no setter: the assignment raises [AttributeError], whose message
    depends on the version of Python.  [bound] tells the other names that
    the class or one of its bases binds (methods, handlers, emitters,
    class attributes): an assignment to one of them would change what the
    methods of the object find, which the record cannot hold, and the
    result is [None].  Any other name is an attribute of the instance. *)
Definition __setattr__ (set_prop : string → value → model → model)
    (read_only : list string) (bound : string → bool)
    (name : string) (o : py_object) (self : model) : option (result model) :=
  if bool_decide (name ∈ __properties__ (Py (__class__ self))) then
    match o with
    | a_value v => Some (Ok (set_prop name v self))
    | _ => None
    end
  else if bool_decide (name ∈ read_only) then
    Some (Raise "AttributeError" "can't set attribute")
  else if bound name then None
  else Ok <$> set_instance_attribute name o self.

(** Modelled from the spec: [HasEvents.__init__] is missing from the
    source file.  Base construction establishes the default of every
    property with [_init_prop] of the object and then applies the initial
    values of the properties through the normal path that sets a
    property, which [assign] is.  A keyword that names no property is no
    initial value of a property and is left aside. *)
Definition __init__ (init_prop : string → model → model)
    (assign : string → value → model → model)
    (kwargs : list (string * value)) (self : model) : model :=
  let self := foldl (λ s name, init_prop name s) self
                (__properties__ (Py (__class__ self))) in
  foldl (λ s kv,
           if bool_decide (kv.1 ∈ __properties__ (Py (__class__ s)))
           then assign kv.1 kv.2 s else s)
    self kwargs.
End HasEvents.

(** ** The process: class attributes of [Model] and the live objects *)

(** [Model._counter], the weak dictionary [Model._instances] (from id to
    object, by reference) and the objects that are alive.  [next_oid] is the
    identity that the next object gets; identities are never reused. *)
Record process : Type := {
  _counter : nat;
  _instances : gmap string nat;
  objects : gmap nat model;
  next_oid : nat;
  default_session : Session.t
}.

(** An object that nothing refers to any more is reclaimed; the weak
    dictionary drops the entries whose value it was. *)
Definition reclaim (oid : nat) (p : process) : process :=
  {| _counter := _counter p;
     _instances := filter (λ kv, kv.2 ≠ oid) (_instances p);
     objects := delete oid (objects p);
     next_oid := next_oid p;
     default_session := default_session p |}.

(** [get_instance_by_id(id)]: [Model._instances.get(id, None)]. *)
Definition get_instance_by_id (id : string) (p : process) : value :=
  match _instances p !! id with
  | Some oid => VModel oid
  | None => VNone
  end.

(** ** The Python side of [Model] *)

Module Model.
Section Methods.
Context `{Serializer}.

Definition _exec (cmd : command) (self : model) : model :=
  with_session (Session._exec cmd) self.

(** [__json__]: the dictionary [{'__type__': 'Flexx-Model', 'id': self.id}]. *)
Definition __json__ (self : model) : gmap string value :=
  <["__type__" := VStr "Flexx-Model"]> (<["id" := VStr (_id self)]> ∅).

(** [__from_json__(dct)]: [dct['id']] raises [KeyError] when the key is
    missing; an id that is not a string is the key of no entry. *)
Definition __from_json__ (dct : gmap string value) (p : process) : result value :=
  match dct !! "id" with
  | Some (VStr id) => Ok (get_instance_by_id id p)
  | Some _ => Ok VNone
  | None => Raise "KeyError" "id"
  end.

Definition _set_prop (name : string) (v : value) (fromjs : bool)
    (self : model) : model :=
  let isproxy := bool_decide (name ∈ __proxy_properties__ (Py (__class__ self))) in
  let self :=
    if fromjs || negb isproxy then HasEvents._set_prop name v self else self in
  if negb (fromjs && isproxy) then
    let v := if negb isproxy then getattr self name else v in
    let txt := saves v in
    _exec (SetPropFromPy (_id self) name txt) self
  else self.

Definition _set_prop_from_js (name text : string) (self : model) : model :=
  let v := loads text in
  _set_prop name v true self.

Definition _init_prop (name : string) (self : model) : model :=
  let isproxy := bool_decide (name ∈ __proxy_properties__ (Py (__class__ self))) in
  let self := HasEvents._init_prop name self in
  if negb isproxy then
    let self := HasEvents._init_prop name self in
    let v := getattr self name in
    let txt := saves v in
    _exec (SetPropFromPy (_id self) name txt) self
  else self.

(** [id] and [session] are declared with [@property], without a setter. *)
Definition read_only : list string := ["id"; "session"].

(** The other names that the body of [Model] binds, the attributes of the
    class that its methods read through [self], [_he_handlers] of the base
    class, which [_handlers_changed_hook] reads, and what every object of
    Python has. *)
Definition reserved : list string :=
  ["_instances"; "_counter"; "CSS"; "__json__"; "__from_json__"; "__init__";
   "_init"; "__setattr__"; "_set_prop_from_js"; "_set_prop"; "_init_prop";
   "_handlers_changed_hook"; "_set_event_types_js"; "_emit_from_js";
   "_Model__emit_pending_from_js"; "emit"; "call_js"; "JS";
   "__properties__"; "__proxy_properties__"; "__handlers__"; "_he_handlers";
   "__class__"; "__dict__"; "__weakref__"].

(** [__setattr__]: the attribute is set as the base class does, and a
    value that is a [Model] is pushed to the other side as well, under the
    id and on the session that the object has after the assignment.  What
    the base class raises ends the call.  [bound] tells the names that a
    subclass or the base class binds beyond those of [reserved]. *)
Definition __setattr__ (bound : string → bool) (name : string) (o : py_object)
    (self : model) : option (result model) :=
  match HasEvents.__setattr__ (λ n w, _set_prop n w false) read_only
          (λ n, bool_decide (n ∈ reserved) || bound n) name o self with
  | Some (Ok self) =>
      match o with
      | a_value (VModel oid) =>
          let txt := saves (VModel oid) in
          Some (Ok (_exec (SetAttr (_id self) name txt) self))
      | _ => Some (Ok self)
      end
  | Some (Raise exc msg) => Some (Raise exc msg)
  | None => None
  end.

(** [setattr(self, name, v)] as the base constructor calls it for the
    initial value [v] of the property [name]; the assignment of a value to
    a property does not raise, whatever else the class binds. *)
Definition assign_property (name : string) (v : value) (self : model) : model :=
  match __setattr__ (λ _, false) name (a_value v) self with
  | Some (Ok self) => self
  | _ => self
  end.

Definition _set_event_types_js (text : string) (self : model) : model :=
  with_event_types_js (loads_list text) self.

Definition _emit_from_js (type text : string) (st : model * list timer)
    : model * list timer :=
  let '(self, timers) := st in
  let ev := loads text in
  let timers :=
    match __pending_events_from_js self with
    | [] => call_later (1 # 10000) (emit_pending_from_js_of (_id self)) timers
    | _ :: _ => timers
    end in
  (with_pending (__pending_events_from_js self ++ [(type, ev)]) self, timers).

Definition emit (type : string) (ev : value) (fromjs : bool)
    (self : model) : model :=
  let '(self, ev) := HasEvents.emit type ev self in
  if negb fromjs && bool_decide (type ∈ _event_types_js self) then
    _exec (EmitFromPy (_id self) (saves (VStr type)) (saves ev)) self
  else self.

Definition __emit_pending_from_js (self : model) : model :=
  let pending := __pending_events_from_js self in
  let self := with_pending [] self in
  foldl (λ s te, emit te.1 te.2 true s) self pending.

Definition call_js (call : string) (self : model) : model :=
  _exec (CallJs (_id self) call) self.

(** [_init]: can be overloaded; the method of [Model] does nothing. *)
Definition _init (self : model) : model := self.

(** [__init__]: the new object gets the identity [next_oid]; the result
    is the process with the object in it, and that identity.  The
    assignments to [_id], [_session], [_event_types_js] and
    [__pending_events_from_js] set the attributes of the instance; none of
    them assigns a [Model], so that [__setattr__] sends nothing for them. *)
Definition __init__ (C : model_class) (session : option Session.t)
    (kwargs : list (string * value)) (p : process) : process * nat :=
  let counter := S (_counter p) in
  let id := __name__ (Py C) +:+ pretty counter in
  let oid := next_oid p in
  let instances := <[id := oid]> (_instances p) in
  let session := default (default_session p) session in
  let session := Session.register_model_class C session in
  let clsname := "flexx.classes." +:+ __name__ (Py C) in
  let event_types_py := foldl (λ acc h, acc ++ h.2) [] (__handlers__ (Py C)) in
  let event_types_js := foldl (λ acc h, acc ++ h.2) [] (__handlers__ (JS C)) in
  let self :=
    {| _id := id; __class__ := C; _session := session;
       property_values := ∅; __dict__ := ∅;
       _event_types_js := event_types_js;
       __pending_events_from_js := [];
       emitted := [] |} in
  let self := _exec (Instantiate id clsname (saves_list event_types_py)) self in
  let self := HasEvents.__init__ _init_prop assign_property kwargs self in
  let self := _init self in
  ({| _counter := counter;
      _instances := instances;
      objects := <[oid := self]> (objects p);
      next_oid := S oid;
      default_session := default_session p |}, oid).

(** [_handlers_changed_hook]: [_he_handlers], the dictionary of the base
    class from event type to the handlers registered for it, is handed in;
    its items come in the order of [keys()]. *)
Definition _handlers_changed_hook (_he_handlers : list (string * list string))
    (self : model) : model :=
  let types := (filter (λ kv, kv.2 ≠ []) _he_handlers).*1 in
  _exec (SetEventTypesPy (_id self) (saves_list types)) self.
End Methods.
End Model.

(** ** The JavaScript side: [Model.JS] *)

(** The state of one JavaScript object.  [twin_class] is the finalized [JS]
    class of its Python class. *)
Record twin : Type := {
  id : string;
  twin_class : has_events_class;
  twin_values : gmap string value;
  _event_types_py : list string;
  twin_emitted : list (string * value)
}.

(** [window.flexx.ws]: [None] when the page is exported or shown in an
    nbviewer, otherwise the websocket, with the messages sent so far. *)
Definition websocket : Type := option (list string).

Definition with_twin_values (f : gmap string value → gmap string value)
    (self : twin) : twin :=
  {| id := id self; twin_class := twin_class self;
     twin_values := f (twin_values self);
     _event_types_py := _event_types_py self;
     twin_emitted := twin_emitted self |}.

Definition with_event_types_py (types : list string) (self : twin) : twin :=
  {| id := id self; twin_class := twin_class self;
     twin_values := twin_values self;
     _event_types_py := types;
     twin_emitted := twin_emitted self |}.

Definition with_twin_emitted (f : list (string * value) → list (string * value))
    (self : twin) : twin :=
  {| id := id self; twin_class := twin_class self;
     twin_values := twin_values self;
     _event_types_py := _event_types_py self;
     twin_emitted := f (twin_emitted self) |}.

(** [self[name]] for a property. *)
Definition twin_get (self : twin) (name : string) : value :=
  default VNone (twin_values self !! name).

(** [window.flexx.ws.send(msg)]; on [None] the call is a [TypeError]. *)
Definition ws_send (msg : string) (ws : websocket) : result websocket :=
  match ws with
  | Some sent => Ok (Some (sent ++ [msg]))
  | None => Raise "TypeError" "window.flexx.ws is null"
  end.

Module HasEventsJS.
(** Modelled from the spec: the JavaScript version of [HasEvents] is
    missing from the source file; it mirrors the Python one.  [_set_prop]
    validates and normalises the value with the function of the property
    and stores the result. *)
Definition _set_prop (name : string) (v : value) (self : twin) : twin :=
  let f := property_func (twin_class self) name in
  with_twin_values (insert name (call_prop_func f (Some v))) self.

(** Modelled from the spec: as [HasEvents._init_prop] of the Python side. *)
Definition _init_prop (name : string) (self : twin) : twin :=
  let f := property_func (twin_class self) name in
  with_twin_values (insert name (call_prop_func f None)) self.

(** Modelled from the spec: as [HasEvents.emit] of the Python side. *)
Definition emit (type : string) (ev : value) (self : twin) : twin * value :=
  (with_twin_emitted (λ es, es ++ [(type, ev)]) self, ev).

(** Modelled from the spec: as [HasEvents.__init__] of the Python side,
    without initial values.  The default of every property is established
    with [_init_prop] of the object; what that raises ends the
    construction. *)
Definition __init__
    (init_prop : string → twin * websocket → result (twin * websocket))
    (st : twin * websocket) : result (twin * websocket) :=
  foldl (λ r name,
           match r with
           | Ok st => init_prop name st
           | Raise exc msg => Raise exc msg
           end)
    (Ok st) (__properties__ (twin_class st.1)).
End HasEventsJS.

Module ModelJS.
Section Methods.
Context `{Serializer}.

Definition _set_prop (name : string) (v : value) (frompy : bool)
    (st : twin * websocket) : twin * websocket :=
  let '(self, ws) := st in
  let isproxy := bool_decide (name ∈ __proxy_properties__ (twin_class self)) in
  match ws with
  | None =>
      (* Exported or in an nbviewer *)
      (HasEventsJS._set_prop name v self, ws)
  | Some sent =>
      let self :=
        if frompy || negb isproxy then HasEventsJS._set_prop name v self
        else self in
      if negb (frompy && isproxy) then
        let v := if negb isproxy then twin_get self name else v in
        let txt := saves v in
        (self, Some (sent ++ ["SETPROP " +:+ String.concat " " [id self; name; txt]]))
      else (self, ws)
  end.

Definition _set_prop_from_py (name text : string) (st : twin * websocket)
    : twin * websocket :=
  let v := loads text in
  _set_prop name v true st.

Definition _init_prop (name : string) (st : twin * websocket)
    : result (twin * websocket) :=
  let '(self, ws) := st in
  let isproxy := bool_decide (name ∈ __proxy_properties__ (twin_class self)) in
  let self := HasEventsJS._init_prop name self in
  if negb isproxy then
    let v := twin_get self name in
    let txt := saves v in
    match ws_send ("SETPROP " +:+ String.concat " " [id self; name; txt]) ws with
    | Ok ws => Ok (self, ws)
    | Raise exc msg => Raise exc msg
    end
  else Ok (self, ws).

Definition _set_event_types_py (event_types : list string) (self : twin) : twin :=
  with_event_types_py event_types self.

Definition emit (type : string) (ev : value) (frompy : bool)
    (st : twin * websocket) : result (twin * websocket) :=
  let '(self, ws) := st in
  let '(self, ev) := HasEventsJS.emit type ev self in
  if negb frompy && bool_decide (type ∈ _event_types_py self) then
    let txt := saves ev in
    match ws_send ("EVENT " +:+ String.concat " " [id self; type; txt]) ws with
    | Ok ws => Ok (self, ws)
    | Raise exc msg => Raise exc msg
    end
  else Ok (self, ws).

Definition _emit_from_py (type text : string) (st : twin * websocket)
    : result (twin * websocket) :=
  let ev := loads text in
  emit type ev true st.

(** [_init] of the [JS] class does nothing. *)
Definition _init (st : twin * websocket) : twin * websocket := st.

(** [__init__(self, id, py_events=None)] of the [JS] class, for an object of
    class [C].  The record of a twin has no place for [_linked_signals],
    which the method sets to an empty object. *)
Definition __init__ (C : has_events_class) (i : string)
    (py_events : option (list string)) (ws : websocket)
    : result (twin * websocket) :=
  let self :=
    {| id := i; twin_class := C; twin_values := ∅;
       _event_types_py :=
         match py_events with
         | Some (t :: types) => t :: types
         | _ => []
         end;
       twin_emitted := [] |} in
  match HasEventsJS.__init__ _init_prop (self, ws) with
  | Ok st => Ok (_init st)
  | Raise exc msg => Raise exc msg
  end.

(** [_handlers_changed_hook] of the [JS] class; [_he_handlers] is handed in
    as on the Python side. *)
Definition _handlers_changed_hook (_he_handlers : list (string * list string))
    (st : twin * websocket) : result (twin * websocket) :=
  let '(self, ws) := st in
  let types := (filter (λ kv, length kv.2 ≠ 0) _he_handlers).*1 in
  let text := saves_list types in
  match ws_send ("REG_EVENTS " +:+ String.concat " " [id self; text]) ws with
  | Ok ws => Ok (self, ws)
  | Raise exc msg => Raise exc msg
  end.
End Methods.
End ModelJS.

(** ** The browser *)

(** [window.flexx]: the websocket and [flexx.instances]. *)
Record window : Type := {
  ws : websocket;
  instances : gmap string twin
}.

Section Browser.
Context `{Serializer}.

(** The browser evaluates the command that sets a property of
    [flexx.instances.<id>].  [None]: the object does not exist, or the
    command is of another kind. *)
Definition eval_command (c : command) (w : window) : option window :=
  match c with
  | SetPropFromPy i name txt =>
      self ← instances w !! i;
      let '(self, ws') := ModelJS._set_prop_from_py name txt (self, ws w) in
      Some {| ws := ws'; instances := <[i := self]> (instances w) |}
  | _ => None
  end.
End Browser.

(** ** Class dictionaries *)

(** What the metaclass tells apart in a class dictionary: a [Property]
    (with its function, name and the docstring of the function), an
    [Emitter], or anything else. *)
Inductive attr : Type :=
  | Property (f : prop_func) (name doc : string)
  | Emitter (f : emitter_func) (name doc : string)
  | Plain.

(** A class dictionary, in insertion order as [items()] gives it. *)
Definition dict : Type := list (string * attr).

Fixpoint dict_get (name : string) (d : dict) : option attr :=
  match d with
  | [] => None
  | (k, v) :: d' => if decide (k = name) then Some v else dict_get name d'
  end.

(** [d[name] = v]: an existing key keeps its place, a new key goes last. *)
Fixpoint dict_set (name : string) (v : attr) (d : dict) : dict :=
  match d with
  | [] => [(name, v)]
  | (k, w) :: d' =>
      if decide (k = name) then (k, v) :: d' else (k, w) :: dict_set name v d'
  end.

(** ** The metaclass [ModelMeta] *)

(** A class while [ModelMeta.__init__] runs.  [cls_inherited] and
    [JS_inherited] hold what attribute lookup finds beyond the dictionary of
    the class itself (base classes and the metaclass). *)
Record class_state : Type := {
  cls_name : string;
  cls_dict : dict;
  cls_inherited : dict;
  JS_dict : dict;
  JS_inherited : dict;
  cls_proxy_properties : list string;
  JS_proxy_properties : list string;
  (** the messages given to [logging.warn], oldest first *)
  warnings : list string
}.

Definition with_cls_dict (f : dict → dict) (st : class_state) : class_state :=
  {| cls_name := cls_name st; cls_dict := f (cls_dict st);
     cls_inherited := cls_inherited st;
     JS_dict := JS_dict st; JS_inherited := JS_inherited st;
     cls_proxy_properties := cls_proxy_properties st;
     JS_proxy_properties := JS_proxy_properties st;
     warnings := warnings st |}.

Definition with_JS_dict (f : dict → dict) (st : class_state) : class_state :=
  {| cls_name := cls_name st; cls_dict := cls_dict st;
     cls_inherited := cls_inherited st;
     JS_dict := f (JS_dict st); JS_inherited := JS_inherited st;
     cls_proxy_properties := cls_proxy_properties st;
     JS_proxy_properties := JS_proxy_properties st;
     warnings := warnings st |}.

Definition with_cls_proxy_properties (f : list string → list string)
    (st : class_state) : class_state :=
  {| cls_name := cls_name st; cls_dict := cls_dict st;
     cls_inherited := cls_inherited st;
     JS_dict := JS_dict st; JS_inherited := JS_inherited st;
     cls_proxy_properties := f (cls_proxy_properties st);
     JS_proxy_properties := JS_proxy_properties st;
     warnings := warnings st |}.

Definition with_JS_proxy_properties (f : list string → list string)
    (st : class_state) : class_state :=
  {| cls_name := cls_name st; cls_dict := cls_dict st;
     cls_inherited := cls_inherited st;
     JS_dict := JS_dict st; JS_inherited := JS_inherited st;
     cls_proxy_properties := cls_proxy_properties st;
     JS_proxy_properties := f (JS_proxy_properties st);
     warnings := warnings st |}.

(** [logging.warn(msg)] *)
Definition logging_warn (msg : string) (st : class_state) : class_state :=
  {| cls_name := cls_name st; cls_dict := cls_dict st;
     cls_inherited := cls_inherited st;
     JS_dict := JS_dict st; JS_inherited := JS_inherited st;
     cls_proxy_properties := cls_proxy_properties st;
     JS_proxy_properties := JS_proxy_properties st;
     warnings := warnings st ++ [msg] |}.

(** [hasattr(cls, name)] and [hasattr(cls.JS, name)]. *)
Definition hasattr_cls (st : class_state) (name : string) : bool :=
  bool_decide (is_Some (dict_get name (cls_dict st)))
  || bool_decide (is_Some (dict_get name (cls_inherited st))).

Definition hasattr_JS (st : class_state) (name : string) : bool :=
  bool_decide (is_Some (dict_get name (JS_dict st)))
  || bool_decide (is_Some (dict_get name (JS_inherited st))).

Module ModelMeta.
Section Meta.
(** [finalize_hasevents_class] of [flexx.event] is missing from the source
    file; it is taken as it comes, as a function on the dictionary of the
    class.  [repr] is Python's [%r] on a string. *)
Variable finalize_hasevents_class : dict → dict.
Variable repr : string → string.

Definition OK_MAGICS : list string := ["__init__"; "__json__"; "__from_json__"].

(** The implicit inheritance of the JS class: the attributes of the [JS]
    class written in the body of [cls] are set on the fresh class. *)
Definition copy_JS (own : dict) (js : dict) : dict :=
  let js :=
    match dict_get "__init__" own with
    | Some v => dict_set "__init__" v js
    | None => js
    end in
  foldl (λ js item,
           if negb (String.prefix "__" item.1) then dict_set item.1 item.2 js
           else if bool_decide (item.1 ∈ OK_MAGICS) then dict_set item.1 item.2 js
           else js) js own.

(** The two messages for [logging.warn]. *)
Definition warning_JS_property (name cls : string) : string :=
  "JS property " +:+ repr name +:+ " not proxied on " +:+ cls
    +:+ ", as it would hide a Py attribute.".

Definition warning_Py_property (name cls : string) : string :=
  "Py property " +:+ repr name +:+ " not proxied on " +:+ cls
    +:+ ", as it would hide a JS attribute.".

Definition is_proxied (st : class_state) (name : string) : bool :=
  bool_decide (name ∈ JS_proxy_properties st)
  || bool_decide (name ∈ cls_proxy_properties st).

(** Body of the loop that creates proxies on [cls] for what is on [JS]. *)
Definition proxy_on_cls (st : class_state) (item : string * attr) : class_state :=
  let name := item.1 in
  match item.2 with
  | Property _ _ doc =>
      if is_proxied st name then st
      else if negb (hasattr_cls st name) then
        let st := with_cls_proxy_properties (λ l, l ++ [name]) st in
        with_cls_dict (dict_set name (Property stub_prop_func name doc)) st
      else
        logging_warn (warning_JS_property name (cls_name st)) st
  | Emitter _ _ doc =>
      if negb (hasattr_cls st name) then
        with_cls_dict (dict_set name (Emitter stub_emitter_func_py name doc)) st
      else st
  | Plain => st
  end.

(** Body of the loop that creates proxies on [cls.JS] for what is on [cls]. *)
Definition proxy_on_JS (st : class_state) (item : string * attr) : class_state :=
  let name := item.1 in
  match item.2 with
  | Property _ _ doc =>
      if is_proxied st name then st
      else if negb (hasattr_JS st name) then
        let st := with_JS_proxy_properties (λ l, l ++ [name]) st in
        with_JS_dict (dict_set name (Property stub_prop_func name doc)) st
      else
        logging_warn (warning_Py_property name (cls_name st)) st
  | Emitter _ _ doc =>
      if negb (hasattr_cls st name) then
        with_cls_dict (dict_set name (Emitter stub_emitter_func_js name doc)) st
      else st
  | Plain => st
  end.

(** The two loops, each over the items of the dictionary as it is when the
    loop starts. *)
Definition create_proxies (st : class_state) : class_state :=
  let st := foldl proxy_on_cls st (JS_dict st) in
  foldl proxy_on_JS st (cls_dict st).

(** [ModelMeta.__init__], after [HasEventsMeta.__init__] and up to the
    sorted proxy lists.  [own_JS] is the dictionary of the [JS] class in
    the body of [cls], if there is one; [cls_proxy0] and [JS_proxy0] are
    the inherited [__proxy_properties__]. *)
Definition __init__ (CLASSES : list string) (name : string)
    (dct inherited : dict) (own_JS : option dict) (jsbases : dict)
    (cls_proxy0 JS_proxy0 : list string) : list string * class_state :=
  let CLASSES := CLASSES ++ [name] in
  let js := match own_JS with Some own => copy_JS own [] | None => [] end in
  let js := finalize_hasevents_class js in
  let st :=
    {| cls_name := name;
       cls_dict := dict_set "__proxy_properties__" Plain (dict_set "JS" Plain dct);
       cls_inherited := inherited;
       JS_dict := dict_set "__proxy_properties__" Plain js;
       JS_inherited := jsbases;
       cls_proxy_properties := cls_proxy0;
       JS_proxy_properties := JS_proxy0;
       warnings := [] |} in
  let st := create_proxies st in
  let st := with_cls_dict finalize_hasevents_class st in
  let st := with_JS_dict finalize_hasevents_class st in
  let st := with_cls_proxy_properties (merge_sort String.le) st in
  let st := with_JS_proxy_properties (merge_sort String.le) st in
  (CLASSES, st).
End Meta.
End ModelMeta.

(** ** Cross-boundary references *)

Section Revivers.
Context `{Serializer}.

(** [serializer.add_reviver('Flexx-Model', Model.__from_json__)], the last
    line of the module. *)
Definition revivers
    : list (string * (gmap string value → process → result value)) :=
  [("Flexx-Model", Model.__from_json__)].

(** Modelled from the spec: the serializer is missing from the source
    file.  An object of a custom type is encoded as the tagged record that
    its [__json__] gives. *)
Definition encode (self : model) : gmap string value := Model.__json__ self.

(** Modelled from the spec: the serializer is missing from the source
    file.  Decoding a tagged record looks the tag up among the revivers
    and applies the one it finds; [None] when no reviver applies. *)
Definition decode (dct : gmap string value) (p : process)
    : option (result value) :=
  match dct !! "__type__" with
  | Some (VStr tag) =>
      match list_find (λ r, r.1 = tag) revivers with
      | Some (_, r) => Some (r.2 dct p)
      | None => None
      end
  | _ => None
  end.
End Revivers.

(** ** Sample classes *)

(** A serializer for the examples: JSON text for [None], booleans,
    integers and lists of names; strings are written in quotes without
    escapes. *)
Definition quote : string := String (Ascii.ascii_of_nat 34) EmptyString.

Definition sample_saves (v : value) : string :=
  match v with
  | VNone => "null"
  | VBool true => "true"
  | VBool false => "false"
  | VInt z => pretty z
  | VStr s => quote +:+ s +:+ quote
  | VModel oid => "{model " +:+ pretty oid +:+ "}"
  end.

Fixpoint parse_digits (s : string) (acc : N) : option N :=
  match s with
  | EmptyString => Some acc
  | String c s' =>
      let n := Ascii.N_of_ascii c in
      if bool_decide (48 ≤ n ≤ 57)%N then parse_digits s' (10 * acc + (n - 48))%N
      else None
  end.

Definition sample_loads (s : string) : value :=
  if decide (s = "null") then VNone
  else if decide (s = "true") then VBool true
  else if decide (s = "false") then VBool false
  else match s with
       | EmptyString => VNone
       | String c s' =>
           if decide (c = Ascii.ascii_of_nat 45) then
             match s', parse_digits s' 0 with
             | String _ _, Some n => VInt (- Z.of_N n)
             | _, _ => VStr s
             end
           else
             match parse_digits s 0 with
             | Some n => VInt (Z.of_N n)
             | None => VStr s
             end
       end.

Definition sample_saves_list (l : list string) : string :=
  "[" +:+ String.concat ", " ((λ s, quote +:+ s +:+ quote) <$> l) +:+ "]".

(** Names between quotes, in order; whatever is outside quotes is skipped. *)
Fixpoint quoted_names (s : string) (cur : option string) : list string :=
  match s with
  | EmptyString => []
  | String c s' =>
      if decide (c = Ascii.ascii_of_nat 34) then
        match cur with
        | Some name => name :: quoted_names s' None
        | None => quoted_names s' (Some EmptyString)
        end
      else
        match cur with
        | Some name => quoted_names s' (Some (name +:+ String c EmptyString))
        | None => quoted_names s' None
        end
  end.

Definition sample_serializer : Serializer :=
  {| saves := sample_saves; saves_list := sample_saves_list;
     loads := sample_loads; loads_list := λ s, quoted_names s None |}.

(** [int(v)], with [0] for the default and for what is not a number. *)
Definition to_int (v : option value) : value :=
  match v with
  | Some (VInt z) => VInt z
  | Some (VBool b) => VInt (if b then 1 else 0)
  | _ => VInt 0
  end.

(** A property function that normalises: the absolute value. *)
Definition to_abs (v : option value) : value :=
  match v with
  | Some (VInt z) => VInt (Z.abs z)
  | _ => VInt 0
  end.

Definition no_properties (name : string) : prop_func := stub_prop_func.

(** [class Counter(Model)] with the property [count], default 0, declared
    in Python. *)
Definition Counter : model_class :=
  {| Py := {| __name__ := "Counter"; __properties__ := ["count"];
              __proxy_properties__ := [];
              property_func := λ _, user_prop_func to_int;
              __handlers__ := [] |};
     JS := {| __name__ := "JS"; __properties__ := ["count"];
              __proxy_properties__ := ["count"];
              property_func := no_properties;
              __handlers__ := [] |} |}.

(** [class Gauge(Model)] with the property [ticks], an integer, declared
    in Python, and the property [level], declared in the [JS] class; the
    function of [level] takes the absolute value. *)
Definition Gauge : model_class :=
  {| Py := {| __name__ := "Gauge"; __properties__ := ["level"; "ticks"];
              __proxy_properties__ := ["level"];
              property_func := λ name,
                if decide (name = "ticks") then user_prop_func to_int
                else stub_prop_func;
              __handlers__ := [] |};
     JS := {| __name__ := "JS"; __properties__ := ["level"; "ticks"];
              __proxy_properties__ := ["ticks"];
              property_func := λ name,
                if decide (name = "level") then user_prop_func to_abs
                else stub_prop_func;
              __handlers__ := [("on_resize", ["resize"])] |} |}.

(** A class without properties and handlers, of the given name. *)
Definition plain_class (name : string) : model_class :=
  {| Py := {| __name__ := name; __properties__ := [];
              __proxy_properties__ := [];
              property_func := no_properties;
              __handlers__ := [] |};
     JS := {| __name__ := "JS"; __properties__ := [];
              __proxy_properties__ := [];
              property_func := no_properties;
              __handlers__ := [] |} |}.

Definition empty_session : Session.t :=
  {| Session.executed := []; Session.model_classes := [] |}.

(** The process before any [Model] is made. *)
Definition initial_process : process :=
  {| _counter := 0; _instances := ∅; objects := ∅; next_oid := 0;
     default_session := empty_session |}.

(** Make an object of each class in turn, with the default session and
    without initial values; every object stays alive. *)
Definition make_all `{Serializer} (classes : list model_class) (p : process)
    : process :=
  foldl (λ p C, (Model.__init__ C None [] p).1) p classes.

(** One object of class [A1], then ten of class [A]. *)
Definition crowded_process : process :=
  make_all (H := sample_serializer)
    (plain_class "A1" :: replicate 10 (plain_class "A")) initial_process.

(** ** The two directions of proxy creation *)

(** The side on which a proxy is to be created; the property itself is
    declared on the other side. *)
Inductive side : Type := on_Py | on_JS.

Definition source_dict (s : side) (st : class_state) : dict :=
  match s with on_Py => JS_dict st | on_JS => cls_dict st end.

Definition target_dict (s : side) (st : class_state) : dict :=
  match s with on_Py => cls_dict st | on_JS => JS_dict st end.

Definition target_hasattr (s : side) (st : class_state) (name : string) : bool :=
  match s with on_Py => hasattr_cls st name | on_JS => hasattr_JS st name end.

Definition target_proxy_properties (s : side) (st : class_state) : list string :=
  match s with
  | on_Py => cls_proxy_properties st
  | on_JS => JS_proxy_properties st
  end.

Definition collision_warning (repr : string → string) (s : side)
    (name cls : string) : string :=
  match s with
  | on_Py => ModelMeta.warning_JS_property repr name cls
  | on_JS => ModelMeta.warning_Py_property repr name cls
  end.

(** A name that both classes have and that is no proxy on either. *)
Definition both_have (c : string) (dc dj : option attr) (name : string)
    (st : class_state) : Prop :=
  cls_name st = c
  ∧ ModelMeta.is_proxied st name = false
  ∧ hasattr_cls st name = true
  ∧ hasattr_JS st name = true
  ∧ dict_get name (cls_dict st) = dc
  ∧ dict_get name (JS_dict st) = dj.

(** ** Sample class bodies *)

(** [json.dumps] of a string without quotes, backslashes and control
    characters. *)
Definition sample_reprs (s : string) : string := quote +:+ s +:+ quote.

(** [%r] of a name without quotes and backslashes. *)
Definition sample_repr (s : string) : string := "'" +:+ s +:+ "'".

(** What every class finds on [Model] and on [Model.JS]. *)
Definition model_attributes : dict :=
  [("id", Plain); ("session", Plain); ("emit", Plain); ("call_js", Plain);
   ("_init", Plain); ("_set_prop", Plain)].

Definition twin_attributes : dict :=
  [("__init__", Plain); ("_init", Plain); ("emit", Plain); ("_set_prop", Plain)].

(** [[
class Clock(Model):
    @event.emitter
    def tick(self, n): ...
    @event.prop
    def zone(self, v=0): ...
    def speed(self): ...
    class JS:
        @event.emitter
        def tock(self, n): ...
        @event.prop
        def speed(self, v=1): ...
        @event.prop
        def zone(self, v=0): ...
        @event.prop
        def face(self, v=0): ...
]]
    [speed] and [zone] are on both sides. *)
Definition Clock_dct : dict :=
  [("tick", Emitter (user_emitter_func (λ _, VNone)) "tick" "");
   ("zone", Property (user_prop_func to_int) "zone" "");
   ("speed", Plain)].

Definition Clock_JS : dict :=
  [("tock", Emitter (user_emitter_func (λ _, VNone)) "tock" "");
   ("speed", Property (user_prop_func to_int) "speed" "");
   ("zone", Property (user_prop_func to_int) "zone" "");
   ("face", Property (user_prop_func to_int) "face" "")].

(** The class [Clock] when the metaclass is done, with a finalization that
    leaves the dictionaries as they are. *)
Definition Clock_built : class_state :=
  (ModelMeta.__init__ (λ d, d) sample_repr [] "Clock" Clock_dct model_attributes
     (Some Clock_JS) twin_attributes [] []).2.

(** The class [Clock] when the two loops start. *)
Definition Clock_before : class_state :=
  {| cls_name := "Clock";
     cls_dict := dict_set "__proxy_properties__" Plain (dict_set "JS" Plain Clock_dct);
     cls_inherited := model_attributes;
     JS_dict := dict_set "__proxy_properties__" Plain (ModelMeta.copy_JS Clock_JS []);
     JS_inherited := twin_attributes;
     cls_proxy_properties := []; JS_proxy_properties := [];
     warnings := [] |}.

(** ** What happens to a live object *)

(** The calls of methods that reach an object once it is made: from the
    application (an event is emitted, a JavaScript method is called), from
    the session when a message of the other side arrives, and from the
    event loop when a timer fires.  The assignment of an attribute, which
    can raise, is [Model.__setattr__]. *)
Inductive operation : Type :=
  | do_emit (type : string) (ev : value)
  | do_call_js (call : string)
  | on_set_prop_from_js (name text : string)
  | on_set_event_types_js (text : string)
  | on_emit_from_js (type text : string)
  | on_timer.

Definition run `{Serializer} (op : operation) (st : model * list timer)
    : model * list timer :=
  match op with
  | do_emit type ev => (Model.emit type ev false st.1, st.2)
  | do_call_js call => (Model.call_js call st.1, st.2)
  | on_set_prop_from_js name text => (Model._set_prop_from_js name text st.1, st.2)
  | on_set_event_types_js text => (Model._set_event_types_js text st.1, st.2)
  | on_emit_from_js type text => Model._emit_from_js type text st
  | on_timer => (Model.__emit_pending_from_js st.1, st.2)
  end.

(** The events of a burst arrive one after the other. *)
Definition arrive `{Serializer} (evs : list (string * string))
    (st : model * list timer) : model * list timer :=
  foldl (λ st e, Model._emit_from_js e.1 e.2 st) st evs.

(** ** Sample objects *)

(** A [Counter] after construction. *)
Definition counter1 : model :=
  {| _id := "Counter1"; __class__ := Counter;
     _session := empty_session;
     property_values := {["count" := VInt 0]}; __dict__ := ∅;
     _event_types_js := []; __pending_events_from_js := [];
     emitted := [] |}.

(** A [Gauge] after construction, with its twin in a connected browser. *)
Definition gauge1 : model :=
  {| _id := "Gauge1"; __class__ := Gauge;
     _session := empty_session;
     property_values := {["level" := VInt 0; "ticks" := VInt 0]}; __dict__ := ∅;
     _event_types_js := ["resize"]; __pending_events_from_js := [];
     emitted := [] |}.

Definition gauge1_twin : twin :=
  {| id := "Gauge1"; twin_class := JS Gauge;
     twin_values := {["level" := VInt 0; "ticks" := VInt 0]};
     _event_types_py := []; twin_emitted := [] |}.

Definition gauge1_window : window :=
  {| ws := Some []; instances := {["Gauge1" := gauge1_twin]} |}.

(** The value of a property of a twin in the browser. *)
Definition value_in_browser (w : window) (i name : string) : option value :=
  self ← instances w !! i; twin_values self !! name.

(** ** The commands that were to be expected *)

(** The default of a property and the normalised form of a value, as the
    function of the property on the Python side gives them. *)
Definition default_value (C : model_class) (name : string) : value :=
  call_prop_func (property_func (Py C) name) None.

Definition normalised (C : model_class) (name : string) (v : value) : value :=
  call_prop_func (property_func (Py C) name) (Some v).

Definition is_proxy (C : model_class) (name : string) : bool :=
  bool_decide (name ∈ __proxy_properties__ (Py C)).

(** One command for the default of every property that is not a proxy, in
    the order of [__properties__]. *)
Definition default_commands `{Serializer} (id : string) (C : model_class)
    : list command :=
  (λ name, SetPropFromPy id name (saves (default_value C name)))
    <$> filter (λ name, name ∉ __proxy_properties__ (Py C)) (__properties__ (Py C)).

(** The command that setting a property sends: the normalised value of a
    property that is not a proxy, the value as given for a proxy. *)
Definition set_command `{Serializer} (id : string) (C : model_class)
    (name : string) (v : value) : command :=
  SetPropFromPy id name (saves (if is_proxy C name then v else normalised C name v)).

(** The commands of the assignment of a value to a property. *)
Definition assign_commands `{Serializer} (id : string) (C : model_class)
    (kv : string * value) : list command :=
  set_command id C kv.1 kv.2
  :: match kv.2 with
     | VModel _ => [SetAttr id kv.1 (saves kv.2)]
     | _ => []
     end.

(** The initial values that are given for properties of the class. *)
Definition given (C : model_class) (kwargs : list (string * value))
    : list (string * value) :=
  filter (λ kv, kv.1 ∈ __properties__ (Py C)) kwargs.

(** The commands that set a property, among the commands sent. *)
Definition is_set_prop (c : command) : bool :=
  match c with SetPropFromPy _ _ _ => true | _ => false end.

Definition is_instantiate (c : command) : bool :=
  match c with Instantiate _ _ _ => true | _ => false end.

Definition set_props (cs : list command) : list command :=
  filter (λ c, is_set_prop c = true) cs.

(** The object that an assignment leaves, when it neither raises nor
    leaves what the record can hold. *)
Definition assigned (r : option (result model)) : option model :=
  match r with
  | Some (Ok self) => Some self
  | _ => None
  end.

(** The commands that the session of an object has been given. *)
Definition commands (self : model) : list command :=
  Session.executed (_session self).

(** ** More sample objects *)

(** Two objects of class [Counter], made one after the other. *)
Definition two_counters : process :=
  make_all (H := sample_serializer) [Counter; Counter] initial_process.

Definition first_counter : model := default counter1 (objects two_counters !! 0).
Definition second_counter : model := default counter1 (objects two_counters !! 1).

(** ** Whom a command is for *)

(** The id after [flexx.instances.] in the text of a command. *)
Definition command_id (c : command) : string :=
  match c with
  | Instantiate i _ _ | SetAttr i _ _ | SetPropFromPy i _ _
  | SetEventTypesPy i _ | EmitFromPy i _ _ | CallJs i _ => i
  end.

(** The event types that the handlers of a class are connected to. *)
Definition connection_strings (C : has_events_class) : list string :=
  concat (__handlers__ C).*2.

(** ** What a new twin sends *)

(** The message with which the [JS] side reports the default of a property
    of its own. *)
Definition default_message `{Serializer} (C : has_events_class) (i name : string)
    : string :=
  "SETPROP "
    +:+ String.concat " " [i; name; saves (call_prop_func (property_func C name) None)].

(** The properties of a class that are no proxies. *)
Definition own_properties (C : has_events_class) : list string :=
  filter (λ name, name ∉ __proxy_properties__ C) (__properties__ C).

(** The defaults of the given properties, stored one after the other. *)
Definition with_defaults (C : has_events_class) (names : list string)
    (values : gmap string value) : gmap string value :=
  foldl (λ m name, <[name := call_prop_func (property_func C name) None]> m)
    values names.

(** Handlers as [_he_handlers] has them: one for [resize], none for
    [click]. *)
Definition sample_handlers : list (string * list string) :=
  [("resize", ["on_resize"]); ("click", [])].

(** The body of a [JS] class as Python hands it to the metaclass, with the
    attributes that every class body has. *)
Definition sample_JS_body : dict :=
  [("__module__", Plain); ("__qualname__", Plain); ("__json__", Plain);
   ("tock", Emitter (user_emitter_func (λ _, VNone)) "tock" "");
   ("__doc__", Plain); ("_private", Plain)].

(** A class [Lamp] when the two loops start: Python declares the property
    [power] and the emitter [glow], the [JS] class the property [hue] and
    the emitter [flash]; one proxy is inherited on each side. *)
Definition Lamp_before : class_state :=
  {| cls_name := "Lamp";
     cls_dict := [("power", Property (user_prop_func to_int) "power" "on or off");
                  ("glow", Emitter (user_emitter_func (λ _, VNone)) "glow" "");
                  ("JS", Plain); ("__proxy_properties__", Plain)];
     cls_inherited := ("size", Plain) :: model_attributes;
     JS_dict := [("hue", Property (user_prop_func to_abs) "hue" "colour");
                 ("flash", Emitter (user_emitter_func (λ _, VNone)) "flash" "once");
                 ("__proxy_properties__", Plain)];
     JS_inherited := ("title", Plain) :: twin_attributes;
     cls_proxy_properties := ["size"];
     JS_proxy_properties := ["title"];
     warnings := [] |}.

(** ** The life of a process *)

(** A process at its start, with the session that the manager gives out. *)
Definition start (s : Session.t) : process :=
  {| _counter := 0; _instances := ∅; objects := ∅; next_oid := 0;
     default_session := s |}.

(** A live object is called upon. *)
Definition operate `{Serializer} (oid : nat) (op : operation)
    (timers : list timer) (p : process) : process :=
  match objects p !! oid with
  | Some self =>
      {| _counter := _counter p;
         _instances := _instances p;
         objects := <[oid := (run op (self, timers)).1]> (objects p);
         next_oid := next_oid p;
         default_session := default_session p |}
  | None => p
  end.

(** The instance attributes that the methods of [Model] read. *)
Definition state_attributes : list string :=
  ["_id"; "_session"; "_event_types_js"; "_Model__pending_events_from_js"].

(** A name that the class does not bind and that is none of the attributes
    that the methods of the object or of its base class read. *)
Definition plain_name (bound : string → bool) (self : model) (name : string)
    : Prop :=
  (name ∉ __properties__ (Py (__class__ self)))
  ∧ (name ∉ Model.read_only)
  ∧ (name ∉ Model.reserved)
  ∧ bound name = false
  ∧ (name ∉ state_attributes)
  ∧ ∀ n, n ∈ __properties__ (Py (__class__ self)) → name ≠ private_name n.

(** Names that the sample classes are taken to inherit from [HasEvents]. *)
Definition sample_bound (name : string) : bool :=
  bool_decide (name ∈ ["connect"; "disconnect"]).

(** The gauge after another object has been assigned to its attribute
    [label], and after it has then emitted an event. *)
Definition gauge1_labelled : model :=
  default gauge1
    (assigned (Model.__setattr__ (H := sample_serializer) sample_bound
                 "label" (a_value (VModel 1)) gauge1)).

Definition gauge1_later : model * list timer :=
  run (H := sample_serializer) (do_emit "resize" (VInt 2)) (gauge1_labelled, []).

(** A live object after one of its attributes has been assigned. *)
Definition put_object (oid : nat) (self : model) (p : process) : process :=
  {| _counter := _counter p;
     _instances := _instances p;
     objects := <[oid := self]> (objects p);
     next_oid := next_oid p;
     default_session := default_session p |}.

(** The processes that come about while no code assigns [_id]: objects are
    made, their methods are called, their attributes are assigned, and
    they are reclaimed.  An assignment that raises leaves the process as it
    is. *)
Inductive reachable `{Serializer} : process → Prop :=
  | reachable_start s : reachable (start s)
  | reachable_init C session kwargs p :
      reachable p → reachable (Model.__init__ C session kwargs p).1
  | reachable_operate oid op timers p :
      reachable p → reachable (operate oid op timers p)
  | reachable_assign bound oid name o self self' p :
      reachable p →
      objects p !! oid = Some self →
      name ≠ "_id" →
      Model.__setattr__ bound name o self = Some (Ok self') →
      reachable (put_object oid self' p)
  | reachable_reclaim oid p :
      reachable p → reachable (reclaim oid p).

(** What reaches an object in the course of time, while no code assigns
    [_id] or [_session]: calls of its methods and assignments of its
    attributes. *)
Inductive calls `{Serializer} : model * list timer → model * list timer → Prop :=
  | calls_none st : calls st st
  | calls_method op st st' : calls (run op st) st' → calls st st'
  | calls_assign bound name o self' st st' :
      name ≠ "_id" →
      name ≠ "_session" →
      Model.__setattr__ bound name o st.1 = Some (Ok self') →
      calls (self', st.2) st' →
      calls st st'.

(** What holds of every process that comes about: the two counters run
    together, the id of a live object is the name of its class followed by
    the number of its construction, and an entry of the registry leads to a
    live object that has the key as its id. *)
Definition well_kept (p : process) : Prop :=
  next_oid p = _counter p
  ∧ (∀ oid self, objects p !! oid = Some self →
       oid < next_oid p
       ∧ _id self = __name__ (Py (__class__ self)) +:+ pretty (S oid))
  ∧ (∀ i oid, _instances p !! i = Some oid →
       ∃ self, objects p !! oid = Some self ∧ _id self = i).

(** Two counters; the second has been assigned to the attribute [next] of
    the first, which has then been told to call a method of its twin. *)
Definition linked_first : model :=
  default first_counter
    (assigned (Model.__setattr__ (H := sample_serializer) sample_bound
                 "next" (a_value (VModel 1)) first_counter)).

Definition linked_counters : process :=
  operate (H := sample_serializer) 0 (do_call_js "show()") []
    (put_object 0 linked_first two_counters).

Definition shown_first : model := default counter1 (objects linked_counters !! 0).

(** ** The event loop *)

#[global] Instance callback_eq_dec : EqDecision callback.
Proof. solve_decision. Defined.

(** Modelled from the spec: the event loop behind [call_later] is missing
    from the source file.  It runs the oldest callback, once; a callback of
    another object is none of the business of this one. *)
Definition fire `{Serializer} (st : model * list timer) : model * list timer :=
  match st.2 with
  | [] => st
  | t :: timers =>
      match action t with
      | emit_pending_from_js_of i =>
          if decide (i = _id st.1)
          then (Model.__emit_pending_from_js st.1, timers)
          else (st.1, timers)
      end
  end.

(** What the loop brings to an object: an event of the other side arrives,
    or the oldest timer fires. *)
Inductive loop_event : Type :=
  | arrives (type text : string)
  | fires.

Definition turn `{Serializer} (e : loop_event) (st : model * list timer)
    : model * list timer :=
  match e with
  | arrives type text => Model._emit_from_js type text st
  | fires => fire st
  end.

Definition turns `{Serializer} (es : list loop_event) (st : model * list timer)
    : model * list timer :=
  foldl (λ st e, turn e st) st es.

(** The events that have arrived, decoded, in the order of arrival. *)
Definition arrivals `{Serializer} (es : list loop_event) : list (string * value) :=
  omap (λ e, match e with
             | arrives type text => Some (type, loads text)
             | fires => None
             end) es.

(** The timers that are waiting to drain the queue of this object. *)
Definition own_timers (self : model) (timers : list timer) : list timer :=
  filter (λ t, action t = emit_pending_from_js_of (_id self)) timers.

(** One drain is waiting when events are queued, none when the queue is
    empty. *)
Definition drain_pending (st : model * list timer) : Prop :=
  length (own_timers st.1 st.2)
  = match __pending_events_from_js st.1 with [] => 0 | _ :: _ => 1 end.

(** The browser evaluates the command that announces the event types of
    Python to [flexx.instances.<id>]; the argument of the call is the
    literal that the serializer has written. *)
Definition eval_set_event_types `{Serializer} (c : command) (w : window)
    : option window :=
  match c with
  | SetEventTypesPy i types =>
      self ← instances w !! i;
      Some {| ws := ws w;
              instances := <[i := ModelJS._set_event_types_py (loads_list types) self]>
                             (instances w) |}
  | _ => None
  end.

(** The event types under which at least one handler is registered. *)
Definition listened (_he_handlers : list (string * list string)) : list string :=
  (filter (λ kv, kv.2 ≠ []) _he_handlers).*1.

(** Whether the metaclass lets an attribute of the [JS] class in the body
    of a class through to the class it builds. *)
Definition copied (name : string) : bool :=
  negb (String.prefix "__" name) || bool_decide (name ∈ ModelMeta.OK_MAGICS).

(** * Properties *)

(** ** What the methods leave alone *)

Section Frames.
Context `{Serializer}.

Lemma set_prop_id name v fromjs self :
  _id (Model._set_prop name v fromjs self) = _id self.
Proof.
  unfold Model._set_prop.
  destruct (fromjs || _), (negb (fromjs && _)); reflexivity.
Qed.

Lemma set_prop_class name v fromjs self :
  __class__ (Model._set_prop name v fromjs self) = __class__ self.
Proof.
  unfold Model._set_prop.
  destruct (fromjs || _), (negb (fromjs && _)); reflexivity.
Qed.

Lemma init_prop_id name self : _id (Model._init_prop name self) = _id self.
Proof. unfold Model._init_prop. destruct (negb _); reflexivity. Qed.

Lemma init_prop_class name self :
  __class__ (Model._init_prop name self) = __class__ self.
Proof. unfold Model._init_prop. destruct (negb _); reflexivity. Qed.

Lemma exec_id cmd self : _id (Model._exec cmd self) = _id self.
Proof. reflexivity. Qed.

Lemma exec_class cmd self : __class__ (Model._exec cmd self) = __class__ self.
Proof. reflexivity. Qed.

(** Assigning a value to a property: [_set_prop], then the push of a
    [Model]. *)
Lemma assign_property_eq name v self :
  name ∈ __properties__ (Py (__class__ self)) →
  Model.__setattr__ (λ _, false) name (a_value v) self
  = Some (Ok (Model.assign_property name v self))
  ∧ Model.assign_property name v self
    = match v with
      | VModel _ =>
          Model._exec (SetAttr (_id self) name (saves v))
            (Model._set_prop name v false self)
      | _ => Model._set_prop name v false self
      end.
Proof.
  intros Hprop. unfold Model.assign_property, Model.__setattr__, HasEvents.__setattr__.
  rewrite (bool_decide_true _ Hprop).
  destruct v; rewrite ?set_prop_id; done.
Qed.


Lemma assign_property_id name v self :
  name ∈ __properties__ (Py (__class__ self)) →
  _id (Model.assign_property name v self) = _id self.
Proof.
  intros Hprop. destruct (assign_property_eq name v self Hprop) as [_ ->].
  destruct v; rewrite ?exec_id; apply set_prop_id.
Qed.

Lemma assign_property_class name v self :
  name ∈ __properties__ (Py (__class__ self)) →
  __class__ (Model.assign_property name v self) = __class__ self.
Proof.
  intros Hprop. destruct (assign_property_eq name v self Hprop) as [_ ->].
  destruct v; rewrite ?exec_class; apply set_prop_class.
Qed.

Lemma init_props_id names self :
  _id (foldl (λ s name, Model._init_prop name s) self names) = _id self.
Proof.
  revert self. induction names as [|n names IH]; intros self; simpl; [done|].
  rewrite IH. apply init_prop_id.
Qed.

Lemma init_props_class names self :
  __class__ (foldl (λ s name, Model._init_prop name s) self names)
  = __class__ self.
Proof.
  revert self. induction names as [|n names IH]; intros self; simpl; [done|].
  rewrite IH. apply init_prop_class.
Qed.

(** The initial values as the base constructor applies them. *)
Lemma given_id_class (kwargs : list (string * value)) self :
  let self' :=
    foldl (λ s kv,
             if bool_decide (kv.1 ∈ __properties__ (Py (__class__ s)))
             then Model.assign_property kv.1 kv.2 s else s) self kwargs in
  _id self' = _id self ∧ __class__ self' = __class__ self.
Proof.
  revert self. induction kwargs as [|kv kwargs IH]; intros self; [done|].
  cbn [foldl]. cbn zeta in IH. case_bool_decide as Hprop.
  - destruct (IH (Model.assign_property kv.1 kv.2 self)) as [-> ->].
    by rewrite assign_property_id, assign_property_class.
  - apply IH.
Qed.

(** Base construction keeps the id that [__init__] has set. *)
Lemma base_init_id kwargs self :
  _id (HasEvents.__init__ Model._init_prop Model.assign_property kwargs self)
  = _id self.
Proof.
  unfold HasEvents.__init__.
  destruct (given_id_class kwargs
              (foldl (λ s name, Model._init_prop name s) self
                 (__properties__ (Py (__class__ self))))) as [-> _].
  apply init_props_id.
Qed.

Lemma base_init_class kwargs self :
  __class__ (HasEvents.__init__ Model._init_prop Model.assign_property kwargs self)
  = __class__ self.
Proof.
  unfold HasEvents.__init__.
  destruct (given_id_class kwargs
              (foldl (λ s name, Model._init_prop name s) self
                 (__properties__ (Py (__class__ self))))) as [_ ->].
  apply init_props_class.
Qed.
End Frames.

(** ** Ids and the registry *)

Section Ids.
Context `{Serializer}.

(** The id of a new object is the name of its class followed by the
    counter, which every construction advances by one; the registry maps
    the id to the new object. *)
Lemma init_assigns_id C session kwargs p :
  let p' := (Model.__init__ C session kwargs p).1 in
  let oid := (Model.__init__ C session kwargs p).2 in
  _counter p' = S (_counter p)
  ∧ oid = next_oid p
  ∧ _instances p' !! (__name__ (Py C) +:+ pretty (S (_counter p))) = Some oid
  ∧ ∃ self, objects p' !! oid = Some self
      ∧ _id self = __name__ (Py C) +:+ pretty (S (_counter p)).
Proof.
  simpl. split; [done|]. split; [done|]. split.
  - apply lookup_insert_eq.
  - eexists. split; [apply lookup_insert_eq|].
    unfold Model._init. rewrite base_init_id. reflexivity.
Qed.

Lemma string_app_inj_l (s t u : string) : s +:+ t = s +:+ u → t = u.
Proof.
  induction s as [|c s IH]; simpl; [done|].
  intros Heq. apply IH. by injection Heq.
Qed.

(** Two objects of classes with the same name never share an id. *)
Lemma same_class_ids_distinct (name : string) (n m : nat) :
  n ≠ m → name +:+ pretty n ≠ name +:+ pretty m.
Proof.
  intros Hne Heq. apply Hne.
  apply string_app_inj_l in Heq. by apply (inj pretty) in Heq.
Qed.

(** Decoding the encoding of an object gives whatever the registry holds
    under its id. *)
Lemma decode_encode_registry self p :
  decode (encode self) p = Some (Ok (get_instance_by_id (_id self) p)).
Proof. reflexivity. Qed.

(** An object that the registry holds under its id is decoded to itself. *)
Lemma decode_encode_registered self oid p :
  _instances p !! _id self = Some oid →
  decode (encode self) p = Some (Ok (VModel oid)).
Proof.
  intros Hreg. rewrite decode_encode_registry.
  unfold get_instance_by_id. by rewrite Hreg.
Qed.

(** A reference to an id without entry in the registry is decoded to
    [None], and nothing is raised. *)
Lemma decode_absent (i : string) p :
  _instances p !! i = None →
  decode (<["__type__" := VStr "Flexx-Model"]> (<["id" := VStr i]> ∅)) p
  = Some (Ok VNone).
Proof.
  intros Hnone. unfold decode. rewrite lookup_insert_eq.
  unfold revivers. cbn [list_find]. rewrite decide_True by done.
  cbn [fmap option_fmap option_map snd]. unfold Model.__from_json__.
  rewrite lookup_insert_ne by done. rewrite lookup_insert_eq.
  unfold get_instance_by_id. by rewrite Hnone.
Qed.

(** X18: once an object is reclaimed, a reference to the id under which the
    registry held it is decoded to [None]; nothing is raised. *)
Lemma decode_reclaimed (i : string) oid p :
  _instances p !! i = Some oid →
  decode (<["__type__" := VStr "Flexx-Model"]> (<["id" := VStr i]> ∅))
    (reclaim oid p) = Some (Ok VNone).
Proof.
  intros Hreg. apply decode_absent. cbn.
  apply map_lookup_filter_None. right. intros oid' Hoid'. cbn.
  rewrite Hreg in Hoid'. injection Hoid' as <-. by intros ?.
Qed.

(** The object that [__init__] has just made is decoded to itself. *)
Lemma decode_encode_new C session kwargs p :
  let p' := (Model.__init__ C session kwargs p).1 in
  let oid := (Model.__init__ C session kwargs p).2 in
  ∃ self, objects p' !! oid = Some self
    ∧ decode (encode self) p' = Some (Ok (VModel oid)).
Proof.
  destruct (init_assigns_id C session kwargs p) as (_ & _ & Hreg & self & Hobj & Hid).
  intros p' oid. exists self. split; [exact Hobj|].
  apply decode_encode_registered. by rewrite Hid.
Qed.
End Ids.

(** C5: the id is the class name followed by the counter, and the
    specification takes the ids of any two live objects, of whatever
    classes, to differ.  They need not: with one object of class
    [A1] made first and ten of class [A] after it, the first and the last
    object are both alive, they are of different classes, and both have the
    id [A11]; the registry keeps only the last. *)
Theorem id_collision_across_classes :
  (_id <$> objects crowded_process !! 0) = Some "A11"
  ∧ (_id <$> objects crowded_process !! 10) = Some "A11"
  ∧ (__name__ ∘ Py ∘ __class__ <$> objects crowded_process !! 0) = Some "A1"
  ∧ (__name__ ∘ Py ∘ __class__ <$> objects crowded_process !! 10) = Some "A"
  ∧ _instances crowded_process !! "A11" = Some 10.
Proof. repeat split; vm_compute; reflexivity. Qed.

(** C6: the specification has the decoding of the encoding of a live object
    give that very object.  In the process above the first object (identity
    0) is alive, and decoding its encoding gives the object with identity
    10, which has taken its entry in the registry. *)
Theorem decode_encode_returns_other_instance :
  ∃ a, objects crowded_process !! 0 = Some a
    ∧ decode (encode a) crowded_process = Some (Ok (VModel 10)).
Proof.
  destruct (objects crowded_process !! 0) as [a|] eqn:Hobj;
    [|vm_compute in Hobj; discriminate].
  exists a. split; [reflexivity|].
  rewrite decode_encode_registry. f_equal. f_equal.
  assert (_id a = "A11") as ->.
  { assert ((_id <$> objects crowded_process !! 0) = Some "A11") as Hid
      by (vm_compute; reflexivity).
    rewrite Hobj in Hid. by injection Hid. }
  vm_compute. reflexivity.
Qed.

(** ** Properties: what is stored and what is sent *)

Section Properties.
Context `{Serializer}.

Lemma getattr_stored name v self :
  getattr (with_property_values (insert name v) self) name = v.
Proof. unfold getattr. cbn. by rewrite lookup_insert_eq. Qed.

(** Setting a property sends nothing when the value comes from JavaScript
    and the property is a proxy, and one command otherwise. *)
Lemma set_prop_commands name v fromjs self :
  commands (Model._set_prop name v fromjs self)
  = commands self
    ++ (if fromjs && is_proxy (__class__ self) name then []
        else [set_command (_id self) (__class__ self) name v]).
Proof.
  unfold Model._set_prop, set_command, is_proxy, normalised, commands.
  destruct fromjs; case_bool_decide; cbn; rewrite ?app_nil_r; try done.
  - unfold HasEvents._set_prop. by rewrite getattr_stored.
  - unfold HasEvents._set_prop. by rewrite getattr_stored.
Qed.

(** What setting a property stores: nothing when a proxy is set from
    Python, the normalised value otherwise. *)
Lemma set_prop_values name v fromjs self :
  property_values (Model._set_prop name v fromjs self)
  = if negb fromjs && is_proxy (__class__ self) name then property_values self
    else <[name := normalised (__class__ self) name v]> (property_values self).
Proof.
  unfold Model._set_prop, is_proxy, normalised.
  destruct fromjs; case_bool_decide; reflexivity.
Qed.

Lemma init_prop_commands name self :
  commands (Model._init_prop name self)
  = commands self
    ++ (if is_proxy (__class__ self) name then []
        else [SetPropFromPy (_id self) name
                (saves (default_value (__class__ self) name))]).
Proof.
  unfold Model._init_prop, is_proxy, default_value, commands.
  case_bool_decide; cbn; rewrite ?app_nil_r; try done.
  unfold HasEvents._init_prop. by rewrite getattr_stored.
Qed.

Lemma init_props_commands names self :
  commands (foldl (λ s name, Model._init_prop name s) self names)
  = commands self
    ++ ((λ name, SetPropFromPy (_id self) name
                   (saves (default_value (__class__ self) name)))
          <$> filter (λ name, name ∉ __proxy_properties__ (Py (__class__ self)))
                names).
Proof.
  revert self. induction names as [|n names IH]; intros self.
  - cbn. by rewrite app_nil_r.
  - cbn [foldl]. rewrite IH, init_prop_commands, init_prop_id, init_prop_class.
    rewrite filter_cons. unfold is_proxy.
    case_bool_decide; case_decide; try done.
    + by rewrite app_nil_r.
    + by rewrite <- app_assoc.
Qed.

Lemma assign_property_commands name v self :
  name ∈ __properties__ (Py (__class__ self)) →
  commands (Model.assign_property name v self)
  = commands self ++ assign_commands (_id self) (__class__ self) (name, v).
Proof.
  intros Hprop. destruct (assign_property_eq name v self Hprop) as [_ ->].
  unfold assign_commands. cbn [fst snd].
  destruct v as [| | | |oid]; try (rewrite set_prop_commands; reflexivity).
  assert (commands (Model._exec (SetAttr (_id self) name (saves (VModel oid)))
                      (Model._set_prop name (VModel oid) false self))
          = commands (Model._set_prop name (VModel oid) false self)
            ++ [SetAttr (_id self) name (saves (VModel oid))]) as -> by reflexivity.
  rewrite set_prop_commands. cbn [andb]. by rewrite <- app_assoc.
Qed.

Lemma given_commands (kwargs : list (string * value)) self :
  commands
    (foldl (λ s kv,
              if bool_decide (kv.1 ∈ __properties__ (Py (__class__ s)))
              then Model.assign_property kv.1 kv.2 s else s) self kwargs)
  = commands self
    ++ concat (assign_commands (_id self) (__class__ self)
                 <$> given (__class__ self) kwargs).
Proof.
  revert self. induction kwargs as [|[n v] kwargs IH]; intros self.
  - cbn. by rewrite app_nil_r.
  - cbn [foldl fst snd]. unfold given. rewrite filter_cons. cbn [fst].
    case_bool_decide as Hprop.
    + rewrite decide_True by done.
      rewrite IH, assign_property_commands, assign_property_id,
        assign_property_class by done.
      cbn [fmap list_fmap concat]. by rewrite <- app_assoc.
    + rewrite decide_False by done. apply IH.
Qed.

Lemma set_props_defaults i C : set_props (default_commands i C) = default_commands i C.
Proof.
  unfold default_commands, set_props.
  induction (filter _ (__properties__ (Py C))) as [|n names IH]; [done|].
  cbn [fmap list_fmap]. rewrite filter_cons. cbn [is_set_prop].
  rewrite decide_True by done. f_equal. exact IH.
Qed.

Lemma set_props_given i C (kvs : list (string * value)) :
  set_props (concat (assign_commands i C <$> kvs))
  = (λ kv, set_command i C kv.1 kv.2) <$> kvs.
Proof.
  unfold set_props. induction kvs as [|[n v] kvs IH]; [done|].
  cbn [fmap list_fmap concat]. unfold assign_commands at 1.
  cbn [fst snd app]. rewrite filter_cons. unfold set_command at 1.
  cbn [is_set_prop]. rewrite decide_True by done. unfold set_command at 2.
  f_equal. rewrite filter_app, IH.
  destruct v; cbn; try done.
Qed.

Lemma no_instantiate_defaults i C :
  Forall (λ c, is_instantiate c = false) (default_commands i C).
Proof. unfold default_commands. apply Forall_fmap, Forall_true. done. Qed.

Lemma no_instantiate_given i C (kvs : list (string * value)) :
  Forall (λ c, is_instantiate c = false) (concat (assign_commands i C <$> kvs)).
Proof.
  induction kvs as [|[n v] kvs IH]; [by constructor|].
  cbn [fmap list_fmap concat]. apply Forall_app. split; [|exact IH].
  unfold assign_commands, set_command. cbn [fst snd].
  destruct v; repeat constructor.
Qed.

(** C1, as the code has it: constructing an object sends one command that
    instantiates the twin and, after it, one set command for the default of
    each property that is not a proxy, in the order of [__properties__],
    then one set command for each initial value that is given for a
    property, in the order given: the normalised value for a property that
    is not a proxy, the value as given for a proxy.  These are all the set
    commands of the construction, and no second command instantiates.
    Setting a property later sends at most one set command, for the value
    that is set then, so that no initial value is sent again. *)
Theorem construction_sends_each_initial_value_once C session kwargs p :
  let p' := (Model.__init__ C session kwargs p).1 in
  let oid := (Model.__init__ C session kwargs p).2 in
  let id := __name__ (Py C) +:+ pretty (S (_counter p)) in
  ∃ self more, objects p' !! oid = Some self
    ∧ commands self
      = Session.executed (default (default_session p) session)
        ++ Instantiate id ("flexx.classes." +:+ __name__ (Py C))
             (saves_list (foldl (λ acc h, acc ++ h.2) [] (__handlers__ (Py C))))
           :: more
    ∧ Forall (λ c, is_instantiate c = false) more
    ∧ set_props more
      = default_commands id C
        ++ ((λ kv, set_command id C kv.1 kv.2) <$> given C kwargs)
    ∧ ∀ name v fromjs,
        commands (Model._set_prop name v fromjs self)
        = commands self
          ++ (if fromjs && is_proxy C name then []
              else [set_command id C name v]).
Proof.
  intros p' oid i. eexists.
  exists (default_commands i C ++ concat (assign_commands i C <$> given C kwargs)).
  split; [apply lookup_insert_eq|].
  unfold Model._init.
  set (self0 := Model._exec _ _).
  assert (_id self0 = i) as Hid by reflexivity.
  assert (__class__ self0 = C) as Hcls by reflexivity.
  split; [|split; [|split]].
  - unfold HasEvents.__init__.
    rewrite given_commands, init_props_commands.
    rewrite init_props_id, init_props_class, Hid, Hcls.
    unfold default_commands. rewrite <- app_assoc.
    unfold commands at 1. subst self0. cbn.
    assert (Session.executed (Session.register_model_class C
              (default (default_session p) session))
            = Session.executed (default (default_session p) session)) as ->.
    { unfold Session.register_model_class. by case_bool_decide. }
    by rewrite <- app_assoc.
  - apply Forall_app. split; [apply no_instantiate_defaults|apply no_instantiate_given].
  - unfold set_props. rewrite filter_app.
    fold (set_props (default_commands i C)).
    fold (set_props (concat (assign_commands i C <$> given C kwargs))).
    by rewrite set_props_defaults, set_props_given.
  - intros name v fromjs. rewrite set_prop_commands.
    by rewrite base_init_id, Hid, (base_init_class kwargs self0), Hcls.
Qed.
End Properties.

(** ** Events *)

Section Events.
Context `{Serializer}.

Lemma emit_emitted type ev fromjs self :
  emitted (Model.emit type ev fromjs self) = emitted self ++ [(type, ev)].
Proof. unfold Model.emit. cbn. by destruct (negb fromjs && _). Qed.

Lemma emit_pending type ev fromjs self :
  __pending_events_from_js (Model.emit type ev fromjs self)
  = __pending_events_from_js self.
Proof. unfold Model.emit. cbn. by destruct (negb fromjs && _). Qed.

Lemma emit_values type ev fromjs self :
  property_values (Model.emit type ev fromjs self) = property_values self.
Proof. unfold Model.emit. cbn. by destruct (negb fromjs && _). Qed.

(** An event that comes from JavaScript is never sent back. *)
Lemma emit_from_js_commands type ev self :
  commands (Model.emit type ev true self) = commands self.
Proof. reflexivity. Qed.

Lemma emit_all_from_js (pending : list (string * value)) self :
  let self' := foldl (λ s te, Model.emit te.1 te.2 true s) self pending in
  emitted self' = emitted self ++ pending
  ∧ commands self' = commands self
  ∧ __pending_events_from_js self' = __pending_events_from_js self
  ∧ property_values self' = property_values self.
Proof.
  revert self. induction pending as [|[t e] pending IH]; intros self.
  - cbn. by rewrite app_nil_r.
  - cbn [foldl fst snd]. destruct (IH (Model.emit t e true self)) as (-> & -> & -> & ->).
    rewrite emit_emitted, emit_from_js_commands, emit_pending, emit_values.
    by rewrite <- app_assoc.
Qed.

(** After the first event of a burst the queue is not empty, and the
    events that follow only join it. *)
Lemma arrive_queued evs self timers :
  __pending_events_from_js self ≠ [] →
  arrive evs (self, timers)
  = (with_pending (__pending_events_from_js self
                     ++ ((λ e, (e.1, loads e.2)) <$> evs)) self, timers).
Proof.
  revert self. induction evs as [|[t x] evs IH]; intros self Hne.
  - cbn. rewrite app_nil_r. by destruct self.
  - unfold arrive. cbn [foldl fst snd]. unfold Model._emit_from_js at 2.
    destruct (__pending_events_from_js self) as [|q qs] eqn:Hq; [done|].
    fold (arrive evs (with_pending ((q :: qs) ++ [(t, loads x)]) self, timers)).
    rewrite IH by (cbn; done).
    cbn. by rewrite <- app_assoc.
Qed.

(** A burst that arrives at an empty queue sets one timer. *)
Lemma arrive_empty evs self timers :
  __pending_events_from_js self = [] →
  evs ≠ [] →
  arrive evs (self, timers)
  = (with_pending ((λ e, (e.1, loads e.2)) <$> evs) self,
     timers ++ [{| delay := 1 # 10000;
                   action := emit_pending_from_js_of (_id self) |}]).
Proof.
  intros Hempty Hne. destruct evs as [|[t x] evs]; [done|].
  unfold arrive. cbn [foldl fst snd]. unfold Model._emit_from_js at 2.
  rewrite Hempty.
  fold (arrive evs (with_pending ([] ++ [(t, loads x)]) self,
                    call_later (1 # 10000) (emit_pending_from_js_of (_id self))
                      timers)).
  by rewrite arrive_queued by (cbn; done).
Qed.

(** The drain emits what is queued, in order, as coming from JavaScript. *)
Lemma drain_spec self :
  let self' := Model.__emit_pending_from_js self in
  emitted self' = emitted self ++ __pending_events_from_js self
  ∧ __pending_events_from_js self' = []
  ∧ commands self' = commands self
  ∧ property_values self' = property_values self.
Proof.
  unfold Model.__emit_pending_from_js.
  destruct (emit_all_from_js (__pending_events_from_js self)
              (with_pending [] self)) as (He & Hc & Hp & Hv).
  cbn zeta in *. by rewrite He, Hc, Hp, Hv.
Qed.

(** C3: when the events of a burst arrive at an object whose queue is
    empty, exactly one timer is set; when it fires, all the events of the
    burst are emitted, in the order of arrival, the queue is empty again
    and no command has been sent to JavaScript, whatever the other side
    listens to. *)
Theorem burst_shares_one_drain evs self timers :
  __pending_events_from_js self = [] →
  evs ≠ [] →
  let st := arrive evs (self, timers) in
  let self' := (run on_timer st).1 in
  st.2 = timers ++ [{| delay := 1 # 10000;
                       action := emit_pending_from_js_of (_id self) |}]
  ∧ __pending_events_from_js st.1 = (λ e, (e.1, loads e.2)) <$> evs
  ∧ emitted st.1 = emitted self
  ∧ emitted self' = emitted self ++ ((λ e, (e.1, loads e.2)) <$> evs)
  ∧ __pending_events_from_js self' = []
  ∧ commands self' = commands self.
Proof.
  intros Hempty Hne st self'. subst st self'.
  rewrite arrive_empty by done. cbn [run fst snd].
  destruct (drain_spec (with_pending ((λ e, (e.1, loads e.2)) <$> evs) self))
    as (He & Hp & Hc & _).
  cbn zeta in *. by rewrite He, Hp, Hc.
Qed.

(** C7: when the event type is not among the types that the other side
    listens to, emitting the event hands it to the local handlers and
    sends no command. *)
Theorem emit_without_listener_sends_nothing type ev self :
  type ∉ _event_types_js self →
  let self' := Model.emit type ev false self in
  emitted self' = emitted self ++ [(type, ev)]
  ∧ commands self' = commands self.
Proof.
  intros Hnot. split; [apply emit_emitted|].
  unfold Model.emit. cbn. by rewrite bool_decide_false.
Qed.

(** The same on the JavaScript side: nothing is sent on the websocket,
    which is not even looked at. *)
Lemma twin_emit_without_listener type ev self ws :
  type ∉ _event_types_py self →
  ModelJS.emit type ev false (self, ws)
  = Ok (with_twin_emitted (λ es, es ++ [(type, ev)]) self, ws).
Proof.
  intros Hnot. unfold ModelJS.emit. cbn. by rewrite bool_decide_false.
Qed.

(** An event that the other side listens to is sent, once. *)
Lemma emit_with_listener type ev self :
  type ∈ _event_types_js self →
  commands (Model.emit type ev false self)
  = commands self ++ [EmitFromPy (_id self) (saves (VStr type)) (saves ev)].
Proof.
  intros Hin. unfold Model.emit. cbn. by rewrite bool_decide_true.
Qed.
End Events.

Lemma burst_shares_one_drain_witness :
  let evs := [("resize", "1"); ("click", "null"); ("resize", "3")] in
  let st := arrive (H := sample_serializer) evs (gauge1, []) in
  let self' := (run (H := sample_serializer) on_timer st).1 in
  st.2 = [{| delay := 1 # 10000; action := emit_pending_from_js_of "Gauge1" |}]
  ∧ __pending_events_from_js st.1
    = [("resize", VInt 1); ("click", VNone); ("resize", VInt 3)]
  ∧ emitted st.1 = []
  ∧ emitted self' = [("resize", VInt 1); ("click", VNone); ("resize", VInt 3)]
  ∧ __pending_events_from_js self' = []
  ∧ commands self' = [].
Proof.
  apply (burst_shares_one_drain (H := sample_serializer)
           [("resize", "1"); ("click", "null"); ("resize", "3")] gauge1 []);
    [reflexivity | discriminate].
Defined.

Lemma emit_without_listener_sends_nothing_witness :
  ("click" ∉ _event_types_js gauge1)
  ∧ emitted (Model.emit (H := sample_serializer) "click" VNone false gauge1)
    = [("click", VNone)]
  ∧ commands (Model.emit (H := sample_serializer) "click" VNone false gauge1) = [].
Proof.
  assert ("click" ∉ _event_types_js gauge1) as Hnot
    by (cbn; rewrite list_elem_of_singleton; discriminate).
  split; [exact Hnot|].
  exact (emit_without_listener_sends_nothing (H := sample_serializer)
           "click" VNone gauge1 Hnot).
Defined.

(** ** The two sides of a property *)

Section Sides.
Context `{Serializer}.


(** What becomes of the instance when an attribute that the class does not
    bind is assigned. *)
Lemma set_instance_attribute_cases name o self self' :
  set_instance_attribute name o self = Some self' →
  (name = "_id" ∧ ∃ i, o = a_value (VStr i) ∧ self' = with_id i self)
  ∨ (name = "_session" ∧ ∃ s, o = a_session s ∧ self' = with_session (λ _, s) self)
  ∨ (name = "_event_types_js" ∧ ∃ types, self' = with_event_types_js types self)
  ∨ (name = "_Model__pending_events_from_js"
     ∧ ∃ events, self' = with_pending events self)
  ∨ (∃ n v, private_name n = name ∧ o = a_value v
       ∧ self' = with_property_values (insert n v) self)
  ∨ (name ≠ "_id" ∧ name ≠ "_session" ∧ self' = with_dict (insert name o) self).
Proof.
  unfold set_instance_attribute. intros Hset.
  destruct (decide (name = "_id")) as [->|Hid].
  { left. split; [done|]. destruct o as [[| | |i|]| | |]; try done.
    exists i. by injection Hset as <-. }
  destruct (decide (name = "_session")) as [->|Hsession].
  { right; left. split; [done|]. destruct o as [| s | |]; try done.
    exists s. by injection Hset as <-. }
  destruct (decide (name = "_event_types_js")) as [->|Htypes].
  { right; right; left. split; [done|].
    destruct o as [| |types|[|e events]]; try done.
    - exists types. by injection Hset as <-.
    - exists []. by injection Hset as <-. }
  destruct (decide (name = "_Model__pending_events_from_js")) as [->|Hpending].
  { right; right; right; left. split; [done|].
    destruct o as [| |[|t types]|events]; try done.
    - exists []. by injection Hset as <-.
    - exists events. by injection Hset as <-. }
  destruct (list_find _ _) as [[k n]|] eqn:Hfind.
  - right; right; right; right; left.
    apply list_find_Some in Hfind as (_ & Hn & _).
    destruct o as [v| | |]; try done.
    exists n, v. by injection Hset as <-.
  - right; right; right; right; right. by injection Hset as <-.
Qed.

(** An assignment that neither raises nor leaves the record: either a
    value is assigned to a property, or an attribute of the instance is
    set; a [Model] is then pushed. *)
Lemma setattr_ok bound name o self self' :
  Model.__setattr__ bound name o self = Some (Ok self') →
  ∃ self1,
    self' = match o with
            | a_value (VModel oid) =>
                Model._exec (SetAttr (_id self1) name (saves (VModel oid))) self1
            | _ => self1
            end
    ∧ (((name ∈ __properties__ (Py (__class__ self)))
        ∧ ∃ v, o = a_value v ∧ self1 = Model._set_prop name v false self)
       ∨ ((name ∉ __properties__ (Py (__class__ self)))
          ∧ (name ∉ Model.read_only)
          ∧ (name ∉ Model.reserved)
          ∧ bound name = false
          ∧ set_instance_attribute name o self = Some self1)).
Proof.
  unfold Model.__setattr__, HasEvents.__setattr__.
  case_bool_decide as Hprop.
  - destruct o as [v| | |]; try done. intros Hs. exists (Model._set_prop name v false self).
    split; [destruct v; by injection Hs as <-|].
    left. split; [done|]. by exists v.
  - case_bool_decide as Hro; [done|].
    case_bool_decide as Hres; [done|].
    destruct (bound name) eqn:Hbound; [done|].
    destruct (set_instance_attribute name o self) as [self1|] eqn:Hset; [|done].
    cbn. intros Hs. exists self1. split.
    + destruct o as [[]| | |]; by injection Hs as <-.
    + right. done.
Qed.





(** A property of the JavaScript side itself, set from Python with the
    websocket open: the value is normalised, stored and sent to Python. *)
Lemma twin_own_set_from_py name text (tw : twin) sent :
  name ∉ __proxy_properties__ (twin_class tw) →
  let v := call_prop_func (property_func (twin_class tw) name)
             (Some (loads text)) in
  ModelJS._set_prop_from_py name text (tw, Some sent)
  = (with_twin_values (insert name v) tw,
     Some (sent ++ ["SETPROP " +:+ String.concat " " [id tw; name; saves v]])).
Proof.
  intros Hown. unfold ModelJS._set_prop_from_py, ModelJS._set_prop.
  rewrite (bool_decide_false _ Hown). cbn.
  unfold twin_get. cbn. by rewrite lookup_insert_eq.
Qed.




(** C10, as the code has it: without a websocket, [_set_prop] of the
    JavaScript side hands every property, proxy or not, to the setter of
    the base class and returns; nothing is sent.  What is stored is what
    the function of the property makes of the value: the value itself for
    a proxy, whose function is the stub, and the normalised value for a
    property of the JavaScript side. *)
Theorem set_prop_without_websocket name v frompy (self : twin) :
  ModelJS._set_prop name v frompy (self, None)
  = (HasEventsJS._set_prop name v self, None)
  ∧ twin_values (HasEventsJS._set_prop name v self) !! name
    = Some (call_prop_func (property_func (twin_class self) name) (Some v))
  ∧ call_prop_func stub_prop_func (Some v) = v.
Proof.
  repeat split. unfold HasEventsJS._set_prop. cbn. by rewrite lookup_insert_eq.
Qed.
End Sides.

(** The text of the first two commands of a [Counter]. *)
Example counter_commands_text :
  render sample_reprs sample_repr
    (Instantiate "Counter1" "flexx.classes.Counter" "[]")
  = "flexx.instances.Counter1 = new flexx.classes.Counter("
    +:+ quote +:+ "Counter1" +:+ quote +:+ ", []);"
  ∧ render sample_reprs sample_repr (SetPropFromPy "Counter1" "count" "0")
    = "flexx.instances.Counter1._set_prop_from_py("
      +:+ quote +:+ "count" +:+ quote +:+ ", " +:+ quote +:+ "0" +:+ quote +:+ ");".
Proof. split; reflexivity. Qed.

(** The scenario of the specification: a [Counter] is made, which sends the
    default of [count] once; [count] is then set to 5, which sends the 5,
    and the 0 is not sent again. *)
Example counter_scenario :
  let made := Model.__init__ (H := sample_serializer) Counter None [] initial_process in
  (commands <$> objects made.1 !! made.2)
  = Some [Instantiate "Counter1" "flexx.classes.Counter" "[]";
          SetPropFromPy "Counter1" "count" "0"]
  ∧ (commands
       <$> (objects made.1 !! made.2
              ≫= λ self, assigned (Model.__setattr__ (H := sample_serializer)
                                     (λ _, false) "count" (a_value (VInt 5)) self)))
    = Some [Instantiate "Counter1" "flexx.classes.Counter" "[]";
            SetPropFromPy "Counter1" "count" "0";
            SetPropFromPy "Counter1" "count" "5"].
Proof. split; vm_compute; reflexivity. Qed.

(** C1 in the specification: one set command for each property that is not
    a proxy and receives an initial value.  [count] is no proxy on the
    Python side of the counter; constructing a counter with the initial
    value 3 for [count] sends two set commands for it, the default and
    then the 3. *)
Lemma construction_sends_default_and_given_value :
  let made := Model.__init__ (H := sample_serializer) Counter None
                [("count", VInt 3)] initial_process in
  ("count" ∉ __proxy_properties__ (Py Counter))
  ∧ __properties__ (Py Counter) = ["count"]
  ∧ (commands <$> objects made.1 !! made.2)
    = Some [Instantiate "Counter1" "flexx.classes.Counter" "[]";
            SetPropFromPy "Counter1" "count" "0";
            SetPropFromPy "Counter1" "count" "3"]
  ∧ (length ∘ set_props ∘ commands <$> objects made.1 !! made.2) = Some 2.
Proof.
  split; [by apply not_elem_of_nil|].
  repeat split; vm_compute; reflexivity.
Qed.



(** C10 in the specification: without a websocket the value is stored as
    given, without normalisation.  [level] lives on the JavaScript side and its function
    takes the absolute value; without a websocket, setting it to -3 stores
    3, and nothing is sent. *)
Lemma set_prop_without_websocket_normalises :
  let st := ModelJS._set_prop (H := sample_serializer) "level" (VInt (-3)) false
              (gauge1_twin, None) in
  ("level" ∉ __proxy_properties__ (twin_class gauge1_twin))
  ∧ st.2 = None
  ∧ twin_values st.1 !! "level" = Some (VInt 3)
  ∧ twin_values st.1 !! "level" ≠ Some (VInt (-3)).
Proof.
  split; [cbn; rewrite list_elem_of_singleton; discriminate|].
  split; [reflexivity|].
  split; [vm_compute; reflexivity|].
  vm_compute. discriminate.
Qed.



(** ** Class dictionaries *)

Lemma dict_get_set name k v d :
  dict_get name (dict_set k v d) = if decide (k = name) then Some v else dict_get name d.
Proof.
  induction d as [|[k' w] d IH]; cbn.
  - by destruct (decide (k = name)).
  - destruct (decide (k' = k)) as [->|Hne]; cbn.
    + by destruct (decide (k = name)).
    + rewrite IH. destruct (decide (k' = name)) as [->|]; [|done].
      by rewrite decide_False by done.
Qed.

Lemma dict_get_set_ne name k v d :
  k ≠ name → dict_get name (dict_set k v d) = dict_get name d.
Proof. intros Hne. rewrite dict_get_set. by rewrite decide_False. Qed.

Lemma dict_get_elem name v d : dict_get name d = Some v → (name, v) ∈ d.
Proof.
  induction d as [|[k w] d IH]; cbn; [done|].
  destruct (decide (k = name)) as [->|].
  - intros [= ->]. apply list_elem_of_here.
  - intros Hget. apply list_elem_of_further. by apply IH.
Qed.

Lemma dict_elem_get name v d : (name, v) ∈ d → is_Some (dict_get name d).
Proof.
  induction d as [|[k w] d IH]; [by intros ?%elem_of_nil|].
  intros [[= -> ->]|Hin]%elem_of_cons; cbn.
  - rewrite decide_True by done. by eexists.
  - destruct (decide (k = name)); [by eexists|by apply IH].
Qed.

(** ** Loops *)

Lemma foldl_invariant {A S : Type} (step : S → A → S) (I : S → Prop) items st :
  (∀ s x, I s → I (step s x)) → I st → I (foldl step st items).
Proof.
  intros Hstep. revert st. induction items as [|x items IH]; intros st Hst; cbn.
  - done.
  - apply IH. by apply Hstep.
Qed.

(** An invariant [I] and a property [Q] that holds from the step on a given
    item onwards. *)
Lemma foldl_reaches {A S : Type} (step : S → A → S) (I Q : S → Prop) a items st :
  (∀ s x, I s → I (step s x)) →
  (∀ s x, Q s → Q (step s x)) →
  (∀ s, I s → Q (step s a)) →
  a ∈ items → I st → Q (foldl step st items).
Proof.
  intros HI HQ Ha. revert st. induction items as [|x items IH]; intros st Hin Hst.
  - by apply elem_of_nil in Hin.
  - cbn. apply elem_of_cons in Hin as [->|Hin].
    + apply (foldl_invariant step Q); [exact HQ|]. by apply Ha.
    + apply IH; [done|]. by apply HI.
Qed.

(** ** The metaclass *)

Section MetaProperties.
Variable finalize_hasevents_class : dict → dict.
Variable repr : string → string.


Lemma is_proxied_false st name :
  ModelMeta.is_proxied st name = false
  ↔ (name ∉ JS_proxy_properties st) ∧ (name ∉ cls_proxy_properties st).
Proof.
  unfold ModelMeta.is_proxied. rewrite orb_false_iff.
  by rewrite !bool_decide_eq_false.
Qed.

Lemma hasattr_cls_eq st st' name :
  dict_get name (cls_dict st') = dict_get name (cls_dict st) →
  cls_inherited st' = cls_inherited st →
  hasattr_cls st' name = hasattr_cls st name.
Proof. unfold hasattr_cls. by intros -> ->. Qed.

Lemma hasattr_JS_eq st st' name :
  dict_get name (JS_dict st') = dict_get name (JS_dict st) →
  JS_inherited st' = JS_inherited st →
  hasattr_JS st' name = hasattr_JS st name.
Proof. unfold hasattr_JS. by intros -> ->. Qed.

Lemma hasattr_cls_own st name v :
  dict_get name (cls_dict st) = Some v → hasattr_cls st name = true.
Proof.
  intros Hget. unfold hasattr_cls. rewrite Hget.
  by rewrite bool_decide_true by by eexists.
Qed.

Lemma hasattr_JS_own st name v :
  dict_get name (JS_dict st) = Some v → hasattr_JS st name = true.
Proof.
  intros Hget. unfold hasattr_JS. rewrite Hget.
  by rewrite bool_decide_true by by eexists.
Qed.

(** What the first loop never touches. *)
Lemma proxy_on_cls_frame st item :
  let st' := ModelMeta.proxy_on_cls repr st item in
  cls_name st' = cls_name st ∧ cls_inherited st' = cls_inherited st
  ∧ JS_dict st' = JS_dict st ∧ JS_inherited st' = JS_inherited st
  ∧ JS_proxy_properties st' = JS_proxy_properties st.
Proof.
  destruct item as [k [f n d|f n d|]]; unfold ModelMeta.proxy_on_cls;
    cbn; [| |done].
  - destruct (ModelMeta.is_proxied st k); [done|].
    by destruct (hasattr_cls st k).
  - by destruct (hasattr_cls st k).
Qed.

(** A name that [cls] has keeps its entry and is not made a proxy. *)
Lemma proxy_on_cls_keeps st item x :
  hasattr_cls st x = true →
  let st' := ModelMeta.proxy_on_cls repr st item in
  dict_get x (cls_dict st') = dict_get x (cls_dict st)
  ∧ (x ∈ cls_proxy_properties st' → x ∈ cls_proxy_properties st).
Proof.
  intros Hx. destruct item as [k [f n d|f n d|]];
    unfold ModelMeta.proxy_on_cls; cbn; [| |done].
  - destruct (ModelMeta.is_proxied st k); [done|].
    destruct (hasattr_cls st k) eqn:Hk; cbn; [done|].
    assert (k ≠ x) as Hne by (intros ->; congruence).
    split; [by apply dict_get_set_ne|].
    intros [Hin|Hin]%elem_of_app; [done|].
    apply list_elem_of_singleton in Hin. congruence.
  - destruct (hasattr_cls st k) eqn:Hk; cbn; [done|].
    assert (k ≠ x) as Hne by (intros ->; congruence).
    split; [by apply dict_get_set_ne|done].
Qed.

Lemma proxy_on_cls_warnings st item m :
  m ∈ warnings st → m ∈ warnings (ModelMeta.proxy_on_cls repr st item).
Proof.
  intros Hm. destruct item as [k [f n d|f n d|]];
    unfold ModelMeta.proxy_on_cls; cbn; [| |done].
  - destruct (ModelMeta.is_proxied st k); [done|].
    destruct (hasattr_cls st k); cbn; [|done].
    apply elem_of_app. by left.
  - by destruct (hasattr_cls st k).
Qed.

Lemma proxy_on_cls_warns st name f n doc :
  ModelMeta.is_proxied st name = false →
  hasattr_cls st name = true →
  ModelMeta.warning_JS_property repr name (cls_name st)
  ∈ warnings (ModelMeta.proxy_on_cls repr st (name, Property f n doc)).
Proof.
  intros Hp Hh. unfold ModelMeta.proxy_on_cls. cbn.
  rewrite Hp, Hh. cbn.
  apply elem_of_app. right. apply list_elem_of_here.
Qed.

(** What the second loop never touches. *)
Lemma proxy_on_JS_frame st item :
  let st' := ModelMeta.proxy_on_JS repr st item in
  cls_name st' = cls_name st ∧ cls_inherited st' = cls_inherited st
  ∧ JS_inherited st' = JS_inherited st
  ∧ cls_proxy_properties st' = cls_proxy_properties st.
Proof.
  destruct item as [k [f n d|f n d|]]; unfold ModelMeta.proxy_on_JS;
    cbn; [| |done].
  - destruct (ModelMeta.is_proxied st k); [done|].
    by destruct (hasattr_JS st k).
  - by destruct (hasattr_cls st k).
Qed.

Lemma proxy_on_JS_keeps_cls st item x :
  hasattr_cls st x = true →
  dict_get x (cls_dict (ModelMeta.proxy_on_JS repr st item)) = dict_get x (cls_dict st).
Proof.
  intros Hx. destruct item as [k [f n d|f n d|]];
    unfold ModelMeta.proxy_on_JS; cbn; [| |done].
  - destruct (ModelMeta.is_proxied st k); [done|].
    by destruct (hasattr_JS st k).
  - destruct (hasattr_cls st k) eqn:Hk; cbn; [done|].
    assert (k ≠ x) as Hne by (intros ->; congruence).
    by apply dict_get_set_ne.
Qed.

Lemma proxy_on_JS_keeps st item x :
  hasattr_JS st x = true →
  let st' := ModelMeta.proxy_on_JS repr st item in
  dict_get x (JS_dict st') = dict_get x (JS_dict st)
  ∧ (x ∈ JS_proxy_properties st' → x ∈ JS_proxy_properties st).
Proof.
  intros Hx. destruct item as [k [f n d|f n d|]];
    unfold ModelMeta.proxy_on_JS; cbn; [| |done].
  - destruct (ModelMeta.is_proxied st k); [done|].
    destruct (hasattr_JS st k) eqn:Hk; cbn; [done|].
    assert (k ≠ x) as Hne by (intros ->; congruence).
    split; [by apply dict_get_set_ne|].
    intros [Hin|Hin]%elem_of_app; [done|].
    apply list_elem_of_singleton in Hin. congruence.
  - by destruct (negb _).
Qed.

Lemma proxy_on_JS_warnings st item m :
  m ∈ warnings st → m ∈ warnings (ModelMeta.proxy_on_JS repr st item).
Proof.
  intros Hm. destruct item as [k [f n d|f n d|]];
    unfold ModelMeta.proxy_on_JS; cbn; [| |done].
  - destruct (ModelMeta.is_proxied st k); [done|].
    destruct (hasattr_JS st k); cbn; [|done].
    apply elem_of_app. by left.
  - by destruct (hasattr_cls st k).
Qed.

Lemma proxy_on_JS_warns st name f n doc :
  ModelMeta.is_proxied st name = false →
  hasattr_JS st name = true →
  ModelMeta.warning_Py_property repr name (cls_name st)
  ∈ warnings (ModelMeta.proxy_on_JS repr st (name, Property f n doc)).
Proof.
  intros Hp Hh. unfold ModelMeta.proxy_on_JS. cbn.
  rewrite Hp, Hh. cbn.
  apply elem_of_app. right. apply list_elem_of_here.
Qed.

Lemma both_have_on_cls c dc dj name st item :
  both_have c dc dj name st → both_have c dc dj name (ModelMeta.proxy_on_cls repr st item).
Proof.
  intros (Hc & Hp & Hcls & HJS & Hdc & Hdj).
  destruct (proxy_on_cls_frame st item) as (Hn & Hinh & HJ & HJinh & HJp).
  destruct (proxy_on_cls_keeps st item name Hcls) as (Hd & Hpx).
  cbn zeta in *. apply is_proxied_false in Hp as [HpJ Hpc].
  repeat split.
  - by rewrite Hn.
  - apply is_proxied_false. split; [by rewrite HJp|]. intros Hin. by apply Hpc, Hpx.
  - by rewrite (hasattr_cls_eq st).
  - rewrite (hasattr_JS_eq st); [done|by rewrite HJ|done].
  - by rewrite Hd.
  - by rewrite HJ.
Qed.

Lemma both_have_on_JS c dc dj name st item :
  both_have c dc dj name st → both_have c dc dj name (ModelMeta.proxy_on_JS repr st item).
Proof.
  intros (Hc & Hp & Hcls & HJS & Hdc & Hdj).
  destruct (proxy_on_JS_frame st item) as (Hn & Hinh & HJinh & Hcp).
  pose proof (proxy_on_JS_keeps_cls st item name Hcls) as Hd.
  destruct (proxy_on_JS_keeps st item name HJS) as (HdJ & Hpx).
  cbn zeta in *. apply is_proxied_false in Hp as [HpJ Hpc].
  repeat split.
  - by rewrite Hn.
  - apply is_proxied_false. split; [|by rewrite Hcp]. intros Hin. by apply HpJ, Hpx.
  - by rewrite (hasattr_cls_eq st).
  - by rewrite (hasattr_JS_eq st).
  - by rewrite Hd.
  - by rewrite HdJ.
Qed.

(** C9: when the property for which a proxy would be created has the name
    of an attribute that the other class already has and that is no proxy,
    the two loops leave that attribute as it is, do not list the name
    among the proxies of that class, and log the warning; the loops, being
    total, run to their end.  This holds in both directions. *)
Theorem proxy_collision_is_skipped_with_warning s st name f n doc :
  dict_get name (source_dict s st) = Some (Property f n doc) →
  ModelMeta.is_proxied st name = false →
  target_hasattr s st name = true →
  let st' := ModelMeta.create_proxies repr st in
  dict_get name (target_dict s st') = dict_get name (target_dict s st)
  ∧ (name ∉ target_proxy_properties s st')
  ∧ (collision_warning repr s name (cls_name st) ∈ warnings st').
Proof.
  intros Hsrc Hp Htgt.
  assert (both_have (cls_name st) (dict_get name (cls_dict st))
            (dict_get name (JS_dict st)) name st) as Hinv.
  { repeat split; try done.
    - destruct s; [exact Htgt|exact (hasattr_cls_own _ _ _ Hsrc)].
    - destruct s; [exact (hasattr_JS_own _ _ _ Hsrc)|exact Htgt]. }
  unfold ModelMeta.create_proxies.
  set (st1 := foldl (ModelMeta.proxy_on_cls repr) st (JS_dict st)).
  assert (both_have (cls_name st) (dict_get name (cls_dict st))
            (dict_get name (JS_dict st)) name st1) as Hinv1.
  { apply (foldl_invariant (ModelMeta.proxy_on_cls repr)); [|done].
    intros ???. by apply both_have_on_cls. }
  set (st2 := foldl (ModelMeta.proxy_on_JS repr) st1 (cls_dict st1)).
  assert (both_have (cls_name st) (dict_get name (cls_dict st))
            (dict_get name (JS_dict st)) name st2) as Hinv2.
  { apply (foldl_invariant (ModelMeta.proxy_on_JS repr)); [|done].
    intros ???. by apply both_have_on_JS. }
  cbn zeta. destruct Hinv2 as (_ & Hp2 & _ & _ & Hdc & Hdj).
  apply is_proxied_false in Hp2 as [HpJ Hpc].
  split; [by destruct s|]. split; [by destruct s|].
  destruct s; cbn [collision_warning source_dict] in *.
  - apply (foldl_invariant (ModelMeta.proxy_on_JS repr)
             (λ s, ModelMeta.warning_JS_property repr name (cls_name st) ∈ warnings s)).
    { intros ???. by apply proxy_on_JS_warnings. }
    apply (foldl_reaches (ModelMeta.proxy_on_cls repr)
             (both_have (cls_name st) (dict_get name (cls_dict st))
                (dict_get name (JS_dict st)) name)
             (λ s, ModelMeta.warning_JS_property repr name (cls_name st) ∈ warnings s)
             (name, Property f n doc)); try done.
    + intros ???. by apply both_have_on_cls.
    + intros ???. by apply proxy_on_cls_warnings.
    + intros s1 (Hc & Hp1 & Hh1 & _). rewrite <- Hc.
      by apply proxy_on_cls_warns.
    + by apply dict_get_elem.
  - apply (foldl_reaches (ModelMeta.proxy_on_JS repr)
             (both_have (cls_name st) (dict_get name (cls_dict st))
                (dict_get name (JS_dict st)) name)
             (λ s, ModelMeta.warning_Py_property repr name (cls_name st) ∈ warnings s)
             (name, Property f n doc)); try done.
    + intros ???. by apply both_have_on_JS.
    + intros ???. by apply proxy_on_JS_warnings.
    + intros s1 (Hc & Hp1 & _ & Hh1 & _). rewrite <- Hc.
      by apply proxy_on_JS_warns.
    + apply dict_get_elem. destruct Hinv1 as (_ & _ & _ & _ & -> & _). done.
Qed.

(** What [__init__] does after the two loops changes neither the warnings
    nor, up to the order, the lists of proxies. *)
Lemma init_after_loops CLASSES name dct inherited own_JS jsbases cls_proxy0 JS_proxy0 :
  let built := ModelMeta.__init__ finalize_hasevents_class repr CLASSES name
                 dct inherited own_JS jsbases cls_proxy0 JS_proxy0 in
  let st :=
    ModelMeta.create_proxies repr
      {| cls_name := name;
         cls_dict := dict_set "__proxy_properties__" Plain (dict_set "JS" Plain dct);
         cls_inherited := inherited;
         JS_dict := dict_set "__proxy_properties__" Plain
                      (finalize_hasevents_class
                         match own_JS with
                         | Some own => ModelMeta.copy_JS own []
                         | None => []
                         end);
         JS_inherited := jsbases;
         cls_proxy_properties := cls_proxy0;
         JS_proxy_properties := JS_proxy0;
         warnings := [] |} in
  built.1 = CLASSES ++ [name]
  ∧ warnings built.2 = warnings st
  ∧ cls_proxy_properties built.2 ≡ₚ cls_proxy_properties st
  ∧ JS_proxy_properties built.2 ≡ₚ JS_proxy_properties st.
Proof.
  cbn. repeat split; apply merge_sort_Permutation.
Qed.
End MetaProperties.

Lemma proxy_collision_is_skipped_with_warning_witness :
  let st' := ModelMeta.create_proxies sample_repr Clock_before in
  (dict_get "speed" (source_dict on_Py Clock_before)
   = Some (Property (user_prop_func to_int) "speed" "")
   ∧ ModelMeta.is_proxied Clock_before "speed" = false
   ∧ target_hasattr on_Py Clock_before "speed" = true)
  ∧ (dict_get "zone" (source_dict on_JS Clock_before)
     = Some (Property (user_prop_func to_int) "zone" "")
     ∧ ModelMeta.is_proxied Clock_before "zone" = false
     ∧ target_hasattr on_JS Clock_before "zone" = true)
  ∧ (dict_get "speed" (cls_dict st') = Some Plain
     ∧ ("speed" ∉ cls_proxy_properties st')
     ∧ ("JS property 'speed' not proxied on Clock, as it would hide a Py attribute."
        ∈ warnings st'))
  ∧ (dict_get "zone" (JS_dict st') = dict_get "zone" (JS_dict Clock_before)
     ∧ ("zone" ∉ JS_proxy_properties st')
     ∧ ("Py property 'zone' not proxied on Clock, as it would hide a JS attribute."
        ∈ warnings st')).
Proof.
  split; [repeat split|]. split; [repeat split|]. split.
  - exact (proxy_collision_is_skipped_with_warning sample_repr on_Py Clock_before
             "speed" (user_prop_func to_int) "speed" "" eq_refl eq_refl eq_refl).
  - exact (proxy_collision_is_skipped_with_warning sample_repr on_JS Clock_before
             "zone" (user_prop_func to_int) "zone" "" eq_refl eq_refl eq_refl).
Defined.

(** ** Emitters *)

Lemma foldl_invariant_in {A S : Type} (step : S → A → S) (I : S → Prop) items st :
  (∀ s x, x ∈ items → I s → I (step s x)) → I st → I (foldl step st items).
Proof.
  revert st. induction items as [|x items IH]; intros st Hstep Hst; cbn; [done|].
  apply IH.
  - intros s y Hy. apply Hstep. by apply list_elem_of_further.
  - apply Hstep; [apply list_elem_of_here|done].
Qed.

Lemma dict_get_None name d : dict_get name d = None ↔ name ∉ d.*1.
Proof.
  induction d as [|[k w] d IH]; cbn.
  - split; [intros _; apply not_elem_of_nil|done].
  - rewrite not_elem_of_cons. destruct (decide (k = name)) as [->|Hne].
    + split; [done|]. by intros [? _].
    + rewrite IH. split; [by intros ?|by intros [_ ?]].
Qed.

Lemma dict_set_keys k v d :
  (dict_set k v d).*1 = if decide (k ∈ d.*1) then d.*1 else d.*1 ++ [k].
Proof.
  induction d as [|[k' w] d IH]; cbn.
  - rewrite decide_False; [done|apply not_elem_of_nil].
  - destruct (decide (k' = k)) as [->|Hne]; cbn.
    + rewrite decide_True; [done|apply list_elem_of_here].
    + rewrite IH. destruct (decide (k ∈ d.*1)) as [Hin|Hnin].
      * rewrite decide_True; [done|by apply list_elem_of_further].
      * rewrite decide_False; [done|]. rewrite not_elem_of_cons. by split.
Qed.

Lemma dict_set_NoDup k v d : NoDup d.*1 → NoDup (dict_set k v d).*1.
Proof.
  intros Hnd. rewrite dict_set_keys. destruct (decide (k ∈ d.*1)); [done|].
  apply NoDup_app. split; [done|]. split.
  - intros x Hx ->%list_elem_of_singleton. done.
  - apply NoDup_singleton.
Qed.

(** In a dictionary every key has one entry. *)
Lemma dict_get_unique name v d : NoDup d.*1 → (name, v) ∈ d → dict_get name d = Some v.
Proof.
  induction d as [|[k w] d IH]; [by intros _ ?%elem_of_nil|].
  cbn. intros [Hk Hnd]%NoDup_cons [[= -> ->]|Hin]%elem_of_cons.
  - by rewrite decide_True.
  - rewrite decide_False; [by apply IH|].
    intros ->. apply Hk. apply list_elem_of_fmap. by exists (name, v).
Qed.

Section Emitters.
Variable repr : string → string.

Lemma proxy_on_cls_NoDup st item :
  NoDup (cls_dict st).*1 → NoDup (cls_dict (ModelMeta.proxy_on_cls repr st item)).*1.
Proof.
  intros Hnd. destruct item as [k [f n d|f n d|]];
    unfold ModelMeta.proxy_on_cls; cbn; [| |done].
  - destruct (ModelMeta.is_proxied st k); [done|].
    destruct (hasattr_cls st k); cbn; [done|]. by apply dict_set_NoDup.
  - destruct (hasattr_cls st k); cbn; [done|]. by apply dict_set_NoDup.
Qed.

(** An emitter of the JS class that [cls] lacks gets a proxy on [cls], and
    the proxy raises when it is called. *)
Lemma js_emitter_gets_proxy st name f n doc :
  hasattr_cls st name = false →
  let st' := ModelMeta.proxy_on_cls repr st (name, Emitter f n doc) in
  dict_get name (cls_dict st') = Some (Emitter stub_emitter_func_py name doc)
  ∧ ∀ args, call_emitter_func stub_emitter_func_py args
            = Raise "RuntimeError" "This emitter can only be called from JavaScript".
Proof.
  intros Hno. unfold ModelMeta.proxy_on_cls. cbn. rewrite Hno. cbn.
  split; [|done]. rewrite dict_get_set. by rewrite decide_True.
Qed.

(** An emitter of the Python class that the JS class lacks is still
    lacking there after the two loops: the second loop asks whether [cls]
    has the name, which it has. *)
Lemma python_emitter_never_proxied st name f n doc :
  NoDup (cls_dict st).*1 →
  dict_get name (cls_dict st) = Some (Emitter f n doc) →
  hasattr_JS st name = false →
  hasattr_JS (ModelMeta.create_proxies repr st) name = false.
Proof.
  intros Hnd Hget HJS. unfold ModelMeta.create_proxies.
  set (st1 := foldl (ModelMeta.proxy_on_cls repr) st (JS_dict st)).
  assert (NoDup (cls_dict st1).*1
          ∧ dict_get name (cls_dict st1) = Some (Emitter f n doc)
          ∧ hasattr_JS st1 name = false) as (Hnd1 & Hget1 & HJS1).
  { apply (foldl_invariant (ModelMeta.proxy_on_cls repr)
             (λ s, NoDup (cls_dict s).*1
                   ∧ dict_get name (cls_dict s) = Some (Emitter f n doc)
                   ∧ hasattr_JS s name = false)); [|done].
    intros s x (Hn & Hg & Hj).
    destruct (proxy_on_cls_frame repr s x) as (_ & _ & HJ & HJi & _).
    destruct (proxy_on_cls_keeps repr s x name (hasattr_cls_own _ _ _ Hg))
      as (Hd & _).
    cbn zeta in *. split; [by apply proxy_on_cls_NoDup|]. split; [by rewrite Hd|].
    rewrite (hasattr_JS_eq s); [done|by rewrite HJ|done]. }
  apply (foldl_invariant_in (ModelMeta.proxy_on_JS repr)
           (λ s, hasattr_JS s name = false)); [|done].
  intros s [k val] Hin Hs.
  destruct (proxy_on_JS_frame repr s (k, val)) as (_ & _ & HJi & _).
  cbn zeta in *.
  rewrite (hasattr_JS_eq s); [done| |done].
  destruct (decide (k = name)) as [->|Hne].
  - rewrite (dict_get_unique _ _ _ Hnd1 Hin) in Hget1. injection Hget1 as ->.
    unfold ModelMeta.proxy_on_JS. cbn. by destruct (negb _).
  - destruct val as [g m d|g m d|]; unfold ModelMeta.proxy_on_JS; cbn; [| |done].
    + destruct (ModelMeta.is_proxied s k); [done|].
      destruct (hasattr_JS s k); cbn; [done|]. by apply dict_get_set_ne.
    + by destruct (negb _).
Qed.
End Emitters.

(** C8: every emitter that one side declares and the other lacks was to get
    a proxy on the other side.  The class [Clock] declares the emitter
    [tick] in Python and the emitter [tock] in its [JS] class.  When the
    metaclass is done, [tock] has a proxy on the Python class, which raises
    when called, but the [JS] class still has no [tick]. *)
Theorem python_emitter_gets_no_proxy_on_JS :
  dict_get "tick" (cls_dict Clock_before)
  = Some (Emitter (user_emitter_func (λ _, VNone)) "tick" "")
  ∧ hasattr_JS Clock_before "tick" = false
  ∧ hasattr_JS (ModelMeta.create_proxies sample_repr Clock_before) "tick" = false
  ∧ hasattr_JS Clock_built "tick" = false
  ∧ dict_get "tock" (cls_dict Clock_built)
    = Some (Emitter stub_emitter_func_py "tock" "")
  ∧ call_emitter_func stub_emitter_func_py []
    = Raise "RuntimeError" "This emitter can only be called from JavaScript".
Proof. repeat split. Qed.

(** * More of the module *)

(** ** The registry over the life of a process *)

Section Registry.
Context `{Serializer}.

Lemma emit_id type ev fromjs self : _id (Model.emit type ev fromjs self) = _id self.
Proof. unfold Model.emit. cbn. by destruct (negb fromjs && _). Qed.

Lemma emit_class type ev fromjs self :
  __class__ (Model.emit type ev fromjs self) = __class__ self.
Proof. unfold Model.emit. cbn. by destruct (negb fromjs && _). Qed.

Lemma emit_all_id (pending : list (string * value)) self :
  _id (foldl (λ s te, Model.emit te.1 te.2 true s) self pending) = _id self
  ∧ __class__ (foldl (λ s te, Model.emit te.1 te.2 true s) self pending)
    = __class__ self.
Proof.
  revert self. induction pending as [|[t e] pending IH]; intros self; [done|].
  cbn [foldl fst snd]. destruct (IH (Model.emit t e true self)) as [-> ->].
  by rewrite emit_id, emit_class.
Qed.

(** No call of a method changes the id or the class of an object. *)
Lemma run_id_class op self timers :
  _id (run op (self, timers)).1 = _id self
  ∧ __class__ (run op (self, timers)).1 = __class__ self.
Proof.
  destruct op as [t e|c|n t|t|t x|]; cbn [run fst snd].
  - by rewrite emit_id, emit_class.
  - done.
  - unfold Model._set_prop_from_js. by rewrite set_prop_id, set_prop_class.
  - done.
  - done.
  - unfold Model.__emit_pending_from_js.
    destruct (emit_all_id (__pending_events_from_js self) (with_pending [] self))
      as [-> ->]. done.
Qed.

(** An assignment changes the id only when it is [_id] that is assigned,
    and never the class. *)
Lemma setattr_id_class bound name o self self' :
  Model.__setattr__ bound name o self = Some (Ok self') →
  (name ≠ "_id" → _id self' = _id self) ∧ __class__ self' = __class__ self.
Proof.
  intros Hs. destruct (setattr_ok _ _ _ _ _ Hs) as (self1 & -> & Hcases).
  assert ((name ≠ "_id" → _id self1 = _id self)
          ∧ __class__ self1 = __class__ self) as [Hid Hcls].
  { destruct Hcases as [(_ & v & _ & ->)|(_ & _ & _ & _ & Hset)].
    - by rewrite set_prop_id, set_prop_class.
    - destruct (set_instance_attribute_cases _ _ _ _ Hset)
        as [(-> & i & _ & ->)|[(_ & s & _ & ->)|[(_ & l & ->)|[(_ & l & ->)
           |[(n & v & _ & _ & ->)|(_ & _ & ->)]]]]]; done. }
  destruct o as [[]| | |]; done.
Qed.

Lemma well_kept_start s : well_kept (start s).
Proof.
  split; [done|]. split.
  - intros oid self Hobj. cbn in Hobj. by rewrite lookup_empty in Hobj.
  - intros i oid Hreg. cbn in Hreg. by rewrite lookup_empty in Hreg.
Qed.

(** What [__init__] makes of a process. *)
Lemma init_shape C session kwargs p :
  ∃ new,
    Model.__init__ C session kwargs p
    = ({| _counter := S (_counter p);
          _instances := <[__name__ (Py C) +:+ pretty (S (_counter p)) := next_oid p]>
                          (_instances p);
          objects := <[next_oid p := new]> (objects p);
          next_oid := S (next_oid p);
          default_session := default_session p |}, next_oid p)
    ∧ _id new = __name__ (Py C) +:+ pretty (S (_counter p))
    ∧ __class__ new = C.
Proof.
  eexists. split; [reflexivity|]. unfold Model._init.
  by rewrite base_init_id, base_init_class.
Qed.

Lemma well_kept_init C session kwargs p :
  well_kept p → well_kept (Model.__init__ C session kwargs p).1.
Proof.
  intros (Hc & Hobj & Hreg).
  destruct (init_shape C session kwargs p) as (new & -> & Hid & Hcls).
  split; [cbn; by rewrite Hc|]. split; cbn.
  - intros oid self.
    destruct (decide (oid = next_oid p)) as [->|Hne].
    + rewrite lookup_insert_eq. intros [= <-]. split; [lia|].
      by rewrite Hid, Hcls, Hc.
    + rewrite lookup_insert_ne by done. intros Hself.
      destruct (Hobj oid self Hself) as [Hlt ->]. split; [lia|done].
  - intros i oid.
    destruct (decide (i = __name__ (Py C) +:+ pretty (S (_counter p)))) as [->|Hne].
    + rewrite lookup_insert_eq. intros [= <-]. exists new.
      by rewrite lookup_insert_eq.
    + rewrite lookup_insert_ne by done. intros Hi.
      destruct (Hreg i oid Hi) as (self & Hself & Hidself). exists self.
      split; [|done]. rewrite lookup_insert_ne; [done|].
      intros <-. destruct (Hobj _ _ Hself) as [Hlt _]. lia.
Qed.

Lemma well_kept_operate oid op timers p :
  well_kept p → well_kept (operate oid op timers p).
Proof.
  intros (Hc & Hobj & Hreg). unfold operate.
  destruct (objects p !! oid) as [self|] eqn:Hself; [|done].
  destruct (run_id_class op self timers) as [Hid Hcls].
  destruct (Hobj oid self Hself) as [Hlt Hidself].
  split; [done|]. split; cbn.
  - intros oid' self'. destruct (decide (oid' = oid)) as [->|Hne].
    + rewrite lookup_insert_eq. intros [= <-]. split; [done|].
      by rewrite Hid, Hcls.
    + rewrite lookup_insert_ne by done. apply Hobj.
  - intros i oid' Hi. destruct (Hreg i oid' Hi) as (self' & Hself' & Hid').
    destruct (decide (oid' = oid)) as [->|Hne].
    + eexists. rewrite lookup_insert_eq. split; [done|].
      rewrite Hid. congruence.
    + exists self'. by rewrite lookup_insert_ne.
Qed.

Lemma well_kept_put bound oid name o self self' p :
  objects p !! oid = Some self →
  name ≠ "_id" →
  Model.__setattr__ bound name o self = Some (Ok self') →
  well_kept p → well_kept (put_object oid self' p).
Proof.
  intros Hself Hname Hs (Hc & Hobj & Hreg).
  destruct (setattr_id_class _ _ _ _ _ Hs) as [Hid Hcls].
  specialize (Hid Hname).
  destruct (Hobj oid self Hself) as [Hlt Hidself].
  split; [done|]. split; cbn.
  - intros oid' self2. destruct (decide (oid' = oid)) as [->|Hne].
    + rewrite lookup_insert_eq. intros [= <-]. split; [done|].
      by rewrite Hid, Hcls.
    + rewrite lookup_insert_ne by done. apply Hobj.
  - intros i oid' Hi. destruct (Hreg i oid' Hi) as (self2 & Hself2 & Hid2).
    destruct (decide (oid' = oid)) as [->|Hne].
    + eexists. rewrite lookup_insert_eq. split; [done|].
      rewrite Hid. congruence.
    + exists self2. by rewrite lookup_insert_ne.
Qed.

Lemma well_kept_reclaim oid p : well_kept p → well_kept (reclaim oid p).
Proof.
  intros (Hc & Hobj & Hreg). split; [done|]. split; cbn.
  - intros oid' self' [Hne Hself]%lookup_delete_Some. by apply Hobj.
  - intros i oid' [Hi Hne]%map_lookup_filter_Some. cbn in Hne.
    destruct (Hreg i oid' Hi) as (self & Hself & Hid). exists self.
    split; [|done]. by rewrite lookup_delete_ne.
Qed.

Lemma reachable_well_kept p : reachable p → well_kept p.
Proof.
  induction 1.
  - apply well_kept_start.
  - by apply well_kept_init.
  - by apply well_kept_operate.
  - by eapply well_kept_put.
  - by apply well_kept_reclaim.
Qed.

(** X1: while no code assigns [_id], whatever objects have been made,
    called upon, assigned to and reclaimed, an entry of [Model._instances]
    leads to an object that is alive and has the key as its id: a lookup by
    id never gives a reclaimed object or an object with another id. *)
Theorem registry_entry_is_live_owner p (i : string) oid :
  reachable p →
  _instances p !! i = Some oid →
  get_instance_by_id i p = VModel oid
  ∧ ∃ self, objects p !! oid = Some self ∧ _id self = i.
Proof.
  intros Hp Hi. split.
  - unfold get_instance_by_id. by rewrite Hi.
  - destruct (reachable_well_kept p Hp) as (_ & _ & Hreg). by apply Hreg.
Qed.

(** X2: in every such process, where no code assigns [_id],
    [Model._counter] counts the objects made so far, and two live objects
    whose classes have the same name have different ids. *)
Theorem same_name_objects_have_distinct_ids p o1 o2 a b :
  reachable p →
  objects p !! o1 = Some a →
  objects p !! o2 = Some b →
  o1 ≠ o2 →
  __name__ (Py (__class__ a)) = __name__ (Py (__class__ b)) →
  _id a ≠ _id b ∧ o1 < _counter p ∧ o2 < _counter p.
Proof.
  intros Hp Ha Hb Hne Hname.
  destruct (reachable_well_kept p Hp) as (Hc & Hobj & _).
  destruct (Hobj o1 a Ha) as [Hlt1 ->]. destruct (Hobj o2 b Hb) as [Hlt2 ->].
  rewrite Hname. split; [|lia].
  apply same_class_ids_distinct. lia.
Qed.
End Registry.

Lemma two_counters_reachable : reachable (H := sample_serializer) two_counters.
Proof.
  unfold two_counters, make_all. cbn [foldl].
  apply reachable_init, reachable_init. exact (reachable_start empty_session).
Qed.

Lemma linked_counters_reachable : reachable (H := sample_serializer) linked_counters.
Proof.
  apply reachable_operate.
  apply (reachable_assign sample_bound 0 "next" (a_value (VModel 1))
           first_counter linked_first).
  - exact two_counters_reachable.
  - vm_compute; reflexivity.
  - discriminate.
  - vm_compute; reflexivity.
Qed.

Lemma registry_entry_is_live_owner_witness :
  reachable (H := sample_serializer) linked_counters
  ∧ _instances linked_counters !! "Counter1" = Some 0
  ∧ get_instance_by_id "Counter1" linked_counters = VModel 0
  ∧ ∃ self, objects linked_counters !! 0 = Some self ∧ _id self = "Counter1".
Proof.
  assert (_instances linked_counters !! "Counter1" = Some 0) as Hreg
    by (vm_compute; reflexivity).
  split; [exact linked_counters_reachable|]. split; [exact Hreg|].
  exact (registry_entry_is_live_owner (H := sample_serializer) linked_counters
           "Counter1" 0 linked_counters_reachable Hreg).
Defined.

Lemma same_name_objects_have_distinct_ids_witness :
  (reachable (H := sample_serializer) linked_counters
   ∧ objects linked_counters !! 0 = Some shown_first
   ∧ objects linked_counters !! 1 = Some second_counter
   ∧ 0 ≠ 1
   ∧ __name__ (Py (__class__ shown_first))
     = __name__ (Py (__class__ second_counter)))
  ∧ _id shown_first ≠ _id second_counter
  ∧ 0 < _counter linked_counters ∧ 1 < _counter linked_counters.
Proof.
  assert (objects linked_counters !! 0 = Some shown_first) as H0
    by (vm_compute; reflexivity).
  assert (objects linked_counters !! 1 = Some second_counter) as H1
    by (vm_compute; reflexivity).
  assert (0 ≠ 1) as Hne by discriminate.
  assert (__name__ (Py (__class__ shown_first))
          = __name__ (Py (__class__ second_counter))) as Hname
    by (vm_compute; reflexivity).
  split; [by repeat split; try exact linked_counters_reachable|].
  exact (same_name_objects_have_distinct_ids (H := sample_serializer) linked_counters
           0 1 shown_first second_counter linked_counters_reachable H0 H1 Hne Hname).
Defined.

(** ** Calls on a live object *)

Section Calls.
Context `{Serializer}.

(** X3: [__init__] enters the new object into the registry under its id and
    leaves every other entry as it is; encoding the new object and decoding
    the result gives the new object. *)
Theorem init_registers_new_object C session kwargs p (i : string) :
  let made := Model.__init__ C session kwargs p in
  let new_id := __name__ (Py C) +:+ pretty (S (_counter p)) in
  made.2 = next_oid p
  ∧ get_instance_by_id i made.1
    = (if decide (i = new_id) then VModel made.2 else get_instance_by_id i p)
  ∧ ∃ self, objects made.1 !! made.2 = Some self
      ∧ _id self = new_id
      ∧ decode (encode self) made.1 = Some (Ok (VModel made.2)).
Proof.
  destruct (init_shape C session kwargs p) as (new & Hmade & Hid & Hcls).
  cbn zeta. rewrite Hmade. cbn [fst snd]. split; [done|]. split.
  - unfold get_instance_by_id. cbn [_instances].
    destruct (decide (i = _)) as [->|Hne].
    + by rewrite lookup_insert_eq.
    + by rewrite lookup_insert_ne.
  - exists new. cbn [objects]. rewrite lookup_insert_eq. split; [done|].
    split; [done|]. apply decode_encode_registered. cbn [_instances].
    rewrite Hid. apply lookup_insert_eq.
Qed.

Lemma extend_concat (hs : list (string * list string)) (acc : list string) :
  foldl (λ acc h, acc ++ h.2) acc hs = acc ++ concat hs.*2.
Proof.
  revert acc. induction hs as [|h hs IH]; intros acc; cbn.
  - by rewrite app_nil_r.
  - rewrite IH. by rewrite <- app_assoc.
Qed.

Lemma set_prop_event_types name v fromjs self :
  _event_types_js (Model._set_prop name v fromjs self) = _event_types_js self.
Proof.
  unfold Model._set_prop. destruct (fromjs || _), (negb (fromjs && _)); reflexivity.
Qed.

Lemma init_prop_event_types name self :
  _event_types_js (Model._init_prop name self) = _event_types_js self.
Proof. unfold Model._init_prop. destruct (negb _); reflexivity. Qed.

Lemma assign_property_event_types name v self :
  name ∈ __properties__ (Py (__class__ self)) →
  _event_types_js (Model.assign_property name v self) = _event_types_js self.
Proof.
  intros Hprop. destruct (assign_property_eq name v self Hprop) as [_ ->].
  destruct v; apply set_prop_event_types.
Qed.

Lemma base_init_event_types kwargs self :
  _event_types_js (HasEvents.__init__ Model._init_prop Model.assign_property kwargs self)
  = _event_types_js self.
Proof.
  unfold HasEvents.__init__.
  set (self1 := foldl _ self _).
  assert (_event_types_js self1 = _event_types_js self) as <-.
  { subst self1. generalize (__properties__ (Py (__class__ self))). intros names.
    revert self. induction names as [|n names IH]; intros self; cbn; [done|].
    rewrite IH. apply init_prop_event_types. }
  generalize self1. clear. intros self.
  revert self. induction kwargs as [|kv kwargs IH]; intros self; cbn; [done|].
  case_bool_decide; [|apply IH].
  rewrite IH. by apply assign_property_event_types.
Qed.

(** X4: as [__init__] returns it, an object sends an event that Python
    emits to JavaScript exactly when a handler of the [JS] class is
    connected to the type of the event, whatever initial values were
    given; once [_set_event_types_js] has been called, it sends exactly the
    types of the list that the call has brought. *)
Theorem new_object_forwards_to_js_handlers C session kwargs p type ev text :
  let made := Model.__init__ C session kwargs p in
  ∃ self, objects made.1 !! made.2 = Some self
    ∧ _event_types_js self = connection_strings (JS C)
    ∧ commands (Model.emit type ev false self)
      = commands self
        ++ (if bool_decide (type ∈ connection_strings (JS C))
            then [EmitFromPy (_id self) (saves (VStr type)) (saves ev)]
            else [])
    ∧ commands (Model.emit type ev false (Model._set_event_types_js text self))
      = commands self
        ++ (if bool_decide (type ∈ loads_list text)
            then [EmitFromPy (_id self) (saves (VStr type)) (saves ev)]
            else []).
Proof.
  cbn zeta. eexists. split; [apply lookup_insert_eq|].
  unfold Model._init.
  assert (_event_types_js
            (HasEvents.__init__ Model._init_prop Model.assign_property kwargs
               (Model._exec
                  (Instantiate (__name__ (Py C) +:+ pretty (S (_counter p)))
                     ("flexx.classes." +:+ __name__ (Py C))
                     (saves_list (foldl (λ acc h, acc ++ h.2) [] (__handlers__ (Py C)))))
                  {| _id := __name__ (Py C) +:+ pretty (S (_counter p));
                     __class__ := C;
                     _session := Session.register_model_class C
                                   (default (default_session p) session);
                     property_values := ∅; __dict__ := ∅;
                     _event_types_js :=
                       foldl (λ acc h, acc ++ h.2) [] (__handlers__ (JS C));
                     __pending_events_from_js := []; emitted := [] |}))
          = connection_strings (JS C)) as Htypes.
  { rewrite base_init_event_types. cbn. by rewrite extend_concat. }
  split; [exact Htypes|]. split.
  - unfold Model.emit. cbn. unfold commands in *.
    rewrite Htypes. case_bool_decide; cbn; [done|by rewrite app_nil_r].
  - unfold Model.emit, Model._set_event_types_js. cbn. unfold commands.
    case_bool_decide; cbn; [done|by rewrite app_nil_r].
Qed.

(** A plain name is an attribute of the instance that no method reads. *)
Lemma set_plain_attribute bound name o self :
  plain_name bound self name →
  set_instance_attribute name o self = Some (with_dict (insert name o) self).
Proof.
  intros (_ & _ & _ & _ & Hstate & Hprivate). unfold set_instance_attribute.
  unfold state_attributes in Hstate.
  rewrite !decide_False by (intros ->; apply Hstate; compute_done).
  destruct (list_find _ _) as [[k n]|] eqn:Hfind; [|done].
  apply list_find_Some in Hfind as (Hk & Hn & _).
  exfalso. apply (Hprivate n); [|done]. eapply list_elem_of_lookup_2, Hk.
Qed.

(** X5: let a name be one that the class does not bind and that is none of
    the attributes that the methods read.  Assigning a [Model] to it
    stores the reference and sends one command that sets the attribute of
    the twin to the decoded reference; assigning another object stores it
    and sends nothing.  Assigning to [id] or [session], which have no
    setter, raises [AttributeError]: nothing is stored and nothing is
    sent. *)
Theorem assigning_a_model_pushes_the_reference bound name ro oid o o' self :
  plain_name bound self name →
  (∀ m, o ≠ a_value (VModel m)) →
  ro ∈ Model.read_only →
  ro ∉ __properties__ (Py (__class__ self)) →
  (∃ self', Model.__setattr__ bound name (a_value (VModel oid)) self = Some (Ok self')
     ∧ __dict__ self' !! name = Some (a_value (VModel oid))
     ∧ property_values self' = property_values self
     ∧ _id self' = _id self
     ∧ commands self'
       = commands self ++ [SetAttr (_id self) name (saves (VModel oid))])
  ∧ (∃ self', Model.__setattr__ bound name o self = Some (Ok self')
       ∧ __dict__ self' !! name = Some o
       ∧ property_values self' = property_values self
       ∧ commands self' = commands self)
  ∧ Model.__setattr__ bound ro o' self
    = Some (Raise "AttributeError" "can't set attribute").
Proof.
  intros Hplain Ho Hro Hnoprop.
  pose proof Hplain as (Hprop & Hnro & Hres & Hbound & _).
  split; [|split].
  - eexists. split.
    + unfold Model.__setattr__, HasEvents.__setattr__.
      rewrite (bool_decide_false _ Hprop), (bool_decide_false _ Hnro),
        (bool_decide_false _ Hres), Hbound.
      rewrite (set_plain_attribute bound) by done. reflexivity.
    + cbn. by rewrite lookup_insert_eq.
  - eexists. split.
    + unfold Model.__setattr__, HasEvents.__setattr__.
      rewrite (bool_decide_false _ Hprop), (bool_decide_false _ Hnro),
        (bool_decide_false _ Hres), Hbound.
      rewrite (set_plain_attribute bound) by done. cbn.
      destruct o as [[]| | |]; try reflexivity. exfalso. by eapply Ho.
    + cbn. by rewrite lookup_insert_eq.
  - unfold Model.__setattr__, HasEvents.__setattr__.
    by rewrite (bool_decide_false _ Hnoprop), (bool_decide_true _ Hro).
Qed.

Lemma run_commands op self timers :
  ∃ more, commands (run op (self, timers)).1 = commands self ++ more
    ∧ Forall (λ c, command_id c = _id self) more.
Proof.
  destruct op as [t e|c|n t|t|t x|]; cbn [run fst snd].
  - unfold Model.emit. cbn. destruct (bool_decide _).
    + eexists. split; [reflexivity|]. by apply Forall_singleton.
    + exists []. by rewrite app_nil_r.
  - eexists. split; [reflexivity|]. by apply Forall_singleton.
  - unfold Model._set_prop_from_js. eexists. split; [apply set_prop_commands|].
    destruct (true && _); [done|]. by apply Forall_singleton.
  - exists []. by rewrite app_nil_r.
  - exists []. by rewrite app_nil_r.
  - exists []. rewrite app_nil_r. by destruct (drain_spec self) as (_ & _ & -> & _).
Qed.

(** An assignment other than of [_id] and [_session] adds commands for the
    twin of the object, and leaves those that were sent. *)
Lemma setattr_commands bound name o self self' :
  name ≠ "_id" →
  name ≠ "_session" →
  Model.__setattr__ bound name o self = Some (Ok self') →
  ∃ more, commands self' = commands self ++ more
    ∧ Forall (λ c, command_id c = _id self) more.
Proof.
  intros Hid Hsession Hs.
  destruct (setattr_id_class _ _ _ _ _ Hs) as [Hsame _]. specialize (Hsame Hid).
  destruct (setattr_ok _ _ _ _ _ Hs) as (self1 & Hself' & Hcases).
  assert (∃ more, commands self1 = commands self ++ more
                  ∧ Forall (λ c, command_id c = _id self) more)
    as (more & Hmore & Hall).
  { destruct Hcases as [(_ & v & _ & ->)|(_ & _ & _ & _ & Hset)].
    - eexists. split; [apply set_prop_commands|].
      destruct (false && _); [done|]. by apply Forall_singleton.
    - exists []. rewrite app_nil_r. split; [|done].
      destruct (set_instance_attribute_cases _ _ _ _ Hset)
        as [(-> & _)|[(-> & _)|[(_ & l & ->)|[(_ & l & ->)
           |[(n & v & _ & _ & ->)|(_ & _ & ->)]]]]]; done. }
  assert (_id self1 = _id self) as Hid1.
  { rewrite <- Hsame, Hself'. by destruct o as [[]| | |]. }
  destruct o as [[| | | |oid]| | |]; subst self'; try by exists more.
  exists (more ++ [SetAttr (_id self1) name (saves (VModel oid))]). split.
  - unfold commands in *. cbn. rewrite Hmore. by rewrite <- app_assoc.
  - apply Forall_app. split; [done|]. by apply Forall_singleton.
Qed.

(** X6: while no code assigns [_id] or [_session], whatever calls and
    assignments reach an object, in whatever order, its id stays the same,
    the commands it has sent stay as they are, in their order, and every
    command it adds is for its own twin. *)
Theorem object_sends_only_to_its_twin st st' :
  calls st st' →
  _id st'.1 = _id st.1
  ∧ ∃ more, commands st'.1 = commands st.1 ++ more
      ∧ Forall (λ c, command_id c = _id st.1) more.
Proof.
  induction 1 as [st|op [self timers] st' _ IH
                 |bound name o self' [self timers] st' Hid Hsession Hs _ IH].
  - split; [done|]. exists []. by rewrite app_nil_r.
  - destruct IH as (Hsame & more2 & Hmore2 & Hall2).
    destruct (run_commands op self timers) as (more1 & Hmore1 & Hall1).
    destruct (run_id_class op self timers) as [Hid1 _].
    cbn [fst] in *. split; [congruence|]. exists (more1 ++ more2). split.
    + rewrite Hmore2, Hmore1. by rewrite <- app_assoc.
    + apply Forall_app. split; [done|].
      eapply Forall_impl; [exact Hall2|]. cbn. intros c Hc. congruence.
  - destruct IH as (Hsame & more2 & Hmore2 & Hall2). cbn [fst snd] in *.
    destruct (setattr_commands _ _ _ _ _ Hid Hsession Hs) as (more1 & Hmore1 & Hall1).
    destruct (setattr_id_class _ _ _ _ _ Hs) as [Hid1 _]. specialize (Hid1 Hid).
    split; [congruence|]. exists (more1 ++ more2). split.
    + rewrite Hmore2, Hmore1. by rewrite <- app_assoc.
    + apply Forall_app. split; [done|].
      eapply Forall_impl; [exact Hall2|]. cbn. intros c Hc. congruence.
Qed.

(** X19: assigning a string to [_id] gives the object another id, and
    nothing is sent.  What the object sends afterwards is for the new id,
    and its encoding carries the new id; the registry is left as it is, so
    that the entry of the old id still leads to the object, and decoding
    the encoding of the object gives [None] when the registry has no entry
    for the new id. *)
Theorem assigning_id_readdresses bound (i : string) call oid self p :
  "_id" ∉ __properties__ (Py (__class__ self)) →
  bound "_id" = false →
  objects p !! oid = Some self →
  _instances p !! _id self = Some oid →
  _instances p !! i = None →
  ∃ self', Model.__setattr__ bound "_id" (a_value (VStr i)) self = Some (Ok self')
    ∧ _id self' = i
    ∧ commands self' = commands self
    ∧ commands (Model.call_js call self') = commands self ++ [CallJs i call]
    ∧ get_instance_by_id (_id self) (put_object oid self' p) = VModel oid
    ∧ objects (put_object oid self' p) !! oid = Some self'
    ∧ decode (encode self') (put_object oid self' p) = Some (Ok VNone).
Proof.
  intros Hprop Hbound Hobj Hreg Hnone. exists (with_id i self).
  split; [|split; [|split; [|split; [|split; [|split]]]]]; try done.
  - unfold Model.__setattr__, HasEvents.__setattr__.
    rewrite (bool_decide_false _ Hprop).
    rewrite !bool_decide_false by compute_done.
    by rewrite Hbound.
  - unfold get_instance_by_id. cbn. by rewrite Hreg.
  - cbn. apply lookup_insert_eq.
  - rewrite decode_encode_registry. unfold get_instance_by_id. cbn.
    by rewrite Hnone.
Qed.
End Calls.

Lemma gauge1_plain_label : plain_name sample_bound gauge1 "label".
Proof.
  split; [compute_done|]. split; [compute_done|]. split; [compute_done|].
  split; [reflexivity|]. split; [compute_done|].
  intros n Hn. cbn in Hn.
  apply elem_of_cons in Hn as [->|Hn]; [discriminate|].
  apply list_elem_of_singleton in Hn as ->. discriminate.
Qed.

Lemma assigning_a_model_pushes_the_reference_witness :
  let S := sample_serializer in
  (plain_name sample_bound gauge1 "label"
   ∧ (∀ m, a_value (VStr "x") ≠ a_value (VModel m))
   ∧ ("id" ∈ Model.read_only)
   ∧ ("id" ∉ __properties__ (Py (__class__ gauge1))))
  ∧ (∃ self', Model.__setattr__ sample_bound "label" (a_value (VModel 3)) gauge1
              = Some (Ok self')
       ∧ __dict__ self' !! "label" = Some (a_value (VModel 3))
       ∧ property_values self' = property_values gauge1
       ∧ _id self' = "Gauge1"
       ∧ commands self' = commands gauge1 ++ [SetAttr "Gauge1" "label" "{model 3}"])
  ∧ (∃ self', Model.__setattr__ sample_bound "label" (a_value (VStr "x")) gauge1
              = Some (Ok self')
       ∧ __dict__ self' !! "label" = Some (a_value (VStr "x"))
       ∧ property_values self' = property_values gauge1
       ∧ commands self' = commands gauge1)
  ∧ Model.__setattr__ sample_bound "id" (a_value (VStr "Zed9")) gauge1
    = Some (Raise "AttributeError" "can't set attribute").
Proof.
  intros S.
  assert (∀ m, a_value (VStr "x") ≠ a_value (VModel m)) as H2
    by (intros m; discriminate).
  assert ("id" ∈ Model.read_only) as H3 by compute_done.
  assert ("id" ∉ __properties__ (Py (__class__ gauge1))) as H4 by compute_done.
  split; [by split; [exact gauge1_plain_label|]|].
  exact (assigning_a_model_pushes_the_reference (H := S) sample_bound
           "label" "id" 3 (a_value (VStr "x")) (a_value (VStr "Zed9")) gauge1
           gauge1_plain_label H2 H3 H4).
Defined.

Lemma object_sends_only_to_its_twin_witness :
  let S := sample_serializer in
  calls (gauge1, []) gauge1_later
  ∧ _id gauge1_later.1 = _id gauge1
  ∧ ∃ more, commands gauge1_later.1 = commands gauge1 ++ more
      ∧ Forall (λ c, command_id c = _id gauge1) more.
Proof.
  intros S.
  assert (calls (gauge1, []) gauge1_later) as Hcalls.
  { apply (calls_assign sample_bound "label" (a_value (VModel 1)) gauge1_labelled);
      [discriminate|discriminate|vm_compute; reflexivity|].
    apply (calls_method (do_emit "resize" (VInt 2))). apply calls_none. }
  split; [exact Hcalls|].
  exact (object_sends_only_to_its_twin (H := S) (gauge1, []) gauge1_later Hcalls).
Defined.

Lemma assigning_id_readdresses_witness :
  let S := sample_serializer in
  (("_id" ∉ __properties__ (Py (__class__ first_counter)))
   ∧ sample_bound "_id" = false
   ∧ objects two_counters !! 0 = Some first_counter
   ∧ _instances two_counters !! _id first_counter = Some 0
   ∧ _instances two_counters !! "Zed9" = None)
  ∧ ∃ self', Model.__setattr__ sample_bound "_id" (a_value (VStr "Zed9")) first_counter
             = Some (Ok self')
      ∧ _id self' = "Zed9"
      ∧ commands self' = commands first_counter
      ∧ commands (Model.call_js "show()" self')
        = commands first_counter ++ [CallJs "Zed9" "show()"]
      ∧ get_instance_by_id (_id first_counter) (put_object 0 self' two_counters)
        = VModel 0
      ∧ objects (put_object 0 self' two_counters) !! 0 = Some self'
      ∧ decode (encode self') (put_object 0 self' two_counters) = Some (Ok VNone).
Proof.
  intros S.
  assert ("_id" ∉ __properties__ (Py (__class__ first_counter))) as H1
    by compute_done.
  assert (sample_bound "_id" = false) as H2 by reflexivity.
  assert (objects two_counters !! 0 = Some first_counter) as H3
    by (vm_compute; reflexivity).
  assert (_instances two_counters !! _id first_counter = Some 0) as H4
    by (vm_compute; reflexivity).
  assert (_instances two_counters !! "Zed9" = None) as H5
    by (vm_compute; reflexivity).
  split; [done|].
  exact (assigning_id_readdresses (H := S) sample_bound "Zed9" "show()" 0
           first_counter two_counters H1 H2 H3 H4 H5).
Defined.

Lemma decode_reclaimed_witness :
  _instances two_counters !! "Counter2" = Some 1
  ∧ decode (<["__type__" := VStr "Flexx-Model"]> (<["id" := VStr "Counter2"]> ∅))
      (reclaim 1 two_counters) = Some (Ok VNone).
Proof.
  assert (_instances two_counters !! "Counter2" = Some 1) as Hreg
    by (vm_compute; reflexivity).
  split; [exact Hreg|].
  exact (decode_reclaimed "Counter2" 1 two_counters Hreg).
Defined.

(** ** The queue of events from JavaScript and its timer *)

Section Loop.
Context `{Serializer}.

Lemma pending_snoc_cases (q : list (string * value)) e :
  match q ++ [e] with [] => 0 | _ :: _ => 1 end = 1.
Proof. by destruct q. Qed.

Lemma turn_keeps e self timers :
  drain_pending (self, timers) →
  let st1 := turn e (self, timers) in
  drain_pending st1
  ∧ _id st1.1 = _id self
  ∧ emitted st1.1 ++ __pending_events_from_js st1.1
    = (emitted self ++ __pending_events_from_js self) ++ arrivals [e]
  ∧ commands st1.1 = commands self.
Proof.
  unfold drain_pending. cbn [fst snd]. intros Hinv.
  destruct e as [t x|]; cbn [turn arrivals omap].
  - unfold Model._emit_from_js. cbn [fst snd].
    split; [|split; [done|split; [|done]]].
    + unfold own_timers in *. cbn [_id with_pending __pending_events_from_js fst snd].
      rewrite pending_snoc_cases.
      destruct (__pending_events_from_js self) as [|q qs]; [|done].
      unfold call_later. rewrite filter_app, length_app, Hinv.
      rewrite filter_cons. cbn. by rewrite decide_True.
    + cbn. by rewrite <- app_assoc.
  - unfold fire. cbn [fst snd]. destruct timers as [|t timers].
    + cbn. by rewrite app_nil_r.
    + destruct t as [d [i]]. cbn [action].
      unfold own_timers in Hinv. rewrite filter_cons in Hinv. cbn [action] in Hinv.
      destruct (decide (i = _id self)) as [->|Hne].
      * rewrite decide_True in Hinv by done. cbn [length] in Hinv.
        destruct (drain_spec self) as (He & Hp & Hc & _). cbn zeta in *.
        destruct (__pending_events_from_js self) as [|q qs] eqn:Hq; [done|].
        cbn [fst snd]. rewrite Hp, He, Hc, app_nil_r.
        assert (_id (Model.__emit_pending_from_js self) = _id self) as Hid.
        { unfold Model.__emit_pending_from_js.
          by destruct (emit_all_id (__pending_events_from_js self)
                         (with_pending [] self)) as [-> _]. }
        unfold own_timers. rewrite Hid. split; [lia|]. split; [done|].
        split; [|done]. cbn. by rewrite app_nil_r.
      * rewrite decide_False in Hinv by congruence.
        cbn [fst snd]. split; [done|]. split; [done|]. split; [|done].
        cbn. by rewrite app_nil_r.
Qed.

(** X7: however the arrival of events from JavaScript and the firing of
    timers follow each other, at most one drain of an object is waiting,
    and one is waiting exactly when events are queued; the events emitted
    and the events still queued are, in this order, all the events that
    have arrived, none lost and none twice, and none of them has been sent
    back to JavaScript. *)
Theorem queued_events_are_drained_in_order es self timers :
  drain_pending (self, timers) →
  let st' := turns es (self, timers) in
  drain_pending st'
  ∧ emitted st'.1 ++ __pending_events_from_js st'.1
    = (emitted self ++ __pending_events_from_js self) ++ arrivals es
  ∧ commands st'.1 = commands self
  ∧ (own_timers st'.1 st'.2 = [] →
     __pending_events_from_js st'.1 = []
     ∧ emitted st'.1 = (emitted self ++ __pending_events_from_js self) ++ arrivals es).
Proof.
  intros Hinv.
  assert (let st' := turns es (self, timers) in
          drain_pending st'
          ∧ emitted st'.1 ++ __pending_events_from_js st'.1
            = (emitted self ++ __pending_events_from_js self) ++ arrivals es
          ∧ commands st'.1 = commands self) as (Hd & He & Hc).
  { revert self timers Hinv. induction es as [|e es IH]; intros self timers Hinv.
    - cbn. by rewrite app_nil_r.
    - unfold turns. cbn [foldl].
      destruct (turn e (self, timers)) as [self1 timers1] eqn:Hturn.
      destruct (turn_keeps e self timers Hinv) as (Hd1 & _ & He1 & Hc1).
      rewrite Hturn in Hd1, He1, Hc1. cbn [fst snd] in *.
      destruct (IH self1 timers1 Hd1) as (Hd2 & He2 & Hc2).
      unfold turns in *. cbn zeta in *. split; [done|]. split; [|congruence].
      rewrite He2, He1. rewrite <- !app_assoc. f_equal. f_equal.
      unfold arrivals. by destruct e. }
  cbn zeta in *. split; [done|]. split; [done|]. split; [done|].
  intros Hnone. unfold drain_pending in Hd. rewrite Hnone in Hd.
  destruct (__pending_events_from_js (turns es (self, timers)).1); [|done].
  split; [done|]. by rewrite app_nil_r in He.
Qed.
End Loop.

Lemma queued_events_are_drained_in_order_witness :
  let S := sample_serializer in
  let es := [arrives "resize" "1"; arrives "click" "null"; fires;
             arrives "resize" "3"; fires] in
  let st' := turns es (gauge1, []) in
  drain_pending (gauge1, [])
  ∧ drain_pending st'
  ∧ emitted st'.1 ++ __pending_events_from_js st'.1
    = [("resize", VInt 1); ("click", VNone); ("resize", VInt 3)]
  ∧ commands st'.1 = []
  ∧ (own_timers st'.1 st'.2 = [] →
     __pending_events_from_js st'.1 = []
     ∧ emitted st'.1 = [("resize", VInt 1); ("click", VNone); ("resize", VInt 3)]).
Proof.
  intros S es st'.
  assert (drain_pending (gauge1, [])) as Hinv by reflexivity.
  split; [exact Hinv|].
  exact (queued_events_are_drained_in_order (H := S) es gauge1 [] Hinv).
Defined.

(** ** The twin *)

Section Twin.
Context `{Serializer}.

Lemma listened_spec (hs : list (string * list string)) (type : string) :
  type ∈ listened hs ↔ ∃ handlers, (type, handlers) ∈ hs ∧ handlers ≠ [].
Proof.
  unfold listened. rewrite list_elem_of_fmap. split.
  - intros ([t l] & -> & [Hne Hin]%list_elem_of_filter). by exists l.
  - intros (l & Hin & Hne). exists (type, l). split; [done|].
    by apply list_elem_of_filter.
Qed.

Lemma listened_length (hs : list (string * list string)) :
  (filter (λ kv, length kv.2 ≠ 0) hs).*1 = listened hs.
Proof.
  unfold listened. f_equal. apply list_filter_iff. intros [t l]. cbn.
  by destruct l.
Qed.

(** X8: when the handlers of the Python object change, one command tells the
    twin the event types that have at least one handler; once the browser
    has evaluated it, the twin sends an event that it emits to Python
    exactly when Python has a handler for its type. *)
Theorem announced_handlers_gate_js_events hs self w tw sent type ev :
  instances w !! _id self = Some tw →
  ws w = Some sent →
  loads_list (saves_list (listened hs)) = listened hs →
  let c := SetEventTypesPy (_id self) (saves_list (listened hs)) in
  let tw' := ModelJS._set_event_types_py (listened hs) tw in
  commands (Model._handlers_changed_hook hs self) = commands self ++ [c]
  ∧ eval_set_event_types c w
    = Some {| ws := ws w; instances := <[_id self := tw']> (instances w) |}
  ∧ ModelJS.emit type ev false (tw', ws w)
    = Ok (with_twin_emitted (λ es, es ++ [(type, ev)]) tw',
          Some (sent ++ (if bool_decide (type ∈ listened hs)
                         then ["EVENT " +:+ String.concat " " [id tw; type; saves ev]]
                         else [])))
  ∧ (type ∈ listened hs ↔ ∃ handlers, (type, handlers) ∈ hs ∧ handlers ≠ []).
Proof.
  intros Htw Hws Hround c tw'. split; [done|]. split; [|split].
  - unfold eval_set_event_types. subst c. cbn. rewrite Htw. cbn.
    by rewrite Hround.
  - unfold ModelJS.emit. rewrite Hws. cbn.
    case_bool_decide; cbn; [done|by rewrite app_nil_r].
  - apply listened_spec.
Qed.

(** X9: when the handlers of the twin change, one [REG_EVENTS] message
    carries the event types that have at least one handler, and without a
    websocket the call raises; once Python has been given the text of the
    message, it sends an event that it emits to JavaScript exactly when the
    twin has a handler for its type, and never an event that came from
    JavaScript. *)
Theorem registered_events_gate_python_events hs tw sent self type ev :
  loads_list (saves_list (listened hs)) = listened hs →
  let text := saves_list (listened hs) in
  let self' := Model._set_event_types_js text self in
  ModelJS._handlers_changed_hook hs (tw, Some sent)
  = Ok (tw, Some (sent ++ ["REG_EVENTS " +:+ String.concat " " [id tw; text]]))
  ∧ ModelJS._handlers_changed_hook hs (tw, None)
    = Raise "TypeError" "window.flexx.ws is null"
  ∧ commands (Model.emit type ev false self')
    = commands self
      ++ (if bool_decide (type ∈ listened hs)
          then [EmitFromPy (_id self) (saves (VStr type)) (saves ev)]
          else [])
  ∧ commands (Model.emit type ev true self') = commands self
  ∧ (type ∈ listened hs ↔ ∃ handlers, (type, handlers) ∈ hs ∧ handlers ≠ []).
Proof.
  intros Hround text self'. split; [|split; [|split; [|split]]].
  - unfold ModelJS._handlers_changed_hook. by rewrite listened_length.
  - done.
  - unfold Model.emit, self', Model._set_event_types_js. cbn. subst text.
    rewrite Hround. case_bool_decide; cbn; [done|by rewrite app_nil_r].
  - done.
  - apply listened_spec.
Qed.

Lemma with_defaults_other C names values name :
  name ∉ names → with_defaults C names values !! name = values !! name.
Proof.
  unfold with_defaults. revert values.
  induction names as [|n names IH]; intros values Hnin; [done|].
  apply not_elem_of_cons in Hnin as [Hne Hnin]. cbn [foldl].
  rewrite IH by done. by rewrite lookup_insert_ne.
Qed.

Lemma with_defaults_lookup C names values name :
  name ∈ names →
  with_defaults C names values !! name
  = Some (call_prop_func (property_func C name) None).
Proof.
  revert values.
  induction names as [|n names IH]; intros values Hin; [by apply elem_of_nil in Hin|].
  destruct (decide (name ∈ names)) as [Hin'|Hnin].
  - unfold with_defaults in *. cbn [foldl]. by apply IH.
  - apply elem_of_cons in Hin as [->|Hin]; [|done].
    change (with_defaults C (n :: names) values)
      with (with_defaults C names
              (<[n := call_prop_func (property_func C n) None]> values)).
    rewrite with_defaults_other by done. apply lookup_insert_eq.
Qed.

Lemma twin_init_prop_connected name tw sent :
  ModelJS._init_prop name (tw, Some sent)
  = Ok (with_twin_values
          (insert name (call_prop_func (property_func (twin_class tw) name) None)) tw,
        Some (sent ++ (if bool_decide (name ∈ __proxy_properties__ (twin_class tw))
                       then []
                       else [default_message (twin_class tw) (id tw) name]))).
Proof.
  unfold ModelJS._init_prop. case_bool_decide; cbn.
  - by rewrite app_nil_r.
  - unfold default_message, twin_get, HasEventsJS._init_prop. cbn.
    by rewrite lookup_insert_eq.
Qed.

Lemma twin_init_props_connected names tw sent :
  foldl (λ r name,
           match r with
           | Ok st => ModelJS._init_prop name st
           | Raise exc msg => Raise exc msg
           end) (Ok (tw, Some sent)) names
  = Ok (with_twin_values (with_defaults (twin_class tw) names) tw,
        Some (sent ++ (default_message (twin_class tw) (id tw)
                         <$> filter (λ name, name ∉ __proxy_properties__ (twin_class tw))
                               names))).
Proof.
  revert tw sent. induction names as [|n names IH]; intros tw sent.
  - cbn. rewrite app_nil_r. by destruct tw.
  - cbn [foldl]. rewrite twin_init_prop_connected, IH. cbn [twin_class id].
    rewrite filter_cons. f_equal. f_equal. f_equal.
    case_bool_decide; case_decide; try done.
    + by rewrite app_nil_r.
    + cbn. by rewrite <- app_assoc.
Qed.

Lemma raised_stays_raised {A : Type} (step : string → A → result A) names exc msg :
  foldl (λ r name,
           match r with
           | Ok st => step name st
           | Raise exc msg => Raise exc msg
           end) (Raise exc msg) names
  = Raise exc msg.
Proof. induction names as [|n names IH]; [done|]. cbn. exact IH. Qed.

Lemma twin_init_props_exported names tw :
  foldl (λ r name,
           match r with
           | Ok st => ModelJS._init_prop name st
           | Raise exc msg => Raise exc msg
           end) (Ok (tw, None)) names
  = match filter (λ name, name ∉ __proxy_properties__ (twin_class tw)) names with
    | [] => Ok (with_twin_values (with_defaults (twin_class tw) names) tw, None)
    | _ :: _ => Raise "TypeError" "window.flexx.ws is null"
    end.
Proof.
  revert tw. induction names as [|n names IH]; intros tw.
  - cbn. by destruct tw.
  - cbn [foldl]. rewrite filter_cons. unfold ModelJS._init_prop at 2.
    case_bool_decide; case_decide; try done; cbn.
    + by rewrite IH.
    + apply raised_stays_raised.
Qed.

(** X10: with the websocket open, the constructor of the [JS] class gives
    every property its default and reports the default of each property
    that is no proxy, and of no other, in one [SETPROP] message each, in the
    order of the properties; the new twin has the given id and the event
    types of Python that it was given, or none. *)
Theorem twin_init_reports_own_defaults C i py_events sent :
  ModelJS.__init__ C i py_events (Some sent)
  = Ok ({| id := i; twin_class := C;
           twin_values := with_defaults C (__properties__ C) ∅;
           _event_types_py := default [] py_events;
           twin_emitted := [] |},
        Some (sent ++ (default_message C i <$> own_properties C)))
  ∧ ∀ name, name ∈ __properties__ C →
      with_defaults C (__properties__ C) ∅ !! name
      = Some (call_prop_func (property_func C name) None).
Proof.
  split; [|intros name; apply with_defaults_lookup].
  unfold ModelJS.__init__, HasEventsJS.__init__. cbn [fst twin_class].
  rewrite twin_init_props_connected. cbn.
  unfold own_properties. by destruct py_events as [[|t types]|].
Qed.

(** X11: without a websocket the constructor of the [JS] class raises as
    soon as the class has a property that is no proxy, because the report
    of the default is not guarded as the setter is; a class with proxies
    only is constructed without a message.  The twin then raises on
    emitting an event exactly when the event does not come from Python and
    Python was said to listen to its type. *)
Theorem twin_init_without_websocket C i py_events type ev frompy :
  let tw := {| id := i; twin_class := C;
               twin_values := with_defaults C (__properties__ C) ∅;
               _event_types_py := default [] py_events;
               twin_emitted := [] |} in
  ModelJS.__init__ C i py_events None
  = match own_properties C with
    | [] => Ok (tw, None)
    | _ :: _ => Raise "TypeError" "window.flexx.ws is null"
    end
  ∧ ModelJS.emit type ev frompy (tw, None)
    = if negb frompy && bool_decide (type ∈ default [] py_events)
      then Raise "TypeError" "window.flexx.ws is null"
      else Ok (with_twin_emitted (λ es, es ++ [(type, ev)]) tw, None).
Proof.
  split.
  - unfold ModelJS.__init__, HasEventsJS.__init__. cbn [fst twin_class].
    rewrite twin_init_props_exported. cbn [twin_class]. unfold own_properties.
    destruct (filter _ _); [|done]. cbn. by destruct py_events as [[|t types]|].
  - unfold ModelJS.emit. cbn. by destruct (negb frompy && _).
Qed.

(** X12: a value that Python sets on a property of its own reaches the twin:
    the command that Python sends, once evaluated by the browser, leaves the
    twin with the value that Python has stored, sends nothing back, with or
    without a websocket, and leaves the other objects of the browser alone.
    This takes a serializer that reads back what it has written of that
    value, and a twin on which the property is a proxy with the stub as its
    function. *)
Theorem python_value_reaches_the_twin self w tw name v :
  name ∉ __proxy_properties__ (Py (__class__ self)) →
  instances w !! _id self = Some tw →
  name ∈ __proxy_properties__ (twin_class tw) →
  property_func (twin_class tw) name = stub_prop_func →
  loads (saves (normalised (__class__ self) name v))
  = normalised (__class__ self) name v →
  let u := normalised (__class__ self) name v in
  let self' := Model._set_prop name v false self in
  let c := SetPropFromPy (_id self) name (saves u) in
  commands self' = commands self ++ [c]
  ∧ property_values self' !! name = Some u
  ∧ ∃ w', eval_command c w = Some w'
      ∧ ws w' = ws w
      ∧ value_in_browser w' (_id self) name = Some u
      ∧ ∀ j, j ≠ _id self → instances w' !! j = instances w !! j.
Proof.
  intros Hown Htw Hproxy Hstub Hround u self' c.
  assert (is_proxy (__class__ self) name = false) as Hp
    by (unfold is_proxy; by rewrite bool_decide_false).
  split; [|split].
  - unfold self'. rewrite set_prop_commands, Hp. cbn. unfold set_command.
    by rewrite Hp.
  - unfold self'. rewrite set_prop_values, Hp. cbn. by rewrite lookup_insert_eq.
  - unfold eval_command, c. rewrite Htw. cbn.
    unfold ModelJS._set_prop_from_py, ModelJS._set_prop.
    rewrite (bool_decide_true _ Hproxy).
    exists {| ws := ws w;
              instances := <[_id self := HasEventsJS._set_prop name (loads (saves u)) tw]>
                             (instances w) |}.
    split; [by destruct (ws w)|]. split; [done|]. split.
    + unfold value_in_browser. cbn. rewrite lookup_insert_eq. cbn.
      unfold HasEventsJS._set_prop. cbn. rewrite lookup_insert_eq, Hstub. cbn.
      unfold u. by rewrite Hround.
    + intros j Hj. cbn. by rewrite lookup_insert_ne.
Qed.

(** X13: a value that Python sets on a proxy settles in one exchange.
    Python stores nothing and sends one command with the value; the twin,
    whose property it is, stores the normalised value and answers with one
    [SETPROP] message; given the text of that message, Python stores the
    value of the twin and sends nothing more.  This takes a websocket, a
    serializer that reads back what it has written of the two values, and
    the stub as the function of the proxy. *)
Theorem proxy_set_settles_in_one_exchange self w tw sent name v :
  name ∈ __proxy_properties__ (Py (__class__ self)) →
  property_func (Py (__class__ self)) name = stub_prop_func →
  instances w !! _id self = Some tw →
  ws w = Some sent →
  name ∉ __proxy_properties__ (twin_class tw) →
  loads (saves v) = v →
  loads (saves (call_prop_func (property_func (twin_class tw) name) (Some v)))
  = call_prop_func (property_func (twin_class tw) name) (Some v) →
  let u := call_prop_func (property_func (twin_class tw) name) (Some v) in
  let self1 := Model._set_prop name v false self in
  let c := SetPropFromPy (_id self) name (saves v) in
  let self2 := Model._set_prop_from_js name (saves u) self1 in
  (commands self1 = commands self ++ [c]
   ∧ property_values self1 = property_values self)
  ∧ (∃ w', eval_command c w = Some w'
       ∧ ws w' = Some (sent ++ ["SETPROP " +:+ String.concat " " [id tw; name; saves u]])
       ∧ value_in_browser w' (_id self) name = Some u)
  ∧ (property_values self2 !! name = Some u
     ∧ commands self2 = commands self1).
Proof.
  intros Hproxy Hstub Htw Hws Hown Hv Hu u self1 c self2.
  assert (is_proxy (__class__ self) name = true) as Hp
    by (unfold is_proxy; by rewrite bool_decide_true).
  split; [|split].
  - split.
    + unfold self1. rewrite set_prop_commands, Hp. cbn. unfold set_command.
      by rewrite Hp.
    + unfold self1. rewrite set_prop_values, Hp. done.
  - unfold eval_command, c. rewrite Htw. cbv beta iota delta [mbind option_bind].
    rewrite Hws, (twin_own_set_from_py name (saves v) tw sent Hown).
    cbv zeta. rewrite Hv. eexists. split; [reflexivity|]. split; [done|].
    unfold value_in_browser. cbn. rewrite lookup_insert_eq. cbn.
    by rewrite lookup_insert_eq.
  - assert (__class__ self1 = __class__ self) as Hcls by apply set_prop_class.
    unfold self2, Model._set_prop_from_js. cbv zeta. split.
    + rewrite set_prop_values. cbn [negb andb]. rewrite lookup_insert_eq.
      unfold normalised. rewrite Hcls, Hstub. cbn [call_prop_func default].
      unfold u. by rewrite Hu.
    + rewrite set_prop_commands, Hcls, Hp. cbn [andb]. by rewrite app_nil_r.
Qed.
End Twin.

Lemma announced_handlers_gate_js_events_witness :
  let S := sample_serializer in
  let c := SetEventTypesPy "Gauge1" (saves_list ["resize"]) in
  let tw' := ModelJS._set_event_types_py ["resize"] gauge1_twin in
  (instances gauge1_window !! _id gauge1 = Some gauge1_twin
   ∧ ws gauge1_window = Some []
   ∧ loads_list (saves_list (listened sample_handlers)) = listened sample_handlers)
  ∧ commands (Model._handlers_changed_hook sample_handlers gauge1) = [c]
  ∧ eval_set_event_types c gauge1_window
    = Some {| ws := Some []; instances := <["Gauge1" := tw']> (instances gauge1_window) |}
  ∧ ModelJS.emit "resize" (VInt 1) false (tw', Some [])
    = Ok (with_twin_emitted (λ es, es ++ [("resize", VInt 1)]) tw',
          Some ["EVENT Gauge1 resize 1"])
  ∧ ("resize" ∈ listened sample_handlers
     ↔ ∃ handlers, ("resize", handlers) ∈ sample_handlers ∧ handlers ≠ []).
Proof.
  intros S c tw'.
  assert (instances gauge1_window !! _id gauge1 = Some gauge1_twin) as H1
    by (vm_compute; reflexivity).
  assert (ws gauge1_window = Some []) as H2 by reflexivity.
  assert (loads_list (saves_list (listened sample_handlers))
          = listened sample_handlers) as H3 by (vm_compute; reflexivity).
  split; [done|].
  exact (announced_handlers_gate_js_events (H := S) sample_handlers gauge1
           gauge1_window gauge1_twin [] "resize" (VInt 1) H1 H2 H3).
Defined.

Lemma registered_events_gate_python_events_witness :
  let S := sample_serializer in
  let text := saves_list ["resize"] in
  let self' := Model._set_event_types_js text gauge1 in
  loads_list (saves_list (listened sample_handlers)) = listened sample_handlers
  ∧ ModelJS._handlers_changed_hook sample_handlers (gauge1_twin, Some [])
    = Ok (gauge1_twin, Some ["REG_EVENTS " +:+ String.concat " " ["Gauge1"; text]])
  ∧ ModelJS._handlers_changed_hook sample_handlers (gauge1_twin, None)
    = Raise "TypeError" "window.flexx.ws is null"
  ∧ commands (Model.emit "click" VNone false self') = []
  ∧ commands (Model.emit "click" VNone true self') = []
  ∧ ("click" ∈ listened sample_handlers
     ↔ ∃ handlers, ("click", handlers) ∈ sample_handlers ∧ handlers ≠ []).
Proof.
  intros S text self'.
  assert (loads_list (saves_list (listened sample_handlers))
          = listened sample_handlers) as H1 by (vm_compute; reflexivity).
  split; [done|].
  exact (registered_events_gate_python_events (H := S) sample_handlers gauge1_twin
           [] gauge1 "click" VNone H1).
Defined.

Lemma python_value_reaches_the_twin_witness :
  let S := sample_serializer in
  let self' := Model._set_prop "ticks" (VBool true) false gauge1 in
  let c := SetPropFromPy "Gauge1" "ticks" "1" in
  (("ticks" ∉ __proxy_properties__ (Py (__class__ gauge1)))
   ∧ instances gauge1_window !! _id gauge1 = Some gauge1_twin
   ∧ ("ticks" ∈ __proxy_properties__ (twin_class gauge1_twin))
   ∧ property_func (twin_class gauge1_twin) "ticks" = stub_prop_func
   ∧ loads (saves (normalised (__class__ gauge1) "ticks" (VBool true)))
     = normalised (__class__ gauge1) "ticks" (VBool true))
  ∧ commands self' = [c]
  ∧ property_values self' !! "ticks" = Some (VInt 1)
  ∧ ∃ w', eval_command c gauge1_window = Some w'
      ∧ ws w' = Some []
      ∧ value_in_browser w' "Gauge1" "ticks" = Some (VInt 1)
      ∧ ∀ j, j ≠ "Gauge1" → instances w' !! j = instances gauge1_window !! j.
Proof.
  intros S self' c.
  assert ("ticks" ∉ __proxy_properties__ (Py (__class__ gauge1))) as H1
    by (cbn; rewrite list_elem_of_singleton; discriminate).
  assert (instances gauge1_window !! _id gauge1 = Some gauge1_twin) as H2
    by (vm_compute; reflexivity).
  assert ("ticks" ∈ __proxy_properties__ (twin_class gauge1_twin)) as H3
    by (cbn; apply list_elem_of_here).
  assert (property_func (twin_class gauge1_twin) "ticks" = stub_prop_func) as H4
    by reflexivity.
  assert (loads (saves (normalised (__class__ gauge1) "ticks" (VBool true)))
          = normalised (__class__ gauge1) "ticks" (VBool true)) as H5
    by (vm_compute; reflexivity).
  split; [done|].
  exact (python_value_reaches_the_twin (H := S) gauge1 gauge1_window gauge1_twin
           "ticks" (VBool true) H1 H2 H3 H4 H5).
Defined.

Lemma proxy_set_settles_in_one_exchange_witness :
  let S := sample_serializer in
  let self1 := Model._set_prop "level" (VInt (-5)) false gauge1 in
  let c := SetPropFromPy "Gauge1" "level" "-5" in
  let self2 := Model._set_prop_from_js "level" "5" self1 in
  (("level" ∈ __proxy_properties__ (Py (__class__ gauge1)))
   ∧ property_func (Py (__class__ gauge1)) "level" = stub_prop_func
   ∧ instances gauge1_window !! _id gauge1 = Some gauge1_twin
   ∧ ws gauge1_window = Some []
   ∧ ("level" ∉ __proxy_properties__ (twin_class gauge1_twin))
   ∧ loads (saves (VInt (-5))) = VInt (-5)
   ∧ loads (saves (VInt 5)) = VInt 5)
  ∧ (commands self1 = [c] ∧ property_values self1 = property_values gauge1)
  ∧ (∃ w', eval_command c gauge1_window = Some w'
       ∧ ws w' = Some ["SETPROP Gauge1 level 5"]
       ∧ value_in_browser w' "Gauge1" "level" = Some (VInt 5))
  ∧ (property_values self2 !! "level" = Some (VInt 5)
     ∧ commands self2 = commands self1).
Proof.
  intros S self1 c self2.
  assert ("level" ∈ __proxy_properties__ (Py (__class__ gauge1))) as H1
    by (cbn; apply list_elem_of_here).
  assert (property_func (Py (__class__ gauge1)) "level" = stub_prop_func) as H2
    by reflexivity.
  assert (instances gauge1_window !! _id gauge1 = Some gauge1_twin) as H3
    by (vm_compute; reflexivity).
  assert (ws gauge1_window = Some []) as H4 by reflexivity.
  assert ("level" ∉ __proxy_properties__ (twin_class gauge1_twin)) as H5
    by (cbn; rewrite list_elem_of_singleton; discriminate).
  assert (loads (saves (VInt (-5))) = VInt (-5)) as H6 by (vm_compute; reflexivity).
  assert (loads (saves (call_prop_func
                          (property_func (twin_class gauge1_twin) "level")
                          (Some (VInt (-5)))))
          = call_prop_func (property_func (twin_class gauge1_twin) "level")
              (Some (VInt (-5)))) as H7 by (vm_compute; reflexivity).
  split; [by repeat split|].
  exact (proxy_set_settles_in_one_exchange (H := S) gauge1 gauge1_window
           gauge1_twin [] "level" (VInt (-5)) H1 H2 H3 H4 H5 H6 H7).
Defined.

(** ** The metaclass: what reaches the JS class *)

Lemma copy_step_get name (items : dict) :
  ∀ js, NoDup items.*1 →
    dict_get name
      (foldl (λ js item,
                if negb (String.prefix "__" item.1) then dict_set item.1 item.2 js
                else if bool_decide (item.1 ∈ ModelMeta.OK_MAGICS)
                     then dict_set item.1 item.2 js
                     else js) js items)
    = match dict_get name items with
      | Some v => if copied name then Some v else dict_get name js
      | None => dict_get name js
      end.
Proof.
  induction items as [|[k v] items IH]; intros js Hnd; [done|].
  apply NoDup_cons in Hnd as [Hk Hnd]. cbn [foldl fst snd dict_get].
  rewrite IH by done. clear IH.
  destruct (decide (k = name)) as [->|Hne].
  - assert (dict_get name items = None) as -> by by apply dict_get_None.
    unfold copied. destruct (negb (String.prefix "__" name)); cbn.
    + rewrite dict_get_set. by rewrite decide_True.
    + case_bool_decide; [|done]. rewrite dict_get_set. by rewrite decide_True.
  - assert (dict_get name
              (if negb (String.prefix "__" k) then dict_set k v js
               else if bool_decide (k ∈ ModelMeta.OK_MAGICS) then dict_set k v js
                    else js) = dict_get name js) as ->; [|done].
    destruct (negb _); [by apply dict_get_set_ne|].
    case_bool_decide; [by apply dict_get_set_ne|done].
Qed.

(** X14: of the attributes in the body of a [JS] class, the class that the
    metaclass builds gets those whose name does not start with two
    underscores and, of the others, [__init__], [__json__] and
    [__from_json__] only, each with the value it has in the body. *)
Theorem copy_JS_leaves_out_magic_names own name :
  NoDup own.*1 →
  dict_get name (ModelMeta.copy_JS own [])
  = if copied name then dict_get name own else None.
Proof.
  intros Hnd. unfold ModelMeta.copy_JS. rewrite copy_step_get by done.
  destruct (dict_get name own) as [v|] eqn:Hget.
  - destruct (copied name) eqn:Hc; [done|].
    destruct (dict_get "__init__" own) as [w|]; [|done].
    cbn. destruct (decide ("__init__" = name)) as [<-|]; [|done].
    by vm_compute in Hc.
  - assert (dict_get name
              match dict_get "__init__" own with
              | Some v => dict_set "__init__" v []
              | None => []
              end = None) as ->; [|by destruct (copied name)].
    destruct (dict_get "__init__" own) as [w|] eqn:Hinit; [|done].
    cbn. destruct (decide ("__init__" = name)) as [<-|]; [congruence|done].
Qed.

Lemma copy_JS_leaves_out_magic_names_witness :
  NoDup sample_JS_body.*1
  ∧ dict_get "__module__" (ModelMeta.copy_JS sample_JS_body []) = None
  ∧ dict_get "__json__" (ModelMeta.copy_JS sample_JS_body []) = Some Plain
  ∧ dict_get "_private" (ModelMeta.copy_JS sample_JS_body []) = Some Plain.
Proof.
  assert (NoDup sample_JS_body.*1) as Hnd
    by (cbn; compute_done).
  split; [exact Hnd|]. split; [|split].
  - exact (copy_JS_leaves_out_magic_names sample_JS_body "__module__" Hnd).
  - exact (copy_JS_leaves_out_magic_names sample_JS_body "__json__" Hnd).
  - exact (copy_JS_leaves_out_magic_names sample_JS_body "_private" Hnd).
Defined.

(** ** The metaclass: proxies that are created *)

Lemma dict_get_split name v (d : dict) :
  dict_get name d = Some v →
  ∃ l1 l2, d = l1 ++ (name, v) :: l2 ∧ name ∉ l1.*1.
Proof.
  induction d as [|[k w] d IH]; cbn; [done|].
  destruct (decide (k = name)) as [->|Hne].
  - intros [= ->]. exists [], d. split; [done|]. apply not_elem_of_nil.
  - intros Hget. destruct (IH Hget) as (l1 & l2 & -> & Hnin).
    exists ((k, w) :: l1), l2. split; [done|]. cbn.
    rewrite not_elem_of_cons. split; [congruence|done].
Qed.

Section ProxyCreation.
Variable repr : string → string.

(** What one round of the first loop does. *)
Lemma proxy_on_cls_result st item :
  let st' := ModelMeta.proxy_on_cls repr st item in
  (cls_dict st' = cls_dict st ∧ cls_proxy_properties st' = cls_proxy_properties st)
  ∨ (∃ f n doc, item.2 = Property f n doc
       ∧ ModelMeta.is_proxied st item.1 = false
       ∧ hasattr_cls st item.1 = false
       ∧ cls_dict st' = dict_set item.1 (Property stub_prop_func item.1 doc) (cls_dict st)
       ∧ cls_proxy_properties st' = cls_proxy_properties st ++ [item.1])
  ∨ (∃ f n doc, item.2 = Emitter f n doc
       ∧ hasattr_cls st item.1 = false
       ∧ cls_dict st' = dict_set item.1 (Emitter stub_emitter_func_py item.1 doc)
                          (cls_dict st)
       ∧ cls_proxy_properties st' = cls_proxy_properties st).
Proof.
  destruct item as [k [f n d|f n d|]]; unfold ModelMeta.proxy_on_cls; cbn.
  - destruct (ModelMeta.is_proxied st k) eqn:Hp; [by left|].
    destruct (hasattr_cls st k) eqn:Hh; cbn; [by left|].
    right. left. by exists f, n, d.
  - destruct (hasattr_cls st k) eqn:Hh; cbn; [by left|].
    right. right. by exists f, n, d.
  - by left.
Qed.

(** What one round of the second loop does. *)
Lemma proxy_on_JS_result st item :
  let st' := ModelMeta.proxy_on_JS repr st item in
  (cls_dict st' = cls_dict st ∧ JS_dict st' = JS_dict st
   ∧ JS_proxy_properties st' = JS_proxy_properties st)
  ∨ (∃ f n doc, item.2 = Property f n doc
       ∧ ModelMeta.is_proxied st item.1 = false
       ∧ hasattr_JS st item.1 = false
       ∧ cls_dict st' = cls_dict st
       ∧ JS_dict st' = dict_set item.1 (Property stub_prop_func item.1 doc) (JS_dict st)
       ∧ JS_proxy_properties st' = JS_proxy_properties st ++ [item.1])
  ∨ (∃ f n doc, item.2 = Emitter f n doc
       ∧ hasattr_cls st item.1 = false
       ∧ cls_dict st' = dict_set item.1 (Emitter stub_emitter_func_js item.1 doc)
                          (cls_dict st)
       ∧ JS_dict st' = JS_dict st
       ∧ JS_proxy_properties st' = JS_proxy_properties st).
Proof.
  destruct item as [k [f n d|f n d|]]; unfold ModelMeta.proxy_on_JS; cbn.
  - destruct (ModelMeta.is_proxied st k) eqn:Hp; [by left|].
    destruct (hasattr_JS st k) eqn:Hh; cbn; [by left|].
    right. left. by exists f, n, d.
  - destruct (hasattr_cls st k) eqn:Hh; cbn; [by left|].
    right. right. by exists f, n, d.
  - by left.
Qed.

(** The properties of a state that the proofs below follow through the
    loops: whether a name is a proxy, and whether the classes have it. *)
Lemma is_proxied_eq st st' name :
  (name ∈ cls_proxy_properties st' ↔ name ∈ cls_proxy_properties st) →
  (name ∈ JS_proxy_properties st' ↔ name ∈ JS_proxy_properties st) →
  ModelMeta.is_proxied st' name = ModelMeta.is_proxied st name.
Proof.
  intros Hc HJ. unfold ModelMeta.is_proxied.
  f_equal; apply bool_decide_ext; done.
Qed.

(** A round for another name leaves a name as it is. *)
Lemma proxy_on_cls_other st item name :
  item.1 ≠ name →
  let st' := ModelMeta.proxy_on_cls repr st item in
  ModelMeta.is_proxied st' name = ModelMeta.is_proxied st name
  ∧ hasattr_cls st' name = hasattr_cls st name
  ∧ hasattr_JS st' name = hasattr_JS st name
  ∧ dict_get name (cls_dict st') = dict_get name (cls_dict st)
  ∧ dict_get name (JS_dict st') = dict_get name (JS_dict st).
Proof.
  intros Hne.
  destruct (proxy_on_cls_frame repr st item) as (_ & Hinh & HJ & HJinh & HJp).
  cbn zeta in *.
  assert (dict_get name (cls_dict (ModelMeta.proxy_on_cls repr st item))
          = dict_get name (cls_dict st)
          ∧ (name ∈ cls_proxy_properties (ModelMeta.proxy_on_cls repr st item)
             ↔ name ∈ cls_proxy_properties st)) as [Hd Hp].
  { destruct (proxy_on_cls_result st item)
      as [[-> ->]|[(f & n & doc & _ & _ & _ & -> & ->)|(f & n & doc & _ & _ & -> & ->)]].
    - done.
    - split; [by apply dict_get_set_ne|].
      rewrite elem_of_app, list_elem_of_singleton.
      split; [intros [?|?]; [done|congruence]|by left].
    - split; [by apply dict_get_set_ne|done]. }
  split; [|split; [|split; [|split]]].
  - apply is_proxied_eq; [done|by rewrite HJp].
  - by apply hasattr_cls_eq.
  - apply hasattr_JS_eq; [by rewrite HJ|done].
  - done.
  - by rewrite HJ.
Qed.

Lemma proxy_on_JS_other st item name :
  item.1 ≠ name →
  let st' := ModelMeta.proxy_on_JS repr st item in
  ModelMeta.is_proxied st' name = ModelMeta.is_proxied st name
  ∧ hasattr_cls st' name = hasattr_cls st name
  ∧ hasattr_JS st' name = hasattr_JS st name
  ∧ dict_get name (cls_dict st') = dict_get name (cls_dict st)
  ∧ dict_get name (JS_dict st') = dict_get name (JS_dict st).
Proof.
  intros Hne.
  destruct (proxy_on_JS_frame repr st item) as (_ & Hinh & HJinh & Hcp).
  cbn zeta in *.
  assert (dict_get name (cls_dict (ModelMeta.proxy_on_JS repr st item))
          = dict_get name (cls_dict st)
          ∧ dict_get name (JS_dict (ModelMeta.proxy_on_JS repr st item))
            = dict_get name (JS_dict st)
          ∧ (name ∈ JS_proxy_properties (ModelMeta.proxy_on_JS repr st item)
             ↔ name ∈ JS_proxy_properties st)) as (Hd & HdJ & Hp).
  { destruct (proxy_on_JS_result st item)
      as [(-> & -> & ->)|[(f & n & doc & _ & _ & _ & -> & -> & ->)
                         |(f & n & doc & _ & _ & -> & -> & ->)]].
    - done.
    - split; [done|]. split; [by apply dict_get_set_ne|].
      rewrite elem_of_app, list_elem_of_singleton.
      split; [intros [?|?]; [done|congruence]|by left].
    - split; [by apply dict_get_set_ne|done]. }
  split; [|split; [|split; [|split]]].
  - apply is_proxied_eq; [by rewrite Hcp|done].
  - by apply hasattr_cls_eq.
  - by apply hasattr_JS_eq.
  - done.
  - done.
Qed.

(** An attribute that a class has stays as it is, and the lists of proxies
    only grow. *)
Lemma proxy_on_cls_grows st item x :
  x ∈ cls_proxy_properties st →
  x ∈ cls_proxy_properties (ModelMeta.proxy_on_cls repr st item).
Proof.
  intros Hx. destruct (proxy_on_cls_result st item)
    as [[_ ->]|[(f & n & doc & _ & _ & _ & _ & ->)|(f & n & doc & _ & _ & _ & ->)]];
    try done.
  apply elem_of_app. by left.
Qed.

Lemma proxy_on_JS_grows st item x :
  x ∈ JS_proxy_properties st →
  x ∈ JS_proxy_properties (ModelMeta.proxy_on_JS repr st item).
Proof.
  intros Hx. destruct (proxy_on_JS_result st item)
    as [(_ & _ & ->)|[(f & n & doc & _ & _ & _ & _ & _ & ->)
                     |(f & n & doc & _ & _ & _ & _ & ->)]];
    try done.
  apply elem_of_app. by left.
Qed.

(** An entry that a class has under a name outlasts every round. *)
Lemma cls_entry_kept_on_cls st item name v :
  dict_get name (cls_dict st) = Some v →
  dict_get name (cls_dict (ModelMeta.proxy_on_cls repr st item)) = Some v.
Proof.
  intros Hget.
  destruct (proxy_on_cls_keeps repr st item name (hasattr_cls_own _ _ _ Hget))
    as [Hd _]. cbn zeta in Hd. by rewrite Hd.
Qed.

Lemma cls_entry_kept_on_JS st item name v :
  dict_get name (cls_dict st) = Some v →
  dict_get name (cls_dict (ModelMeta.proxy_on_JS repr st item)) = Some v.
Proof.
  intros Hget.
  by rewrite (proxy_on_JS_keeps_cls repr st item name (hasattr_cls_own _ _ _ Hget)).
Qed.

Lemma JS_entry_kept_on_cls st item name v :
  dict_get name (JS_dict st) = Some v →
  dict_get name (JS_dict (ModelMeta.proxy_on_cls repr st item)) = Some v.
Proof.
  intros Hget. destruct (proxy_on_cls_frame repr st item) as (_ & _ & HJ & _).
  cbn zeta in HJ. by rewrite HJ.
Qed.

Lemma JS_entry_kept_on_JS st item name v :
  dict_get name (JS_dict st) = Some v →
  dict_get name (JS_dict (ModelMeta.proxy_on_JS repr st item)) = Some v.
Proof.
  intros Hget.
  destruct (proxy_on_JS_keeps repr st item name (hasattr_JS_own _ _ _ Hget))
    as [Hd _]. cbn zeta in Hd. by rewrite Hd.
Qed.

(** The rounds of the first loop before the one for [name]. *)
Lemma first_loop_before st name (l1 : dict) :
  name ∉ l1.*1 →
  let st1 := foldl (ModelMeta.proxy_on_cls repr) st l1 in
  ModelMeta.is_proxied st1 name = ModelMeta.is_proxied st name
  ∧ hasattr_cls st1 name = hasattr_cls st name
  ∧ hasattr_JS st1 name = hasattr_JS st name
  ∧ dict_get name (cls_dict st1) = dict_get name (cls_dict st)
  ∧ dict_get name (JS_dict st1) = dict_get name (JS_dict st).
Proof.
  intros Hnin.
  apply (foldl_invariant_in (ModelMeta.proxy_on_cls repr)
           (λ s, ModelMeta.is_proxied s name = ModelMeta.is_proxied st name
                 ∧ hasattr_cls s name = hasattr_cls st name
                 ∧ hasattr_JS s name = hasattr_JS st name
                 ∧ dict_get name (cls_dict s) = dict_get name (cls_dict st)
                 ∧ dict_get name (JS_dict s) = dict_get name (JS_dict st)));
    [|done].
  intros s x Hx (H1 & H2 & H3 & H4 & H5).
  assert (x.1 ≠ name) as Hne.
  { intros <-. apply Hnin. apply list_elem_of_fmap. by exists x. }
  destruct (proxy_on_cls_other s x name Hne) as (-> & -> & -> & -> & ->). done.
Qed.

Lemma second_loop_before st name (l1 : dict) :
  name ∉ l1.*1 →
  let st1 := foldl (ModelMeta.proxy_on_JS repr) st l1 in
  ModelMeta.is_proxied st1 name = ModelMeta.is_proxied st name
  ∧ hasattr_cls st1 name = hasattr_cls st name
  ∧ hasattr_JS st1 name = hasattr_JS st name
  ∧ dict_get name (cls_dict st1) = dict_get name (cls_dict st)
  ∧ dict_get name (JS_dict st1) = dict_get name (JS_dict st).
Proof.
  intros Hnin.
  apply (foldl_invariant_in (ModelMeta.proxy_on_JS repr)
           (λ s, ModelMeta.is_proxied s name = ModelMeta.is_proxied st name
                 ∧ hasattr_cls s name = hasattr_cls st name
                 ∧ hasattr_JS s name = hasattr_JS st name
                 ∧ dict_get name (cls_dict s) = dict_get name (cls_dict st)
                 ∧ dict_get name (JS_dict s) = dict_get name (JS_dict st)));
    [|done].
  intros s x Hx (H1 & H2 & H3 & H4 & H5).
  assert (x.1 ≠ name) as Hne.
  { intros <-. apply Hnin. apply list_elem_of_fmap. by exists x. }
  destruct (proxy_on_JS_other s x name Hne) as (-> & -> & -> & -> & ->). done.
Qed.

(** A property of the [JS] class that [cls] lacks gets a proxy on [cls]. *)
Lemma js_property_gets_proxy st name f n doc :
  dict_get name (JS_dict st) = Some (Property f n doc) →
  ModelMeta.is_proxied st name = false →
  hasattr_cls st name = false →
  let st' := ModelMeta.create_proxies repr st in
  dict_get name (cls_dict st') = Some (Property stub_prop_func name doc)
  ∧ name ∈ cls_proxy_properties st'
  ∧ dict_get name (JS_dict st') = Some (Property f n doc).
Proof.
  intros Hsrc Hp Hh. unfold ModelMeta.create_proxies.
  destruct (dict_get_split _ _ _ Hsrc) as (l1 & l2 & Hsplit & Hnin).
  destruct (first_loop_before st name l1 Hnin) as (Hp1 & Hh1 & _ & _ & HJ1).
  cbn zeta in *.
  set (sA := foldl (ModelMeta.proxy_on_cls repr) st l1) in *.
  set (sB := ModelMeta.proxy_on_cls repr sA (name, Property f n doc)).
  assert (foldl (ModelMeta.proxy_on_cls repr) st (JS_dict st)
          = foldl (ModelMeta.proxy_on_cls repr) sB l2) as ->.
  { rewrite Hsplit. by rewrite foldl_app. }
  set (Q := λ s : class_state,
         dict_get name (cls_dict s) = Some (Property stub_prop_func name doc)
         ∧ name ∈ cls_proxy_properties s
         ∧ dict_get name (JS_dict s) = Some (Property f n doc)).
  assert (Q sB) as HB.
  { subst sB Q. unfold ModelMeta.proxy_on_cls. cbn [fst snd].
    rewrite Hp1, Hp, Hh1, Hh. cbn. split; [|split].
    - rewrite dict_get_set. by rewrite decide_True.
    - apply elem_of_app. right. apply list_elem_of_here.
    - by rewrite HJ1. }
  assert (∀ s x, Q s → Q (ModelMeta.proxy_on_cls repr s x)) as Hcls.
  { intros s x (H1 & H2 & H3). split; [|split].
    - by apply cls_entry_kept_on_cls.
    - by apply proxy_on_cls_grows.
    - by apply JS_entry_kept_on_cls. }
  assert (∀ s x, Q s → Q (ModelMeta.proxy_on_JS repr s x)) as HJS.
  { intros s x (H1 & H2 & H3). split; [|split].
    - by apply cls_entry_kept_on_JS.
    - destruct (proxy_on_JS_frame repr s x) as (_ & _ & _ & Hcp).
      cbn zeta in Hcp. by rewrite Hcp.
    - by apply JS_entry_kept_on_JS. }
  apply (foldl_invariant (ModelMeta.proxy_on_JS repr) Q); [done|].
  by apply (foldl_invariant (ModelMeta.proxy_on_cls repr) Q).
Qed.

(** A property of [cls] that the [JS] class lacks gets a proxy there. *)
Lemma python_property_gets_proxy st name f n doc :
  dict_get name (cls_dict st) = Some (Property f n doc) →
  ModelMeta.is_proxied st name = false →
  hasattr_JS st name = false →
  let st' := ModelMeta.create_proxies repr st in
  dict_get name (JS_dict st') = Some (Property stub_prop_func name doc)
  ∧ name ∈ JS_proxy_properties st'
  ∧ dict_get name (cls_dict st') = Some (Property f n doc).
Proof.
  intros Hsrc Hp Hh. unfold ModelMeta.create_proxies.
  set (st1 := foldl (ModelMeta.proxy_on_cls repr) st (JS_dict st)).
  assert (dict_get name (cls_dict st1) = Some (Property f n doc)
          ∧ ModelMeta.is_proxied st1 name = false
          ∧ hasattr_JS st1 name = false) as (Hsrc1 & Hp1 & Hh1).
  { apply (foldl_invariant (ModelMeta.proxy_on_cls repr)
             (λ s, dict_get name (cls_dict s) = Some (Property f n doc)
                   ∧ ModelMeta.is_proxied s name = false
                   ∧ hasattr_JS s name = false)); [|done].
    intros s x (H1 & H2 & H3).
    destruct (proxy_on_cls_frame repr s x) as (_ & _ & HJ & HJinh & HJp).
    destruct (proxy_on_cls_keeps repr s x name (hasattr_cls_own _ _ _ H1))
      as [Hd Hpx].
    cbn zeta in *. apply is_proxied_false in H2 as [H2J H2c].
    split; [by rewrite Hd|]. split.
    - apply is_proxied_false. split; [by rewrite HJp|]. intros Hin. by apply H2c, Hpx.
    - rewrite (hasattr_JS_eq s); [done|by rewrite HJ|done]. }
  destruct (dict_get_split _ _ _ Hsrc1) as (l1 & l2 & Hsplit & Hnin).
  rewrite Hsplit. rewrite foldl_app. cbn [foldl].
  destruct (second_loop_before st1 name l1 Hnin) as (HpA & _ & HhA & HcA & _).
  cbn zeta in *.
  set (sA := foldl (ModelMeta.proxy_on_JS repr) st1 l1) in *.
  set (sB := ModelMeta.proxy_on_JS repr sA (name, Property f n doc)).
  set (Q := λ s : class_state,
         dict_get name (JS_dict s) = Some (Property stub_prop_func name doc)
         ∧ name ∈ JS_proxy_properties s
         ∧ dict_get name (cls_dict s) = Some (Property f n doc)).
  assert (Q sB) as HB.
  { subst sB Q. unfold ModelMeta.proxy_on_JS. cbn [fst snd].
    rewrite HpA, Hp1, HhA, Hh1. cbn. split; [|split].
    - rewrite dict_get_set. by rewrite decide_True.
    - apply elem_of_app. right. apply list_elem_of_here.
    - by rewrite HcA. }
  apply (foldl_invariant (ModelMeta.proxy_on_JS repr) Q); [|done].
  intros s x (H1 & H2 & H3). split; [|split].
  - by apply JS_entry_kept_on_JS.
  - by apply proxy_on_JS_grows.
  - by apply cls_entry_kept_on_JS.
Qed.

(** X15: a property that one of the two classes declares, that is no proxy
    yet and whose name the other class does not have, gets a proxy on the
    other class: a property of the same name with the stub as its function
    and the docstring of the original, listed among the proxies of that
    class; the declaration itself stays as it is.  This holds in both
    directions. *)
Theorem missing_property_gets_stub_proxy s st name f n doc :
  dict_get name (source_dict s st) = Some (Property f n doc) →
  ModelMeta.is_proxied st name = false →
  target_hasattr s st name = false →
  let st' := ModelMeta.create_proxies repr st in
  dict_get name (target_dict s st') = Some (Property stub_prop_func name doc)
  ∧ (name ∈ target_proxy_properties s st')
  ∧ dict_get name (source_dict s st') = Some (Property f n doc).
Proof.
  destruct s; cbn [source_dict target_dict target_hasattr target_proxy_properties].
  - apply js_property_gets_proxy.
  - apply python_property_gets_proxy.
Qed.

(** X16: an emitter that the [JS] class declares and whose name [cls] does
    not have gets a proxy on [cls] that raises when it is called, telling
    that the emitter can only be called from JavaScript; the emitter of the
    [JS] class stays as it is. *)
Theorem js_emitter_gets_raising_proxy st name f n doc args :
  dict_get name (JS_dict st) = Some (Emitter f n doc) →
  hasattr_cls st name = false →
  let st' := ModelMeta.create_proxies repr st in
  dict_get name (cls_dict st') = Some (Emitter stub_emitter_func_py name doc)
  ∧ call_emitter_func stub_emitter_func_py args
    = Raise "RuntimeError" "This emitter can only be called from JavaScript"
  ∧ dict_get name (JS_dict st') = Some (Emitter f n doc).
Proof.
  intros Hsrc Hh. unfold ModelMeta.create_proxies.
  destruct (dict_get_split _ _ _ Hsrc) as (l1 & l2 & Hsplit & Hnin).
  destruct (first_loop_before st name l1 Hnin) as (_ & Hh1 & _ & _ & HJ1).
  cbn zeta in *.
  set (sA := foldl (ModelMeta.proxy_on_cls repr) st l1) in *.
  set (sB := ModelMeta.proxy_on_cls repr sA (name, Emitter f n doc)).
  assert (foldl (ModelMeta.proxy_on_cls repr) st (JS_dict st)
          = foldl (ModelMeta.proxy_on_cls repr) sB l2) as ->.
  { rewrite Hsplit. by rewrite foldl_app. }
  set (Q := λ s : class_state,
         dict_get name (cls_dict s) = Some (Emitter stub_emitter_func_py name doc)
         ∧ dict_get name (JS_dict s) = Some (Emitter f n doc)).
  assert (Q sB) as HB.
  { subst sB Q. unfold ModelMeta.proxy_on_cls. cbn [fst snd].
    rewrite Hh1, Hh. cbn. split.
    - rewrite dict_get_set. by rewrite decide_True.
    - by rewrite HJ1. }
  assert (Q (foldl (ModelMeta.proxy_on_JS repr)
               (foldl (ModelMeta.proxy_on_cls repr) sB l2)
               (cls_dict (foldl (ModelMeta.proxy_on_cls repr) sB l2)))) as [H1 H2].
  { apply (foldl_invariant (ModelMeta.proxy_on_JS repr) Q).
    - intros s x [H1 H2]. split;
        [by apply cls_entry_kept_on_JS|by apply JS_entry_kept_on_JS].
    - apply (foldl_invariant (ModelMeta.proxy_on_cls repr) Q); [|done].
      intros s x [H1 H2]. split;
        [by apply cls_entry_kept_on_cls|by apply JS_entry_kept_on_cls]. }
  done.
Qed.

(** What the two loops keep of the lists of proxies. *)
Lemma proxies_kept_on_cls st0 s item :
  ((∀ x, x ∈ cls_proxy_properties s → x ∉ JS_proxy_properties s)
   ∧ (∀ x, x ∈ cls_proxy_properties s →
        x ∈ cls_proxy_properties st0
        ∨ ∃ doc, dict_get x (cls_dict s) = Some (Property stub_prop_func x doc))
   ∧ (∀ x, x ∈ JS_proxy_properties s →
        x ∈ JS_proxy_properties st0
        ∨ ∃ doc, dict_get x (JS_dict s) = Some (Property stub_prop_func x doc))) →
  let s' := ModelMeta.proxy_on_cls repr s item in
  (∀ x, x ∈ cls_proxy_properties s' → x ∉ JS_proxy_properties s')
  ∧ (∀ x, x ∈ cls_proxy_properties s' →
       x ∈ cls_proxy_properties st0
       ∨ ∃ doc, dict_get x (cls_dict s') = Some (Property stub_prop_func x doc))
  ∧ (∀ x, x ∈ JS_proxy_properties s' →
       x ∈ JS_proxy_properties st0
       ∨ ∃ doc, dict_get x (JS_dict s') = Some (Property stub_prop_func x doc)).
Proof.
  intros (HD & HE & HF).
  destruct (proxy_on_cls_frame repr s item) as (_ & _ & HJ & _ & HJp).
  cbn zeta in *. rewrite HJ, HJp.
  destruct (proxy_on_cls_result s item)
    as [[-> ->]|[(f & n & doc & _ & Hp & Hh & -> & ->)|(f & n & doc & _ & Hh & -> & ->)]].
  - done.
  - apply is_proxied_false in Hp as [HpJ Hpc]. split; [|split; [|done]].
    + intros x [Hx|Hx%list_elem_of_singleton]%elem_of_app;
        [by apply HD|by subst x].
    + intros x [Hx|Hx%list_elem_of_singleton]%elem_of_app; [|subst x].
      * destruct (HE x Hx) as [?|[d Hd]]; [by left|]. right.
        rewrite dict_get_set. destruct (decide (item.1 = x)) as [<-|]; eauto.
      * right. exists doc. rewrite dict_get_set. by rewrite decide_True.
  - split; [done|]. split; [|done].
    intros x Hx. destruct (HE x Hx) as [?|[d Hd]]; [by left|]. right. exists d.
    rewrite dict_get_set_ne; [done|]. intros Heq. rewrite Heq in Hh.
    by rewrite (hasattr_cls_own _ _ _ Hd) in Hh.
Qed.

Lemma proxies_kept_on_JS st0 s item :
  ((∀ x, x ∈ cls_proxy_properties s → x ∉ JS_proxy_properties s)
   ∧ (∀ x, x ∈ cls_proxy_properties s →
        x ∈ cls_proxy_properties st0
        ∨ ∃ doc, dict_get x (cls_dict s) = Some (Property stub_prop_func x doc))
   ∧ (∀ x, x ∈ JS_proxy_properties s →
        x ∈ JS_proxy_properties st0
        ∨ ∃ doc, dict_get x (JS_dict s) = Some (Property stub_prop_func x doc))) →
  let s' := ModelMeta.proxy_on_JS repr s item in
  (∀ x, x ∈ cls_proxy_properties s' → x ∉ JS_proxy_properties s')
  ∧ (∀ x, x ∈ cls_proxy_properties s' →
       x ∈ cls_proxy_properties st0
       ∨ ∃ doc, dict_get x (cls_dict s') = Some (Property stub_prop_func x doc))
  ∧ (∀ x, x ∈ JS_proxy_properties s' →
       x ∈ JS_proxy_properties st0
       ∨ ∃ doc, dict_get x (JS_dict s') = Some (Property stub_prop_func x doc)).
Proof.
  intros (HD & HE & HF).
  destruct (proxy_on_JS_frame repr s item) as (_ & _ & _ & Hcp).
  cbn zeta in *. rewrite Hcp.
  destruct (proxy_on_JS_result s item)
    as [(-> & -> & ->)|[(f & n & doc & _ & Hp & Hh & -> & -> & ->)
                       |(f & n & doc & _ & Hh & -> & -> & ->)]].
  - done.
  - apply is_proxied_false in Hp as [HpJ Hpc]. split; [|split; [done|]].
    + intros x Hx [HxJ|HxJ%list_elem_of_singleton]%elem_of_app;
        [by apply (HD x)|by subst x].
    + intros x [Hx|Hx%list_elem_of_singleton]%elem_of_app; [|subst x].
      * destruct (HF x Hx) as [?|[d Hd]]; [by left|]. right.
        rewrite dict_get_set. destruct (decide (item.1 = x)) as [<-|]; eauto.
      * right. exists doc. rewrite dict_get_set. by rewrite decide_True.
  - split; [done|]. split; [|done].
    intros x Hx. destruct (HE x Hx) as [?|[d Hd]]; [by left|]. right. exists d.
    rewrite dict_get_set_ne; [done|]. intros Heq. rewrite Heq in Hh.
    by rewrite (hasattr_cls_own _ _ _ Hd) in Hh.
Qed.

(** X17: if no name is a proxy on both classes before the two loops, none
    is after them; and every name that the loops add to the proxies of a
    class is, on that class, a property with the stub as its function. *)
Theorem proxies_stay_on_one_side st :
  (∀ x, x ∈ cls_proxy_properties st → x ∉ JS_proxy_properties st) →
  let st' := ModelMeta.create_proxies repr st in
  (∀ x, x ∈ cls_proxy_properties st' → x ∉ JS_proxy_properties st')
  ∧ (∀ x, x ∈ cls_proxy_properties st' →
       x ∈ cls_proxy_properties st
       ∨ ∃ doc, dict_get x (cls_dict st') = Some (Property stub_prop_func x doc))
  ∧ (∀ x, x ∈ JS_proxy_properties st' →
       x ∈ JS_proxy_properties st
       ∨ ∃ doc, dict_get x (JS_dict st') = Some (Property stub_prop_func x doc)).
Proof.
  intros HD. unfold ModelMeta.create_proxies.
  apply (foldl_invariant (ModelMeta.proxy_on_JS repr)
           (λ s, (∀ x, x ∈ cls_proxy_properties s → x ∉ JS_proxy_properties s)
                 ∧ (∀ x, x ∈ cls_proxy_properties s →
                      x ∈ cls_proxy_properties st
                      ∨ ∃ doc, dict_get x (cls_dict s)
                               = Some (Property stub_prop_func x doc))
                 ∧ (∀ x, x ∈ JS_proxy_properties s →
                      x ∈ JS_proxy_properties st
                      ∨ ∃ doc, dict_get x (JS_dict s)
                               = Some (Property stub_prop_func x doc)))).
  { intros s x. apply proxies_kept_on_JS. }
  apply (foldl_invariant (ModelMeta.proxy_on_cls repr)
           (λ s, (∀ x, x ∈ cls_proxy_properties s → x ∉ JS_proxy_properties s)
                 ∧ (∀ x, x ∈ cls_proxy_properties s →
                      x ∈ cls_proxy_properties st
                      ∨ ∃ doc, dict_get x (cls_dict s)
                               = Some (Property stub_prop_func x doc))
                 ∧ (∀ x, x ∈ JS_proxy_properties s →
                      x ∈ JS_proxy_properties st
                      ∨ ∃ doc, dict_get x (JS_dict s)
                               = Some (Property stub_prop_func x doc)))).
  { intros s x. apply proxies_kept_on_cls. }
  split; [done|]. split; intros x Hx; by left.
Qed.
End ProxyCreation.

Lemma missing_property_gets_stub_proxy_witness :
  let st' := ModelMeta.create_proxies sample_repr Lamp_before in
  (dict_get "hue" (source_dict on_Py Lamp_before)
   = Some (Property (user_prop_func to_abs) "hue" "colour")
   ∧ ModelMeta.is_proxied Lamp_before "hue" = false
   ∧ target_hasattr on_Py Lamp_before "hue" = false)
  ∧ (dict_get "power" (source_dict on_JS Lamp_before)
     = Some (Property (user_prop_func to_int) "power" "on or off")
     ∧ ModelMeta.is_proxied Lamp_before "power" = false
     ∧ target_hasattr on_JS Lamp_before "power" = false)
  ∧ (dict_get "hue" (cls_dict st') = Some (Property stub_prop_func "hue" "colour")
     ∧ ("hue" ∈ cls_proxy_properties st')
     ∧ dict_get "hue" (JS_dict st')
       = Some (Property (user_prop_func to_abs) "hue" "colour"))
  ∧ (dict_get "power" (JS_dict st') = Some (Property stub_prop_func "power" "on or off")
     ∧ ("power" ∈ JS_proxy_properties st')
     ∧ dict_get "power" (cls_dict st')
       = Some (Property (user_prop_func to_int) "power" "on or off")).
Proof.
  split; [repeat split|]. split; [repeat split|]. split.
  - exact (missing_property_gets_stub_proxy sample_repr on_Py Lamp_before
             "hue" (user_prop_func to_abs) "hue" "colour" eq_refl eq_refl eq_refl).
  - exact (missing_property_gets_stub_proxy sample_repr on_JS Lamp_before
             "power" (user_prop_func to_int) "power" "on or off"
             eq_refl eq_refl eq_refl).
Defined.

Lemma js_emitter_gets_raising_proxy_witness :
  let st' := ModelMeta.create_proxies sample_repr Lamp_before in
  (dict_get "flash" (JS_dict Lamp_before)
   = Some (Emitter (user_emitter_func (λ _, VNone)) "flash" "once")
   ∧ hasattr_cls Lamp_before "flash" = false)
  ∧ dict_get "flash" (cls_dict st') = Some (Emitter stub_emitter_func_py "flash" "once")
  ∧ call_emitter_func stub_emitter_func_py [VInt 1]
    = Raise "RuntimeError" "This emitter can only be called from JavaScript"
  ∧ dict_get "flash" (JS_dict st')
    = Some (Emitter (user_emitter_func (λ _, VNone)) "flash" "once").
Proof.
  split; [repeat split|].
  exact (js_emitter_gets_raising_proxy sample_repr Lamp_before "flash"
           (user_emitter_func (λ _, VNone)) "flash" "once" [VInt 1] eq_refl eq_refl).
Defined.

Lemma proxies_stay_on_one_side_witness :
  let st' := ModelMeta.create_proxies sample_repr Lamp_before in
  (∀ x, x ∈ cls_proxy_properties Lamp_before → x ∉ JS_proxy_properties Lamp_before)
  ∧ (∀ x, x ∈ cls_proxy_properties st' → x ∉ JS_proxy_properties st')
  ∧ (∀ x, x ∈ cls_proxy_properties st' →
       x ∈ cls_proxy_properties Lamp_before
       ∨ ∃ doc, dict_get x (cls_dict st') = Some (Property stub_prop_func x doc))
  ∧ (∀ x, x ∈ JS_proxy_properties st' →
       x ∈ JS_proxy_properties Lamp_before
       ∨ ∃ doc, dict_get x (JS_dict st') = Some (Property stub_prop_func x doc)).
Proof.
  assert (∀ x, x ∈ cls_proxy_properties Lamp_before
               → x ∉ JS_proxy_properties Lamp_before) as Hd.
  { intros x Hx%list_elem_of_singleton Hy%list_elem_of_singleton. congruence. }
  split; [exact Hd|].
  exact (proxies_stay_on_one_side sample_repr Lamp_before Hd).
Defined.
